(** * Async job queue and Ollama load balancer: a shallow embedding

    The development follows the Python sources

      - [backend/open_webui/models/jobs.py]        (ORM rows and the data-access layer),
      - [backend/open_webui/utils/job_scheduler.py] (claiming queued jobs),
      - [backend/open_webui/routers/jobs.py]        (HTTP handlers and the worker),
      - [backend/open_webui/routers/ollama.py]      (metrics registry and selector),
      - [backend/open_webui/routers/system.py]      (the load-balancing strategy),
      - [backend/open_webui/models/backend_snapshots.py] (backend snapshots).

    Conventions of the embedding.

      - A table is the list of its rows in row-identity order; a session is a
        working copy of the database that becomes the database on [commit]
        and is dropped when the [with] block is left by an exception.
      - [int(time.time())] is the parameter [now]; [uuid.uuid4()] is the
        parameter [job_id] of [insert_new_job].
      - The Python [float] values of the metrics registry (response times,
        tokens per second, the balancer weights and scores) are IEEE 754
        binary64 numbers with the operations of [SpecFloat], rounding
        included.  [priority_score] is a rational [Q]: it starts at an
        integer priority and grows in steps of 0.5, and binary64 holds and
        adds such numbers exactly up to 2^52.
      - A Python exception is the [Raise] branch of [outcome]; which database
        step raises is chosen by a [db_fault] argument. *)

From Stdlib Require Import ZArith QArith Lqa String List Lia Sorted Permutation.
From Stdlib Require Import SpecFloat.
From stdpp Require Import gmap strings list.

Open Scope string_scope.
Open Scope list_scope.
Open Scope Z_scope.

(** ** JSON payloads and Python dicts *)

#[local] Unset Elimination Schemes.
Inductive json : Type :=
| JNull
| JBool (b : bool)
| JInt (z : Z)
| JFloat (q : Q)
| JStr (s : string)
| JList (l : list json)
| JDict (d : list (string * json)).
#[local] Set Elimination Schemes.

(** A [dict] with string keys, in insertion order. *)
Abbreviation pydict := (list (string * json)).

(** [d.get(k)]: the value, or [None] when the key is absent. *)
Fixpoint dict_get (k : string) (d : pydict) : option json :=
  match d with
  | [] => None
  | (k', v) :: d' => if String.eqb k' k then Some v else dict_get k d'
  end.

(** [d[k] = v]: overwrite in place, or append a new key. *)
Fixpoint dict_set (k : string) (v : json) (d : pydict) : pydict :=
  match d with
  | [] => [(k, v)]
  | (k', v') :: d' =>
      if String.eqb k' k then (k', v) :: d' else (k', v') :: dict_set k v d'
  end.

(** An [Optional[...]] attribute as it is serialised: [None] is [null]. *)
Definition json_opt {A} (f : A -> json) (o : option A) : json :=
  match o with Some a => f a | None => JNull end.

(** ** Exceptions *)

Inductive outcome (A : Type) : Type :=
| Ok (a : A)
| Raise (e : string).
Arguments Ok {A} a.
Arguments Raise {A} e.

#[export] Instance outcome_ret : MRet outcome := fun _ a => Ok a.
#[export] Instance outcome_bind : MBind outcome := fun _ _ k m =>
  match m with Ok a => k a | Raise e => Raise e end.

(** ** Python floats *)

Module pyfloat.

(** A Python [float] is an IEEE 754 binary64 number: 53 bits of precision,
    exponents below 1024.  [SpecFloat] gives the format and its operations,
    which round to nearest, ties to even. *)
Definition prec : Z := 53.
Definition emax : Z := 1024.
Definition float : Type := spec_float.

Definition add : float -> float -> float := SFadd prec emax.
Definition sub : float -> float -> float := SFsub prec emax.
Definition mul : float -> float -> float := SFmul prec emax.

(** [x / y] for a divisor that is not zero. *)
Definition div : float -> float -> float := SFdiv prec emax.

(** [x < y], [x <= y] and [x == y]; all three are [False] on a NaN. *)
Definition ltb : float -> float -> bool := SFltb.
Definition leb : float -> float -> bool := SFleb.
Definition eqb : float -> float -> bool := SFeqb.

Definition is_nan (x : float) : bool :=
  match x with S754_nan => true | _ => false end.
Definition is_finite (x : float) : bool :=
  match x with S754_zero _ | S754_finite _ _ _ => true | _ => false end.

(** The float nearest to an integer, infinite when that is out of range. *)
Definition round_int (n : Z) : float := binary_normalize prec emax n 0 false.

(** An [int] operand of a float operation is converted first;
    [OverflowError] when it is out of the range of a float. *)
Definition of_int (n : Z) : outcome float :=
  match round_int n with
  | S754_infinity _ => Raise "int too large to convert to float"
  | x => Ok x
  end.

(** The literals of the registry.  A decimal literal is the float nearest to
    it, which the correctly rounded quotient of two small integers gives. *)
Definition zero : float := S754_zero false.
Definition inf : float := S754_infinity false.
Definition one : float := Eval vm_compute in round_int 1.
Definition thousand : float := Eval vm_compute in round_int 1000.
Definition billion : float := Eval vm_compute in round_int 1000000000.
Definition tenth : float :=
  Eval vm_compute in div (round_int 1) (round_int 10).
Definition three_tenths : float :=
  Eval vm_compute in div (round_int 3) (round_int 10).
Definition seven_tenths : float :=
  Eval vm_compute in div (round_int 7) (round_int 10).

End pyfloat.

(** ** models/jobs.py: schema *)

Definition JOB_STATUS_QUEUED : string := "queued".
Definition JOB_STATUS_RUNNING : string := "running".
Definition JOB_STATUS_COMPLETED : string := "completed".
Definition JOB_STATUS_FAILED : string := "failed".
Definition JOB_STATUS_CANCELLED : string := "cancelled".

Definition TERMINAL_STATUSES : gset string :=
  {[ JOB_STATUS_COMPLETED; JOB_STATUS_FAILED; JOB_STATUS_CANCELLED ]}.

(** [s in TERMINAL_STATUSES] *)
Definition in_terminal (s : string) : bool := bool_decide (s ∈ TERMINAL_STATUSES).

(** The [job] table's row ([class Job(Base)]); [JobModel] has the same
    attributes, so [JobModel.model_validate] is the identity here. *)
Record Job : Type := mkJob {
  id : string;
  user_id : string;
  status : string;
  priority : Z;
  priority_score : Q;
  model_id : option string;
  backend_url : option string;
  request : option pydict;
  result : option pydict;
  error : option string;
  attempt_count : Z;
  max_attempts : Z;
  created_at : Z;
  updated_at : Z
}.

(** Attribute assignments on an ORM object. *)
Definition set_status (s : string) (j : Job) : Job :=
  mkJob (id j) (user_id j) s (priority j) (priority_score j) (model_id j)
    (backend_url j) (request j) (result j) (error j) (attempt_count j)
    (max_attempts j) (created_at j) (updated_at j).
Definition set_priority_score (q : Q) (j : Job) : Job :=
  mkJob (id j) (user_id j) (status j) (priority j) q (model_id j)
    (backend_url j) (request j) (result j) (error j) (attempt_count j)
    (max_attempts j) (created_at j) (updated_at j).
Definition set_backend_url (u : option string) (j : Job) : Job :=
  mkJob (id j) (user_id j) (status j) (priority j) (priority_score j) (model_id j)
    u (request j) (result j) (error j) (attempt_count j)
    (max_attempts j) (created_at j) (updated_at j).
Definition set_result (r : option pydict) (j : Job) : Job :=
  mkJob (id j) (user_id j) (status j) (priority j) (priority_score j) (model_id j)
    (backend_url j) (request j) r (error j) (attempt_count j)
    (max_attempts j) (created_at j) (updated_at j).
Definition set_error (e : option string) (j : Job) : Job :=
  mkJob (id j) (user_id j) (status j) (priority j) (priority_score j) (model_id j)
    (backend_url j) (request j) (result j) e (attempt_count j)
    (max_attempts j) (created_at j) (updated_at j).
Definition set_attempt_count (n : Z) (j : Job) : Job :=
  mkJob (id j) (user_id j) (status j) (priority j) (priority_score j) (model_id j)
    (backend_url j) (request j) (result j) (error j) n
    (max_attempts j) (created_at j) (updated_at j).
Definition set_updated_at (t : Z) (j : Job) : Job :=
  mkJob (id j) (user_id j) (status j) (priority j) (priority_score j) (model_id j)
    (backend_url j) (request j) (result j) (error j) (attempt_count j)
    (max_attempts j) (created_at j) t.

(** The [job_archive] table's row: the columns of [Job] and [archived_at]. *)
Record JobArchive : Type := mkJobArchive {
  archived_row : Job;
  archived_at : Z
}.

(** The database: the two tables, rows in row-identity order. *)
Record DB : Type := mkDB {
  job_table : list Job;
  job_archive_table : list JobArchive
}.

(** ** Sessions *)

(** Where a database step raises, if anywhere. *)
Inductive db_fault : Type :=
| NoFault
| ConnectFault   (* get_db_context itself raises *)
| QueryFault     (* the SELECT raises *)
| CommitFault.   (* db.commit() raises *)

(** [with get_db_context(db) as db]: a working copy of the database. *)
Definition get_db_context (f : db_fault) (db : DB) : outcome DB :=
  match f with ConnectFault => Raise "connect" | _ => Ok db end.

(** The guard in front of every [db.query(...)]. *)
Definition query_guard (f : db_fault) : outcome unit :=
  match f with QueryFault => Raise "query" | _ => Ok tt end.

(** [db.commit()]: the working copy becomes the database. *)
Definition commit (f : db_fault) (session : DB) : outcome DB :=
  match f with CommitFault => Raise "commit" | _ => Ok session end.

(** [db.query(Job).filter(Job.id == job_id).first()] *)
Definition query_job_by_id (job_id : string) (rows : list Job) : option Job :=
  List.find (fun j => String.eqb (id j) job_id) rows.

(** The UPDATE that flushes a changed ORM object: the row with the object's
    primary key is replaced. *)
Fixpoint update_row (j' : Job) (rows : list Job) : list Job :=
  match rows with
  | [] => []
  | r :: rows' =>
      if String.eqb (id r) (id j') then j' :: rows' else r :: update_row j' rows'
  end.

(** [db.delete(job)] *)
Fixpoint delete_row (job_id : string) (rows : list Job) : list Job :=
  match rows with
  | [] => []
  | r :: rows' =>
      if String.eqb (id r) job_id then rows' else r :: delete_row job_id rows'
  end.

Definition with_jobs (rows : list Job) (db : DB) : DB :=
  mkDB rows (job_archive_table db).

(** Change one job row and commit. *)
Definition flush_job (j' : Job) (db : DB) : DB :=
  with_jobs (update_row j' (job_table db)) db.

(** ** models/jobs.py: JobsTable *)

Module JobsTable.

Definition insert_new_job (now : Z) (job_id : string) (user_id : string)
    (model_id : string) (request_payload : pydict) (priority : Z)
    (max_attempts : Z) (db : DB) : DB * option Job :=
  let job :=
    mkJob job_id user_id JOB_STATUS_QUEUED priority (inject_Z priority)
      (Some model_id) None (Some request_payload) None None 0 max_attempts
      now now in
  (with_jobs (job_table db ++ [job]) db, Some job).

Definition get_job_by_id (job_id : string) (db : DB) : option Job :=
  query_job_by_id job_id (job_table db).

Definition update_job_running (now : Z) (job_id : string)
    (backend : option string) (db : DB) : DB * option Job :=
  match query_job_by_id job_id (job_table db) with
  | None => (db, None)
  | Some job =>
      let job := set_status JOB_STATUS_RUNNING job in
      let job := set_attempt_count (attempt_count job + 1) job in
      let job :=
        match backend with
        | Some u => if String.eqb u "" then job else set_backend_url (Some u) job
        | None => job
        end in
      let job := set_updated_at now job in
      (flush_job job db, Some job)
  end.

Definition update_job_completed (now : Z) (job_id : string) (res : pydict)
    (db : DB) : DB * option Job :=
  match query_job_by_id job_id (job_table db) with
  | None => (db, None)
  | Some job =>
      let job := set_status JOB_STATUS_COMPLETED job in
      let job := set_result (Some res) job in
      let job := set_error None job in
      let job := set_updated_at now job in
      (flush_job job db, Some job)
  end.

Definition update_job_failed (now : Z) (job_id : string) (err : string)
    (requeue : bool) (db : DB) : DB * option Job :=
  match query_job_by_id job_id (job_table db) with
  | None => (db, None)
  | Some job =>
      let job := set_error (Some err) job in
      let job :=
        if requeue && (attempt_count job <? max_attempts job)
        then set_status JOB_STATUS_QUEUED job
        else set_status JOB_STATUS_FAILED job in
      let job := set_updated_at now job in
      (flush_job job db, Some job)
  end.

Definition update_job_cancelled (now : Z) (job_id : string) (db : DB)
    : DB * option Job :=
  match query_job_by_id job_id (job_table db) with
  | None => (db, None)
  | Some job =>
      if in_terminal (status job) then (db, Some job)
      else
        let job := set_status JOB_STATUS_CANCELLED job in
        let job := set_updated_at now job in
        (flush_job job db, Some job)
  end.

Definition retry_job (now : Z) (job_id : string) (db : DB) : DB * option Job :=
  match query_job_by_id job_id (job_table db) with
  | None => (db, None)
  | Some job =>
      let job := set_status JOB_STATUS_QUEUED job in
      let job := set_error None job in
      let job := set_attempt_count 0 job in
      let job := set_priority_score (inject_Z (priority job)) job in
      let job := set_updated_at now job in
      (flush_job job db, Some job)
  end.

End JobsTable.

(** ** models/jobs.py: JobArchiveTable *)

Module JobArchiveTable.

(** The [JobArchive(...)] row built from a job, column by column. *)
Definition to_archive (now : Z) (job : Job) : JobArchive :=
  mkJobArchive
    (mkJob (id job) (user_id job) (status job) (priority job)
       (priority_score job) (model_id job) (backend_url job) (request job)
       (result job) (error job) (attempt_count job) (max_attempts job)
       (created_at job) (updated_at job))
    now.

(** The loop body: [db.add(row); db.delete(job)] on the session. *)
Definition archive_one (now : Z) (session : DB) (job : Job) : DB :=
  mkDB (delete_row (id job) (job_table session))
       (job_archive_table session ++ [to_archive now job]).

(** The rows the sweep selects:
    [Job.status.in_(TERMINAL_STATUSES), Job.updated_at < cutoff]. *)
Definition old_jobs_of (cutoff : Z) (db : DB) : list Job :=
  List.filter (fun j => in_terminal (status j) && (updated_at j <? cutoff))
    (job_table db).

(** The body of the [try] block: the session after the commit and the value
    of the local [archived] when the block is left, normally or not. *)
Definition archive_old_jobs (now : Z) (older_than_days : Z) (f : db_fault)
    (db : DB) : DB * Z :=
  let cutoff := now - older_than_days * 86400 in
  let archived := 0 in
  match get_db_context f db with
  | Raise _ => (db, archived)
  | Ok session =>
      match query_guard f with
      | Raise _ => (db, archived)
      | Ok _ =>
          let old_jobs := old_jobs_of cutoff session in
          let session := fold_left (archive_one now) old_jobs session in
          let archived := Z.of_nat (length old_jobs) in
          match commit f session with
          | Raise _ => (db, archived)
          | Ok db' => (db', archived)
          end
      end
  end.

Definition purge_old_archives (now : Z) (older_than_days : Z) (f : db_fault)
    (db : DB) : DB * Z :=
  if older_than_days <=? 0 then (db, 0)
  else
    let cutoff := now - older_than_days * 86400 in
    let deleted := 0 in
    match get_db_context f db with
    | Raise _ => (db, deleted)
    | Ok session =>
        match query_guard f with
        | Raise _ => (db, deleted)
        | Ok _ =>
            let keep :=
              List.filter (fun r => negb (archived_at r <? cutoff))
                (job_archive_table session) in
            let deleted :=
              Z.of_nat (length (job_archive_table session))
              - Z.of_nat (length keep) in
            match commit f (mkDB (job_table session) keep) with
            | Raise _ => (db, deleted)
            | Ok db' => (db', deleted)
            end
        end
    end.

End JobArchiveTable.

(** ** utils/job_scheduler.py *)

Module job_scheduler.

Definition Qltb (x y : Q) : bool := negb (Qle_bool y x).

(** [ORDER BY priority_score DESC, created_at ASC]: [a] sorts strictly
    before [b]. *)
Definition claim_before (a b : Job) : bool :=
  Qltb (priority_score b) (priority_score a)
  || (Qeq_bool (priority_score a) (priority_score b)
      && (created_at a <? created_at b)).

(** A stable sort: rows that compare equal keep their table order. *)
Fixpoint insert_by {A} (before : A -> A -> bool) (x : A) (l : list A) : list A :=
  match l with
  | [] => [x]
  | y :: l' =>
      if before y x then y :: insert_by before x l' else x :: y :: l'
  end.

Fixpoint order_by {A} (before : A -> A -> bool) (l : list A) : list A :=
  match l with
  | [] => []
  | x :: l' => insert_by before x (order_by before l')
  end.

(** [db.query(Job).filter(Job.status == JOB_STATUS_QUEUED)
      .order_by(Job.priority_score.desc(), Job.created_at.asc()).first()] *)
Definition first_queued (rows : list Job) : option Job :=
  hd_error
    (order_by claim_before
       (List.filter (fun j => String.eqb (status j) JOB_STATUS_QUEUED) rows)).

(** What claiming does to the row. *)
Definition claimed (now : Z) (job : Job) : Job :=
  set_updated_at now
    (set_attempt_count (attempt_count job + 1)
       (set_status JOB_STATUS_RUNNING job)).

(** One of the two [with get_db_context() as db] blocks.  They differ only in
    [with_for_update(skip_locked=True)], which locks the selected row and
    selects the same row when no other transaction is open. *)
Definition claim_attempt (now : Z) (f : db_fault) (db : DB)
    : outcome (DB * option string) :=
  session ← get_db_context f db;
  _ ← query_guard f;
  match first_queued (job_table session) with
  | None => Ok (db, None)
  | Some job =>
      db' ← commit f (flush_job (claimed now job) session);
      Ok (db', Some (id job))
  end.

(** [f1] is where the first attempt raises, [f2] where the fallback does. *)
Definition _claim_next_queued_job (now : Z) (f1 f2 : db_fault) (db : DB)
    : DB * option string :=
  match claim_attempt now f1 db with
  | Ok r => r
  | Raise _ =>
      match claim_attempt now f2 db with
      | Ok r => r
      | Raise _ => (db, None)
      end
  end.

Definition STARVATION_INCREMENT : Q := 1 # 2.

(** [update(Job).where(Job.status == JOB_STATUS_QUEUED)
      .values(priority_score=Job.priority_score + STARVATION_INCREMENT)] *)
Definition _bump_stale_jobs (f : db_fault) (db : DB) : DB :=
  match
    session ← get_db_context f db;
    _ ← query_guard f;
    commit f
      (with_jobs
         (map (fun j =>
                 if String.eqb (status j) JOB_STATUS_QUEUED
                 then set_priority_score
                        (priority_score j + STARVATION_INCREMENT)%Q j
                 else j)
            (job_table session))
         session)
  with
  | Ok db' => db'
  | Raise _ => db
  end.

End job_scheduler.

(** ** routers/jobs.py *)

Module jobs_router.

(** The authenticated caller: [user.id] and the optional [job_priority]. *)
Record UserModel : Type := mkUser {
  uid : string;
  job_priority : option Z
}.

(** [request.app.state]: the Redis connection (or [None]) with the
    string-keyed JSON documents it holds, and the model registry. *)
Record AppState : Type := mkApp {
  redis : option (gmap string pydict);
  MODELS : gset string
}.

Definition with_redis (r : option (gmap string pydict)) (app : AppState)
    : AppState :=
  mkApp r (MODELS app).

Inductive http_response : Type :=
| Response (status_code : Z) (content : pydict)
| HTTPException (status_code : Z).

Definition HTTP_200_OK : Z := 200.
Definition HTTP_202_ACCEPTED : Z := 202.
Definition HTTP_403_FORBIDDEN : Z := 403.
Definition HTTP_404_NOT_FOUND : Z := 404.
Definition HTTP_409_CONFLICT : Z := 409.
Definition HTTP_500_INTERNAL_SERVER_ERROR : Z := 500.

Definition cache_key (job_id : string) : string := ("job:" ++ job_id)%string.

(** [_cache_job]: [redis.set(key, json.dumps(job_data), ex=_JOB_CACHE_TTL)] *)
Definition _cache_job (app : AppState) (job_id : string) (job_data : pydict)
    : AppState :=
  match redis app with
  | None => app
  | Some store => with_redis (Some (<[cache_key job_id := job_data]> store)) app
  end.

(** [_invalidate_job_cache]: [redis.delete(key)]; when the command raises,
    the error is logged and the key stays.  [delete_raises] tells whether
    it does. *)
Definition _invalidate_job_cache (delete_raises : bool) (app : AppState)
    (job_id : string) : AppState :=
  match redis app with
  | None => app
  | Some store =>
      if delete_raises then app
      else with_redis (Some (delete (cache_key job_id) store)) app
  end.

(** [_get_cached_job]: the document read back with [json.loads], or [None]. *)
Definition _get_cached_job (app : AppState) (job_id : string) : option pydict :=
  match redis app with
  | None => None
  | Some store => store !! cache_key job_id
  end.

(** [JobResponse(...).model_dump()], keys in field order. *)
Definition _to_response (job : Job) : pydict :=
  [ ("job_id", JStr (id job));
    ("status", JStr (status job));
    ("model_id", json_opt JStr (model_id job));
    ("backend_url", json_opt JStr (backend_url job));
    ("attempt_count", JInt (attempt_count job));
    ("max_attempts", JInt (max_attempts job));
    ("created_at", JInt (created_at job));
    ("updated_at", JInt (updated_at job));
    ("result", json_opt JDict (result job));
    ("error", json_opt JStr (error job)) ].

(** [cached.get("user_id") != user.id] *)
Definition differs_from_str (o : option json) (s : string) : bool :=
  match o with
  | Some (JStr s') => negb (String.eqb s' s)
  | _ => true
  end.

(** [GET /{job_id}] *)
Definition get_job (app : AppState) (db : DB) (job_id : string)
    (include_result : bool) (user : UserModel) : AppState * http_response :=
  let cached := _get_cached_job app job_id in
  let from_db :=
    match JobsTable.get_job_by_id job_id db with
    | None => (app, HTTPException HTTP_404_NOT_FOUND)
    | Some job =>
        if negb (String.eqb (user_id job) (uid user))
        then (app, HTTPException HTTP_403_FORBIDDEN)
        else
          let response_data := _to_response job in
          let response_data :=
            if negb include_result
            then dict_set "result" JNull response_data
            else response_data in
          let app :=
            if in_terminal (status job) && include_result
            then _cache_job app job_id response_data
            else app in
          (app, Response HTTP_200_OK response_data)
    end in
  match cached with
  | Some ((_ :: _) as doc) =>
      if include_result then
        if differs_from_str (dict_get "user_id" doc) (uid user)
        then (app, HTTPException HTTP_403_FORBIDDEN)
        else (app, Response HTTP_200_OK doc)
      else from_db
  | _ => from_db
  end.

(** [DELETE /{job_id}]; the boolean tells whether
    [stop_item_tasks] was reached for this job id. *)
Definition cancel_job (now : Z) (delete_raises : bool) (app : AppState)
    (db : DB) (job_id : string) (user : UserModel)
    : AppState * DB * bool * http_response :=
  match JobsTable.get_job_by_id job_id db with
  | None => (app, db, false, HTTPException HTTP_404_NOT_FOUND)
  | Some job =>
      if negb (String.eqb (user_id job) (uid user))
      then (app, db, false, HTTPException HTTP_403_FORBIDDEN)
      else
        match JobsTable.update_job_cancelled now job_id db with
        | (db', Some updated) =>
            (_invalidate_job_cache delete_raises app job_id, db', true,
             Response HTTP_200_OK (_to_response updated))
        | (db', None) =>
            (_invalidate_job_cache delete_raises app job_id, db', true,
             HTTPException HTTP_500_INTERNAL_SERVER_ERROR)
        end
  end.

(** [POST /{job_id}/retry] (admin) *)
Definition retry_job (now : Z) (delete_raises : bool) (app : AppState)
    (db : DB) (job_id : string) : AppState * DB * http_response :=
  match JobsTable.get_job_by_id job_id db with
  | None => (app, db, HTTPException HTTP_404_NOT_FOUND)
  | Some job =>
      if negb (in_terminal (status job))
      then (app, db, HTTPException HTTP_409_CONFLICT)
      else
        match JobsTable.retry_job now job_id db with
        | (db', Some updated) =>
            (_invalidate_job_cache delete_raises app job_id, db',
             Response HTTP_200_OK (_to_response updated))
        | (db', None) =>
            (_invalidate_job_cache delete_raises app job_id, db',
             HTTPException HTTP_500_INTERNAL_SERVER_ERROR)
        end
  end.

(** *** The background worker *)

(** What awaiting [generate_chat_completion] ends in: a response turned into
    a result dict, an [Exception], or the task's cancellation
    ([asyncio.CancelledError], which [except Exception] does not catch). *)
Inductive completion : Type :=
| Returned (res : pydict)
| Raised (exc : string)
| Cancelled.

(** The data-access calls a worker makes, in order. *)
Inductive dal_call : Type :=
| Call_insert_new_job (job_id : string)
| Call_update_job_running (job_id : string) (backend : option string)
| Call_update_job_completed (job_id : string)
| Call_update_job_failed (job_id : string) (requeue : bool)
| Call_claim_next_queued_job.

(** What a handler or worker acts on: the application state, the database,
    the events published to SSE subscribers and the log of DAL calls. *)
Record World : Type := mkWorld {
  app_state : AppState;
  db : DB;
  sse_published : list (string * pydict);
  dal_calls : list dal_call
}.

(** [_run_job] up to the point where it awaits the backend;
    [delete_raises] tells whether Redis raises at the invalidation. *)
Definition _run_job_start (now : Z) (delete_raises : bool) (job_id : string)
    (w : World) : World :=
  let (db', _) := JobsTable.update_job_running now job_id None (db w) in
  mkWorld (_invalidate_job_cache delete_raises (app_state w) job_id) db'
    (sse_published w)
    (dal_calls w ++ [Call_update_job_running job_id None]).

(** [_run_job] from the point where the awaited call ends;
    [delete_raises] tells whether Redis raises at the invalidation in the
    [finally] block. *)
Definition _run_job_finish (now : Z) (delete_raises : bool) (job_id : string)
    (user : UserModel) (c : completion) (w : World) : World :=
  let w :=
    match c with
    | Returned res =>
        let (db', _) := JobsTable.update_job_completed now job_id res (db w) in
        mkWorld (app_state w) db'
          (sse_published w ++
             [(uid user,
               [("job_id", JStr job_id); ("status", JStr "completed");
                ("updated_at", JInt now)])])
          (dal_calls w ++ [Call_update_job_completed job_id])
    | Raised exc =>
        let (db', _) := JobsTable.update_job_failed now job_id exc true (db w) in
        mkWorld (app_state w) db'
          (sse_published w ++
             [(uid user,
               [("job_id", JStr job_id); ("status", JStr "failed");
                ("error", JStr exc); ("updated_at", JInt now)])])
          (dal_calls w ++ [Call_update_job_failed job_id true])
    | Cancelled => w
    end in
  mkWorld (_invalidate_job_cache delete_raises (app_state w) job_id) (db w)
    (sse_published w) (dal_calls w).

(** The worker when nothing else touches the job while it awaits;
    [raises_first] and [raises_last] tell whether Redis raises at its first
    and at its last invalidation. *)
Definition _run_job (now : Z) (raises_first raises_last : bool)
    (job_id : string) (user : UserModel) (c : completion) (w : World)
    : World :=
  _run_job_finish now raises_last job_id user c
    (_run_job_start now raises_first job_id w).

(** [JobSubmitForm] *)
Record JobSubmitForm : Type := mkForm {
  model : string;
  messages : list json;
  temperature : option Q;
  top_p : option Q;
  max_tokens : option Z;
  stream : bool
}.

Definition opt_item {A} (k : string) (f : A -> json) (o : option A) : pydict :=
  match o with Some a => [(k, f a)] | None => [] end.

(** [form_data.model_dump(exclude_none=True)] *)
Definition model_dump_exclude_none (form : JobSubmitForm) : pydict :=
  [("model", JStr (model form)); ("messages", JList (messages form))]
  ++ opt_item "temperature" JFloat (temperature form)
  ++ opt_item "top_p" JFloat (top_p form)
  ++ opt_item "max_tokens" JInt (max_tokens form)
  ++ [("stream", JBool (stream form))].

(** A task handed to [create_task]. *)
Inductive task : Type :=
| Task_run_job (job_id : string) (payload : pydict) (user : UserModel).

(** [POST /chat/completions]: the world after the handler, the response and
    the task it spawned.  [job_id] is the fresh uuid. *)
Definition submit_job (now : Z) (job_id : string) (form : JobSubmitForm)
    (user : UserModel) (w : World) : World * http_response * option task :=
  if negb (bool_decide (model form ∈ MODELS (app_state w)))
  then (w, HTTPException HTTP_404_NOT_FOUND, None)
  else
    let payload := model_dump_exclude_none form in
    let payload := dict_set "stream" (JBool false) payload in
    let prio := match job_priority user with Some p => p | None => 5 end in
    match JobsTable.insert_new_job now job_id (uid user) (model form)
            payload prio 3 (db w) with
    | (db', None) =>
        (mkWorld (app_state w) db' (sse_published w)
           (dal_calls w ++ [Call_insert_new_job job_id]),
         HTTPException HTTP_500_INTERNAL_SERVER_ERROR, None)
    | (db', Some job) =>
        (mkWorld (app_state w) db' (sse_published w)
           (dal_calls w ++ [Call_insert_new_job job_id]),
         Response HTTP_202_ACCEPTED
           [ ("job_id", JStr (id job));
             ("status", JStr JOB_STATUS_QUEUED);
             ("model_id", json_opt JStr (model_id job));
             ("created_at", JInt (created_at job)) ],
         Some (Task_run_job (id job) payload user))
    end.

(** Running a spawned task. *)
Definition run_task (now : Z) (raises_first raises_last : bool) (t : task)
    (c : completion) (w : World) : World :=
  match t with
  | Task_run_job job_id _ user =>
      _run_job now raises_first raises_last job_id user c w
  end.

End jobs_router.

(** ** utils/job_scheduler.py: the scheduler's worker *)

Module scheduler_worker.

(** [_execute_job] up to the awaited call: it only reads the job. *)
Definition _execute_job_start (job_id : string) (db : DB) : option Job :=
  JobsTable.get_job_by_id job_id db.

(** [_execute_job] after the awaited call.  The task is made with
    [asyncio.create_task] and is not registered under the job id. *)
Definition _execute_job_finish (now : Z) (job_id : string)
    (c : jobs_router.completion) (db : DB) : DB :=
  match c with
  | jobs_router.Returned res =>
      fst (JobsTable.update_job_completed now job_id res db)
  | jobs_router.Raised exc =>
      fst (JobsTable.update_job_failed now job_id exc true db)
  | jobs_router.Cancelled => db
  end.

End scheduler_worker.

(** ** routers/ollama.py: the metrics registry and the selector *)

Module ollama.

(** One entry of [PERFORMANCE_STATS]: a dict whose keys may be absent. *)
Record PerfStats : Type := mkPerf {
  avg_response_time : option pyfloat.float;
  sample_count : option Z;
  avg_tokens_per_second : option pyfloat.float
}.

Definition empty_perf : PerfStats := mkPerf None None None.

(** The process-local dictionaries. *)
Record Memory : Type := mkMemory {
  ACTIVE_JOB_STATS : gmap string Z;
  PERFORMANCE_STATS : gmap string PerfStats;
  HEALTH_STATUS : gmap string string
}.

(** The keys the module keeps in Redis, by prefix:
    [active_jobs:], [perf_avg_response_time:], [perf_sample_count:],
    [perf_avg_tokens_per_second:] and [health_status:] (its [status]).  An
    average is stored as [str(new_avg)] and read back with [float(...)],
    which gives the same float. *)
Record RedisStore : Type := mkRedis {
  r_active_jobs : gmap string Z;
  r_avg_response_time : gmap string pyfloat.float;
  r_sample_count : gmap string Z;
  r_avg_tokens_per_second : gmap string pyfloat.float;
  r_health_status : gmap string string
}.

(** [request.app.state.redis] (or [None]), whether its commands raise, and
    the process-local state.  An outage is taken to last for a whole [try]
    block: the block's first command raises. *)
Record Stats : Type := mkStats {
  redis : option RedisStore;
  redis_raises : bool;
  memory : Memory
}.

Definition with_memory (m : Memory) (st : Stats) : Stats :=
  mkStats (redis st) (redis_raises st) m.
Definition with_redis (r : RedisStore) (st : Stats) : Stats :=
  mkStats (Some r) (redis_raises st) (memory st).

Section Registry.

(** [f"{parsed_url.scheme}://{parsed_url.netloc}"] of [urlparse(url)]. *)
Variable base_url_of : string -> string.

(** [OLLAMA_LB_ACTIVE_JOBS_WEIGHT], [OLLAMA_LB_RESPONSE_TIME_WEIGHT]: floats
    read from the environment. *)
Variables OLLAMA_LB_ACTIVE_JOBS_WEIGHT OLLAMA_LB_RESPONSE_TIME_WEIGHT
  : pyfloat.float.

(** [(alpha * sample) + ((1 - alpha) * current_avg)] *)
Definition moving_average (alpha sample current_avg : pyfloat.float)
    : pyfloat.float :=
  pyfloat.add (pyfloat.mul alpha sample)
    (pyfloat.mul (pyfloat.sub pyfloat.one alpha) current_avg).

Definition _update_token_stats_memory (base_url : string)
    (tokens_per_second alpha : pyfloat.float) (m : Memory) : Memory :=
  match PERFORMANCE_STATS m !! base_url with
  | None =>
      mkMemory (ACTIVE_JOB_STATS m)
        (<[base_url :=
             mkPerf (avg_response_time empty_perf) (sample_count empty_perf)
               (Some tokens_per_second)]> (PERFORMANCE_STATS m))
        (HEALTH_STATUS m)
  | Some entry =>
      let current_avg :=
        match avg_tokens_per_second entry with
        | Some a => a
        | None => pyfloat.zero
        end in
      let new_avg :=
        if pyfloat.eqb current_avg pyfloat.zero
        then tokens_per_second
        else moving_average alpha tokens_per_second current_avg in
      mkMemory (ACTIVE_JOB_STATS m)
        (<[base_url :=
             mkPerf (avg_response_time entry) (sample_count entry)
               (Some new_avg)]> (PERFORMANCE_STATS m))
        (HEALTH_STATUS m)
  end.

(** [eval_count / (eval_duration_nanos / 1_000_000_000.0)] for two [int]s,
    the second positive: the divisor is converted and divided first, then
    the dividend is converted.  Neither divisor is zero. *)
Definition tokens_per_second_of (eval_count eval_duration_nanos : Z)
    : outcome pyfloat.float :=
  duration ← pyfloat.of_int eval_duration_nanos;
  let seconds := pyfloat.div duration pyfloat.billion in
  count ← pyfloat.of_int eval_count;
  Ok (pyfloat.div count seconds).

(** [update_token_stats(url, eval_count, eval_duration_nanos, request)]:
    the registry afterwards and the text of the exception raised, if any. *)
Definition update_token_stats (url : string)
    (eval_count eval_duration_nanos : Z) (st : Stats)
    : Stats * option string :=
  let base_url := base_url_of url in
  if eval_duration_nanos <=? 0 then (st, None)
  else
    match tokens_per_second_of eval_count eval_duration_nanos with
    | Raise e => (st, Some e)
    | Ok tokens_per_second =>
        if pyfloat.ltb tokens_per_second pyfloat.tenth
           || pyfloat.ltb pyfloat.thousand tokens_per_second
        then (st, None)
        else
          let alpha := pyfloat.three_tenths in
          match redis st with
          | Some r =>
              if redis_raises st
              then (with_memory
                      (_update_token_stats_memory base_url tokens_per_second
                         alpha (memory st)) st,
                    None)
              else
                let current_avg :=
                  match r_avg_tokens_per_second r !! base_url with
                  | Some a => a
                  | None => pyfloat.zero
                  end in
                let new_avg :=
                  if pyfloat.eqb current_avg pyfloat.zero
                  then tokens_per_second
                  else moving_average alpha tokens_per_second current_avg in
                (with_redis
                   (mkRedis (r_active_jobs r) (r_avg_response_time r)
                      (r_sample_count r)
                      (<[base_url := new_avg]> (r_avg_tokens_per_second r))
                      (r_health_status r)) st,
                 None)
          | None =>
              (with_memory
                 (_update_token_stats_memory base_url tokens_per_second alpha
                    (memory st)) st,
               None)
          end
    end.

(** The average as [get_server_stats] reads it: from Redis when it is
    configured and answers, from [PERFORMANCE_STATS] otherwise, [0.0] when
    nothing is stored. *)
Definition read_avg_tokens_per_second (base_url : string) (st : Stats)
    : pyfloat.float :=
  let from_memory :=
    match PERFORMANCE_STATS (memory st) !! base_url with
    | Some entry => default pyfloat.zero (avg_tokens_per_second entry)
    | None => pyfloat.zero
    end in
  match redis st with
  | Some r =>
      if redis_raises st then from_memory
      else default pyfloat.zero (r_avg_tokens_per_second r !! base_url)
  | None => from_memory
  end.

(** [get_health_status]: ["healthy"], ["unhealthy"], ["unknown"], or
    [None] when Redis answers and holds no entry. *)
Definition get_health_status (base_url : string) (st : Stats)
    : option string :=
  let from_memory :=
    Some (default "unknown" (HEALTH_STATUS (memory st) !! base_url)) in
  match redis st with
  | Some r =>
      if redis_raises st then from_memory
      else
        match r_health_status r !! base_url with
        | Some s => Some s
        | None => None
        end
  | None => from_memory
  end.

(** One element of [server_metrics]. *)
Record ServerMetrics : Type := mkMetrics {
  idx : nat;
  base_url : string;
  active_jobs : Z;
  m_avg_response_time : pyfloat.float;
  health_status : option string
}.

Definition read_active_jobs (b : string) (st : Stats) : Z :=
  let from_memory := default 0 (ACTIVE_JOB_STATS (memory st) !! b) in
  match redis st with
  | Some r =>
      if redis_raises st then from_memory
      else
        default 0 (r_active_jobs r !! b)
  | None => from_memory
  end.

Definition read_avg_response_time (b : string) (st : Stats) : pyfloat.float :=
  let from_memory :=
    match PERFORMANCE_STATS (memory st) !! b with
    | Some entry => default pyfloat.zero (avg_response_time entry)
    | None => pyfloat.zero
    end in
  match redis st with
  | Some r =>
      if redis_raises st then from_memory
      else default pyfloat.zero (r_avg_response_time r !! b)
  | None => from_memory
  end.

(** The first loop: metrics of every candidate, [IndexError] when a
    candidate is no index of [OLLAMA_BASE_URLS]. *)
Fixpoint collect_metrics (OLLAMA_BASE_URLS : list string) (st : Stats)
    (candidate_urls : list nat) : outcome (list ServerMetrics) :=
  match candidate_urls with
  | [] => Ok []
  | i :: rest =>
      match nth_error OLLAMA_BASE_URLS i with
      | None => Raise "IndexError"
      | Some url =>
          let b := base_url_of url in
          rest' ← collect_metrics OLLAMA_BASE_URLS st rest;
          Ok (mkMetrics i b (read_active_jobs b st)
                (read_avg_response_time b st) (get_health_status b st)
              :: rest')
      end
  end.

Definition is_unhealthy (m : ServerMetrics) : bool :=
  match health_status m with
  | Some s => String.eqb s "unhealthy"
  | None => false
  end.

(** [active_jobs_weight * metrics["active_jobs"]
     + response_time_weight * (metrics["avg_response_time"] / 1000.0)];
    the count is an [int] and is converted for the product. *)
Definition score_of (m : ServerMetrics) : outcome pyfloat.float :=
  jobs ← pyfloat.of_int (active_jobs m);
  Ok (pyfloat.add
        (pyfloat.mul OLLAMA_LB_ACTIVE_JOBS_WEIGHT jobs)
        (pyfloat.mul OLLAMA_LB_RESPONSE_TIME_WEIGHT
           (pyfloat.div (m_avg_response_time m) pyfloat.thousand))).

(** One turn of the scoring loop on [(min_score, best_url_idx)]. *)
Definition score_step (acc : pyfloat.float * option nat) (m : ServerMetrics)
    : outcome (pyfloat.float * option nat) :=
  score ← score_of m;
  Ok (if pyfloat.ltb score (fst acc) then (score, Some (idx m)) else acc).

(** The scoring loop over [healthy_metrics]. *)
Fixpoint scoring_loop (healthy_metrics : list ServerMetrics)
    (acc : pyfloat.float * option nat)
    : outcome (pyfloat.float * option nat) :=
  match healthy_metrics with
  | [] => Ok acc
  | m :: rest => acc' ← score_step acc m; scoring_loop rest acc'
  end.

Definition healthy_of (server_metrics : list ServerMetrics)
    : list ServerMetrics :=
  match List.filter (fun m => negb (is_unhealthy m)) server_metrics with
  | [] => server_metrics
  | healthy_metrics => healthy_metrics
  end.

(** [random.choice(seq)] for the generator's draw [rnd]. *)
Definition random_choice (rnd : nat) (seq : list nat) : outcome nat :=
  match nth_error seq (rnd mod length seq) with
  | Some x => Ok x
  | None => Raise "IndexError"
  end.

(** [get_ollama_url(request, model, url_idx=None)]: [(url, url_idx)];
    [min_score] starts at [float('inf')]. *)
Definition get_ollama_url (OLLAMA_MODELS : gmap string (list nat))
    (OLLAMA_BASE_URLS : list string) (st : Stats) (rnd : nat)
    (model : string) : outcome (string * nat) :=
  match OLLAMA_MODELS !! model with
  | None => Raise "400 model not found"
  | Some [] => Raise "400 model not found"
  | Some candidate_urls =>
      server_metrics ← collect_metrics OLLAMA_BASE_URLS st candidate_urls;
      let healthy_metrics := healthy_of server_metrics in
      best ← scoring_loop healthy_metrics (pyfloat.inf, None);
      url_idx ←
        match snd best with
        | Some i => Ok i
        | None => random_choice rnd candidate_urls
        end;
      match nth_error OLLAMA_BASE_URLS url_idx with
      | Some url => Ok (url, url_idx)
      | None => Raise "IndexError"
      end
  end.

End Registry.

End ollama.

(** ** models/jobs.py: daily bucketing of [get_combined_analytics] *)

Module analytics.

Definition day_secs : Z := 86400.

(** The proleptic Gregorian date [(year, month, day)] of a day number
    counted from 1970-01-01. *)
Definition civil_from_days (days : Z) : Z * Z * Z :=
  let z := days + 719468 in
  let era := z / 146097 in
  let doe := z - era * 146097 in
  let yoe := (doe - doe / 1460 + doe / 36524 - doe / 146096) / 365 in
  let y := yoe + era * 400 in
  let doy := doe - (365 * yoe + yoe / 4 - yoe / 100) in
  let mp := (5 * doy + 2) / 153 in
  let d := doy - (153 * mp + 2) / 5 + 1 in
  let m := if mp <? 10 then mp + 3 else mp - 9 in
  (if m <=? 2 then y + 1 else y, m, d).

Definition digit (n : Z) : string :=
  String (Ascii.ascii_of_nat (48 + Z.to_nat (n mod 10))) EmptyString.

Definition two_digits (n : Z) : string := (digit (n / 10) ++ digit n)%string.
Definition four_digits (n : Z) : string :=
  (digit (n / 1000) ++ digit (n / 100) ++ digit (n / 10) ++ digit n)%string.

(** ["%Y-%m-%d"], which is also [date.isoformat()], for years 0..9999. *)
Definition isoformat (date : Z * Z * Z) : string :=
  let '(y, m, d) := date in
  (four_digits y ++ "-" ++ two_digits m ++ "-" ++ two_digits d)%string.

(** SQLite: [strftime('%Y-%m-%d', datetime(created_at, 'unixepoch'))],
    the UTC date of the timestamp. *)
Definition day_label_sqlite (created_at : Z) : string :=
  isoformat (civil_from_days (created_at / day_secs)).

(** [datetime.date.fromtimestamp(ts)]: the date in the server's local
    time zone, [utc_offset] seconds east of UTC. *)
Definition date_fromtimestamp (utc_offset : Z) (ts : Z) : Z * Z * Z :=
  civil_from_days ((ts + utc_offset) / day_secs).

(** Other engines: the integer quotient [created_at / day_secs] is the
    bucket, labelled by
    [date.fromtimestamp(int(day_bucket) * day_secs).isoformat()]. *)
Definition day_label_other (utc_offset : Z) (created_at : Z) : string :=
  let day_bucket := Z.quot created_at day_secs in
  isoformat (date_fromtimestamp utc_offset (day_bucket * day_secs)).

(** The label of a row's bucket, by dialect. *)
Definition day_label (dialect : string) (utc_offset : Z) (created_at : Z)
    : string :=
  if String.eqb dialect "sqlite" then day_label_sqlite created_at
  else day_label_other utc_offset created_at.

End analytics.

(** ** Sample data *)

Module Sample.

Definition job (job_id owner st : string) (prio : Z) (score : Q)
    (attempts created updated : Z) : Job :=
  mkJob job_id owner st prio score (Some "llama3") None
    (Some [("model", JStr "llama3"); ("stream", JBool false)]) None None
    attempts 3 created updated.

(** Two queued rows and a running one; the second has the higher score. *)
Definition queue_db : DB :=
  mkDB [ job "job-1" "u1" JOB_STATUS_QUEUED 5 5 0 100 100;
         job "job-2" "u2" JOB_STATUS_QUEUED 9 9 0 200 200;
         job "job-3" "u1" JOB_STATUS_RUNNING 10 10 1 50 60 ]
       [].

(** A job cancelled after its first attempt. *)
Definition cancelled_db : DB :=
  mkDB [ job "job-c" "u1" JOB_STATUS_CANCELLED 5 5 1 100 150 ] [].

(** A job that is being run: claimed once, not finished. *)
Definition running_db : DB :=
  mkDB [ job "job-r" "u1" JOB_STATUS_RUNNING 5 5 1 100 120 ] [].

Definition hello : pydict := [("content", JStr "Hello")].

(** A completed job with its result. *)
Definition completed_db : DB :=
  mkDB [ set_result (Some hello)
           (job "job-d" "u1" JOB_STATUS_COMPLETED 5 5 1 100 130) ] [].

(** A completed job last updated forty days before [archive_now]. *)
Definition archive_now : Z := 1700000000.
Definition aged_db : DB :=
  mkDB [ job "job-o" "u1" JOB_STATUS_COMPLETED 5 5 1
           (archive_now - 41 * 86400) (archive_now - 40 * 86400) ] [].

Definition owner : jobs_router.UserModel := jobs_router.mkUser "u1" None.

(** An application with a Redis connection that holds nothing yet, and one
    without Redis. *)
Definition app_with_redis : jobs_router.AppState :=
  jobs_router.mkApp (Some ∅) {[ "llama3" ]}.
Definition app_without_redis : jobs_router.AppState :=
  jobs_router.mkApp None {[ "llama3" ]}.

(** A submission for the known model, and the world it arrives in. *)
Definition form : jobs_router.JobSubmitForm :=
  jobs_router.mkForm "llama3" [JDict [("role", JStr "user"); ("content", JStr "Hi")]]
    None None None false.
Definition world : jobs_router.World :=
  jobs_router.mkWorld app_without_redis queue_db [] [].

(** Two backends that serve one model; no load, latency or health data has
    been recorded for either.  The configured URLs are origins already. *)
Definition base_urls : list string :=
  ["http://gpu-a:11434"; "http://gpu-b:11434"].
Definition models : gmap string (list nat) :=
  {[ "llama3:latest" := [0%nat; 1%nat] ]}.
Definition origin (url : string) : string := url.
Definition no_stats : ollama.Stats :=
  ollama.mkStats None false (ollama.mkMemory ∅ ∅ ∅).

(** The first backend has five active jobs, the second none. *)
Definition busy_first : ollama.Stats :=
  ollama.mkStats None false
    (ollama.mkMemory {[ "http://gpu-a:11434" := 5 ]} ∅ ∅).

End Sample.

(** ** models/jobs.py: listing, counting and deleting *)

Module JobsQueries.

(** [if status: query = query.filter(Job.status == status)]: an absent or
    empty filter selects every row. *)
Definition status_matches (status_filter : option string) (j : Job) : bool :=
  match status_filter with
  | Some s => if String.eqb s "" then true else String.eqb (status j) s
  | None => true
  end.

(** [Job.model_id == model_id] on the nullable column. *)
Definition model_matches (model_filter : option string) (j : Job) : bool :=
  match model_filter with
  | Some m =>
      if String.eqb m "" then true
      else match model_id j with
           | Some m' => String.eqb m' m
           | None => false
           end
  | None => true
  end.

Definition user_matches (user_filter : option string) (j : Job) : bool :=
  match user_filter with
  | Some u => if String.eqb u "" then true else String.eqb (user_id j) u
  | None => true
  end.

(** [ORDER BY created_at DESC]: [a] sorts strictly before [b]. *)
Definition newest_first (a b : Job) : bool := created_at b <? created_at a.

(** [get_jobs_by_user_id]: [offset] and [limit] are applied only when the
    argument is not 0. *)
Definition get_jobs_by_user_id (user : string) (skip limit : nat)
    (status_filter model_filter : option string) (db : DB) : list Job :=
  let query :=
    List.filter
      (fun j => String.eqb (user_id j) user
                && status_matches status_filter j
                && model_matches model_filter j)
      (job_table db) in
  let query := job_scheduler.order_by newest_first query in
  let query := skipn skip query in
  if (limit =? 0)%nat then query else firstn limit query.

(** [get_jobs_admin]: [query.offset(skip).limit(limit)], always applied. *)
Definition get_jobs_admin (skip limit : nat)
    (status_filter model_filter user_filter : option string) (db : DB)
    : list Job :=
  let query :=
    List.filter
      (fun j => status_matches status_filter j
                && model_matches model_filter j
                && user_matches user_filter j)
      (job_table db) in
  firstn limit (skipn skip (job_scheduler.order_by newest_first query)).

Definition count_jobs_admin (status_filter model_filter user_filter : option string)
    (db : DB) : nat :=
  length
    (List.filter
       (fun j => status_matches status_filter j
                 && model_matches model_filter j
                 && user_matches user_filter j)
       (job_table db)).

Definition count_jobs_by_user_id (user : string) (db : DB) : nat :=
  length (List.filter (fun j => String.eqb (user_id j) user) (job_table db)).

(** [delete_job_by_id]: [db.query(Job).filter(Job.id == job_id).delete()],
    [True] after the commit, [False] when anything raised. *)
Definition delete_job_by_id (f : db_fault) (job_id : string) (db : DB)
    : DB * bool :=
  match
    session ← get_db_context f db;
    _ ← query_guard f;
    commit f
      (with_jobs
         (List.filter (fun j => negb (String.eqb (id j) job_id))
            (job_table session))
         session)
  with
  | Ok db' => (db', true)
  | Raise _ => (db, false)
  end.

End JobsQueries.

(** ** routers/jobs.py: listing, events and the archive sweep *)

Module jobs_lists.

(** The body of the list responses. *)
Record page : Type := mkPage {
  jobs : list pydict;
  total : nat;
  page_skip : nat;
  page_limit : nat
}.

(** [GET /]: the caller's jobs, newest first. *)
Definition list_jobs (db : DB) (skip limit : nat)
    (status_filter model_filter : option string)
    (user : jobs_router.UserModel) : page :=
  let found :=
    JobsQueries.get_jobs_by_user_id (jobs_router.uid user) skip limit
      status_filter model_filter db in
  let n := JobsQueries.count_jobs_by_user_id (jobs_router.uid user) db in
  mkPage (map jobs_router._to_response found) n skip limit.

(** [GET /admin/list] *)
Definition admin_list_jobs (db : DB) (skip limit : nat)
    (status_filter model_filter user_filter : option string) : page :=
  let found :=
    JobsQueries.get_jobs_admin skip limit status_filter model_filter
      user_filter db in
  let n :=
    JobsQueries.count_jobs_admin status_filter model_filter user_filter db in
  mkPage (map jobs_router._to_response found) n skip limit.

(** [POST /archive/run]: the database after the sweep and the two counts. *)
Definition run_archive_sweep (now : Z)
    (JOB_RETENTION_DAYS JOB_ARCHIVE_RETENTION_DAYS : Z) (f1 f2 : db_fault)
    (db : DB) : DB * (Z * Z) :=
  let (db1, archived) :=
    JobArchiveTable.archive_old_jobs now JOB_RETENTION_DAYS f1 db in
  if 0 <? JOB_ARCHIVE_RETENTION_DAYS then
    let (db2, purged) :=
      JobArchiveTable.purge_old_archives now JOB_ARCHIVE_RETENTION_DAYS f2 db1 in
    (db2, (archived, purged))
  else (db1, (archived, 0)).

End jobs_lists.

Module sse.

(** An [asyncio.Queue]: [maxsize <= 0] means unbounded. *)
Record Queue : Type := mkQueue {
  maxsize : Z;
  items : list pydict
}.

(** [q.put_nowait(event)] *)
Definition put_nowait (event : pydict) (q : Queue) : outcome Queue :=
  if (0 <? maxsize q) && (maxsize q <=? Z.of_nat (length (items q)))
  then Raise "QueueFull"
  else Ok (mkQueue (maxsize q) (items q ++ [event])).

(** One turn of the loop of [_sse_publish]: a full queue is skipped. *)
Definition offer (event : pydict) (q : Queue) : Queue :=
  match put_nowait event q with
  | Ok q' => q'
  | Raise _ => q
  end.

(** [_sse_publish(user_id, event)] on [_SSE_QUEUES]; the set of a user's
    queues is the list of them. *)
Definition _sse_publish (user_id : string) (event : pydict)
    (_SSE_QUEUES : gmap string (list Queue)) : gmap string (list Queue) :=
  match _SSE_QUEUES !! user_id with
  | Some queues => <[user_id := map (offer event) queues]> _SSE_QUEUES
  | None => _SSE_QUEUES
  end.

(** [job_events]: [_SSE_QUEUES.setdefault(uid, set()).add(Queue(maxsize=64))] *)
Definition subscribe (uid : string) (_SSE_QUEUES : gmap string (list Queue))
    : gmap string (list Queue) :=
  <[uid := default [] (_SSE_QUEUES !! uid) ++ [mkQueue 64 []]]> _SSE_QUEUES.

End sse.

(** ** utils/job_scheduler.py: one turn of the dispatch loop *)

Module scheduler_loop.

Inductive spawned : Type :=
| Spawn_execute_job (job_id : string) (user_stub : jobs_router.UserModel).

(** The body of the [while] loop of [_scheduler_loop] up to the sleep.
    [get_user_by_id] is [Users.get_user_by_id]. *)
Definition _scheduler_tick
    (get_user_by_id : string -> option jobs_router.UserModel) (now : Z)
    (f1 f2 : db_fault) (db : DB) : DB * option spawned :=
  match job_scheduler._claim_next_queued_job now f1 f2 db with
  | (db1, Some job_id) =>
      if String.eqb job_id "" then (db1, None)
      else
        let job := JobsTable.get_job_by_id job_id db1 in
        let user_stub :=
          match job with
          | Some j => get_user_by_id (user_id j)
          | None => None
          end in
        match user_stub with
        | Some u => (db1, Some (Spawn_execute_job job_id u))
        | None =>
            (fst (JobsTable.update_job_failed now job_id "User not found"
                    false db1),
             None)
        end
  | (db1, None) => (db1, None)
  end.

(** [_execute_job]: nothing happens when the job is gone; otherwise the
    awaited call's outcome is written. *)
Definition _execute_job (now : Z) (job_id : string)
    (c : jobs_router.completion) (db : DB) : DB :=
  match scheduler_worker._execute_job_start job_id db with
  | None => db
  | Some _ => scheduler_worker._execute_job_finish now job_id c db
  end.

End scheduler_loop.

(** ** routers/ollama.py: counters, response times, health *)

Module ollama_registry.

Definition with_active_jobs (m : gmap string Z) (mem : ollama.Memory)
    : ollama.Memory :=
  ollama.mkMemory m (ollama.PERFORMANCE_STATS mem) (ollama.HEALTH_STATUS mem).
Definition with_performance (p : gmap string ollama.PerfStats)
    (mem : ollama.Memory) : ollama.Memory :=
  ollama.mkMemory (ollama.ACTIVE_JOB_STATS mem) p (ollama.HEALTH_STATUS mem).

(** [update_active_job_count(url, delta, request)].  With Redis the counter
    is incremented, or decremented and reset to 0 when it went below; a
    Redis error is logged and nothing else is written.  Without Redis the
    in-memory counter is updated and floored at 0. *)
Definition update_active_job_count (base_url_of : string -> string)
    (url : string) (delta : Z) (st : ollama.Stats) : ollama.Stats :=
  let base_url := base_url_of url in
  match ollama.redis st with
  | Some r =>
      if ollama.redis_raises st then st
      else
        let old := default 0 (ollama.r_active_jobs r !! base_url) in
        let val :=
          if 0 <? delta then old + delta
          else
            let val := old - (- delta) in
            if val <? 0 then 0 else val in
        ollama.with_redis
          (ollama.mkRedis (<[base_url := val]> (ollama.r_active_jobs r))
             (ollama.r_avg_response_time r) (ollama.r_sample_count r)
             (ollama.r_avg_tokens_per_second r) (ollama.r_health_status r))
          st
  | None =>
      let mem := ollama.memory st in
      let v := default 0 (ollama.ACTIVE_JOB_STATS mem !! base_url) + delta in
      let v := if v <? 0 then 0 else v in
      ollama.with_memory
        (with_active_jobs (<[base_url := v]> (ollama.ACTIVE_JOB_STATS mem)) mem)
        st
  end.

(** [_update_response_time_memory]: the dictionaries afterwards and the
    text of the exception raised, if any.  An entry without the key read
    raises [KeyError], whose text is the quoted key. *)
Definition _update_response_time_memory (base_url : string)
    (response_time_ms alpha : pyfloat.float) (mem : ollama.Memory)
    : ollama.Memory * option string :=
  match ollama.PERFORMANCE_STATS mem !! base_url with
  | None =>
      (with_performance
         (<[base_url := ollama.mkPerf (Some response_time_ms) (Some 1) None]>
            (ollama.PERFORMANCE_STATS mem)) mem,
       None)
  | Some entry =>
      match ollama.avg_response_time entry with
      | None => (mem, Some "'avg_response_time'")
      | Some current_avg =>
          let new_avg :=
            ollama.moving_average alpha response_time_ms current_avg in
          match ollama.sample_count entry with
          | None =>
              (with_performance
                 (<[base_url :=
                      ollama.mkPerf (Some new_avg) None
                        (ollama.avg_tokens_per_second entry)]>
                    (ollama.PERFORMANCE_STATS mem)) mem,
               Some "'sample_count'")
          | Some n =>
              (with_performance
                 (<[base_url :=
                      ollama.mkPerf (Some new_avg) (Some (n + 1))
                        (ollama.avg_tokens_per_second entry)]>
                    (ollama.PERFORMANCE_STATS mem)) mem,
               None)
          end
      end
  end.

(** [update_response_time(url, response_time_ms, request)] *)
Definition update_response_time (base_url_of : string -> string)
    (url : string) (response_time_ms : pyfloat.float) (st : ollama.Stats)
    : ollama.Stats * option string :=
  let base_url := base_url_of url in
  let alpha := pyfloat.three_tenths in
  let in_memory :=
    let (mem, exc) :=
      _update_response_time_memory base_url response_time_ms alpha
        (ollama.memory st) in
    (ollama.with_memory mem st, exc) in
  match ollama.redis st with
  | Some r =>
      if ollama.redis_raises st then in_memory
      else
        let current_avg :=
          default pyfloat.zero (ollama.r_avg_response_time r !! base_url) in
        let count := default 0 (ollama.r_sample_count r !! base_url) in
        let new_avg :=
          if count =? 0 then response_time_ms
          else ollama.moving_average alpha response_time_ms current_avg in
        (ollama.with_redis
           (ollama.mkRedis (ollama.r_active_jobs r)
              (<[base_url := new_avg]> (ollama.r_avg_response_time r))
              (<[base_url := count + 1]> (ollama.r_sample_count r))
              (ollama.r_avg_tokens_per_second r) (ollama.r_health_status r))
           st,
         None)
  | None => in_memory
  end.


(** What the backend does with a non-streaming POST. *)
Inductive backend_reply : Type :=
| Post_raises (e : string)
    (* session.post raised; [e] is the exception's text *)
| Reply_not_ok (status : Z) (body : outcome pydict) (e : string)
    (* r.ok is False; [e] is the text of what r.raise_for_status() raises *)
| Reply_ok (status : Z) (body : outcome pydict).
    (* r.ok; r.json() gives the body or raises *)

Inductive post_result : Type :=
| Returned_json (res : pydict)
| Raised_HTTPException (status_code : Z) (detail : json)
| Raised_exception (e : string).

(** Whether Redis raises at each of the registry updates one call of
    [send_post_request] makes: every update has its own [try] block, and the
    backend is awaited between the first and the others. *)
Record redis_outages : Type := mkOutages {
  at_increment : bool;
  at_decrement : bool;
  at_response_time : bool;
  at_token_stats : bool
}.

Definition with_redis_raises (raises : bool) (st : ollama.Stats)
    : ollama.Stats :=
  ollama.mkStats (ollama.redis st) raises (ollama.memory st).

(** A registry update made while Redis raises, or does not, as [raises]
    tells. *)
Definition during (raises : bool) (update : ollama.Stats -> ollama.Stats)
    (st : ollama.Stats) : ollama.Stats :=
  with_redis_raises (ollama.redis_raises st)
    (update (with_redis_raises raises st)).

Definition during_raising (raises : bool)
    (update : ollama.Stats -> ollama.Stats * option string)
    (st : ollama.Stats) : ollama.Stats * option string :=
  let (st', exc) := update (with_redis_raises raises st) in
  (with_redis_raises (ollama.redis_raises st) st', exc).

(** An [int] of a reply ([bool] is a subclass of [int]). *)
Definition as_int (v : json) : option Z :=
  match v with
  | JInt z => Some z
  | JBool b => Some (if b then 1 else 0)
  | _ => None
  end.

(** [type(v).__name__] *)
Definition type_name (v : json) : string :=
  match v with
  | JNull => "NoneType"
  | JBool _ => "bool"
  | JInt _ => "int"
  | JFloat _ => "float"
  | JStr _ => "str"
  | JList _ => "list"
  | JDict _ => "dict"
  end.

(** [update_token_stats(url, res["eval_count"], res["eval_duration"],
    request)] on the values of a reply.  Ollama reports both as integers.  A
    value that is no number raises [TypeError] where it is first used:
    [eval_duration] in [eval_duration_nanos <= 0], [eval_count] in the
    division, which is reached for a positive duration only.  A JSON float
    is not among the values of these two keys. *)
Definition update_token_stats_of_reply (base_url_of : string -> string)
    (url : string) (eval_count eval_duration : json) (st : ollama.Stats)
    : ollama.Stats * option string :=
  match as_int eval_duration with
  | None =>
      (st,
       Some ("'<=' not supported between instances of '"
             ++ type_name eval_duration ++ "' and 'int'")%string)
  | Some eval_duration_nanos =>
      if eval_duration_nanos <=? 0 then (st, None)
      else
        match as_int eval_count with
        | None =>
            (st,
             Some ("unsupported operand type(s) for /: '"
                   ++ type_name eval_count ++ "' and 'float'")%string)
        | Some n =>
            ollama.update_token_stats base_url_of url n eval_duration_nanos st
        end
  end.

(** The closure [decrement_counter] of [send_post_request]:
    [(decremented, stats)] before and after, with the exception raised. *)
Definition decrement_counter (base_url_of : string -> string) (url : string)
    (response_time_ms : pyfloat.float) (o : redis_outages)
    (s : bool * ollama.Stats) : (bool * ollama.Stats) * option string :=
  let (decremented, st) := s in
  if decremented then (s, None)
  else
    let st :=
      during (at_decrement o) (update_active_job_count base_url_of url (-1))
        st in
    let (st, exc) :=
      during_raising (at_response_time o)
        (update_response_time base_url_of url response_time_ms) st in
    ((true, st), exc).

(** An [except] clause of [send_post_request]: decrement, then raise; what
    [decrement_counter] raises there is what leaves the function. *)
Definition leave_raising (base_url_of : string -> string) (url : string)
    (response_time_ms : pyfloat.float) (o : redis_outages)
    (s : bool * ollama.Stats) (code : Z) (detail : json)
    : ollama.Stats * post_result :=
  match decrement_counter base_url_of url response_time_ms o s with
  | ((_, st), None) => (st, Raised_HTTPException code detail)
  | ((_, st), Some exc) => (st, Raised_exception exc)
  end.

(** [send_post_request(url, payload, stream=False, request=request)]:
    [response_time_ms] is the time from the start of the call to the first
    [decrement_counter]. *)
Definition send_post_request (base_url_of : string -> string) (url : string)
    (reply : backend_reply) (response_time_ms : pyfloat.float)
    (o : redis_outages) (st : ollama.Stats) : ollama.Stats * post_result :=
  let st :=
    during (at_increment o) (update_active_job_count base_url_of url 1) st in
  let s := (false, st) in
  let except_Exception s code (e : string) :=
    leave_raising base_url_of url response_time_ms o s code
      (JStr ("Ollama: " ++ e)%string) in
  match reply with
  | Post_raises e => except_Exception s 500 e
  | Reply_not_ok status (Ok res) e =>
      match dict_get "error" res with
      | Some detail =>
          leave_raising base_url_of url response_time_ms o s status detail
      | None => except_Exception s status e
      end
  | Reply_not_ok status (Raise _) _ =>
      leave_raising base_url_of url response_time_ms o s status
        (JStr "Open WebUI: Server Connection Error")
  | Reply_ok status (Raise e) => except_Exception s status e
  | Reply_ok status (Ok res) =>
      match decrement_counter base_url_of url response_time_ms o s with
      | (s, Some exc) => except_Exception s status exc
      | ((decremented, st), None) =>
          match dict_get "eval_count" res, dict_get "eval_duration" res with
          | Some eval_count, Some eval_duration =>
              match
                during_raising (at_token_stats o)
                  (update_token_stats_of_reply base_url_of url eval_count
                     eval_duration) st
              with
              | (st, None) => (st, Returned_json res)
              | (st, Some exc) => except_Exception (decremented, st) status exc
              end
          | _, _ => (st, Returned_json res)
          end
      end
  end.

End ollama_registry.

(** ** routers/system.py: the load-balancing strategy *)

Module system_router.






End system_router.

(** ** models/backend_snapshots.py *)

Module BackendSnapshotsTable.

(** The [backend_snapshot] table's row. *)
Record BackendSnapshot : Type := mkSnapshot {
  snapshot_id : Z;
  captured_at : Z;
  backend_url : string;
  cpu_percent : option Q;
  ram_percent : option Q;
  active_jobs : option Z;
  queued_jobs : option Z;
  loaded_models : option Z;
  vram_used_gb : option Q;
  avg_tokens_per_second : option Q
}.

(** [ORDER BY captured_at DESC] *)
Definition latest_first (a b : BackendSnapshot) : bool :=
  captured_at b <? captured_at a.

(** [get_recent(backend_url, limit, since)]: the most recent [limit]
    snapshots of a backend, oldest first; [since] filters when it is not 0. *)
Definition get_recent (url : string) (limit : nat) (since : option Z)
    (table : list BackendSnapshot) : list BackendSnapshot :=
  let q := List.filter (fun r => String.eqb (backend_url r) url) table in
  let q :=
    match since with
    | Some t => if t =? 0 then q else List.filter (fun r => t <=? captured_at r) q
    | None => q
    end in
  let q := firstn limit (job_scheduler.order_by latest_first q) in
  rev q.

(** [purge_old(older_than_days)]: the table afterwards and the number of
    rows deleted; nothing is caught here. *)
Definition purge_old (now older_than_days : Z) (f : db_fault)
    (table : list BackendSnapshot) : outcome (list BackendSnapshot * Z) :=
  let cutoff := now - older_than_days * 86400 in
  match f with
  | NoFault =>
      let keep := List.filter (fun r => negb (captured_at r <? cutoff)) table in
      Ok (keep, Z.of_nat (length table) - Z.of_nat (length keep))
  | ConnectFault => Raise "connect"
  | QueryFault => Raise "query"
  | CommitFault => Raise "commit"
  end.

End BackendSnapshotsTable.

(** ** The life cycle under the scheduler *)

Module lifecycle.

(** The bounds a row's retry counters should keep. *)
Definition row_ok (j : Job) : Prop :=
  0 < max_attempts j /\
  0 <= attempt_count j <= max_attempts j /\
  (status j = JOB_STATUS_QUEUED -> attempt_count j < max_attempts j).

Definition db_ok (db : DB) : Prop := forall j, In j (job_table db) -> row_ok j.

(** One operation on the database by the submit handler's insert, the
    scheduler, its worker, the cancel, retry and delete operations, or the
    maintenance loops.  [update_job_running] is not among them: the
    scheduler moves a job to [running] through its claim. *)
Inductive step : DB -> DB -> Prop :=
| step_insert now job_id user model payload prio max_att db :
    0 < max_att ->
    step db
      (fst (JobsTable.insert_new_job now job_id user model payload prio
              max_att db))
| step_claim now f1 f2 db :
    step db (fst (job_scheduler._claim_next_queued_job now f1 f2 db))
| step_tick get_user now f1 f2 db :
    step db (fst (scheduler_loop._scheduler_tick get_user now f1 f2 db))
| step_execute now job_id c db :
    step db (scheduler_loop._execute_job now job_id c db)
| step_completed now job_id res db :
    step db (fst (JobsTable.update_job_completed now job_id res db))
| step_failed now job_id err requeue db :
    step db (fst (JobsTable.update_job_failed now job_id err requeue db))
| step_cancelled now job_id db :
    step db (fst (JobsTable.update_job_cancelled now job_id db))
| step_retry now job_id db :
    step db (fst (JobsTable.retry_job now job_id db))
| step_delete f job_id db :
    step db (fst (JobsQueries.delete_job_by_id f job_id db))
| step_bump f db :
    step db (job_scheduler._bump_stale_jobs f db)
| step_archive now days f db :
    step db (fst (JobArchiveTable.archive_old_jobs now days f db))
| step_purge now days f db :
    step db (fst (JobArchiveTable.purge_old_archives now days f db)).

(** Any number of operations, one after the other. *)
Inductive steps : DB -> DB -> Prop :=
| steps_none db : steps db db
| steps_more db db1 db2 : steps db db1 -> step db1 db2 -> steps db db2.

End lifecycle.

(** The row a queued job becomes under the starvation bump. *)
Definition bumped (j : Job) : Job :=
  set_priority_score (priority_score j + job_scheduler.STARVATION_INCREMENT)%Q j.

(** What the registry holds of active-job counts: the counters in Redis
    when it is configured, whether its commands raise, and the in-memory
    counters. *)
Definition counters (st : ollama.Stats)
    : option (gmap string Z) * bool * gmap string Z :=
  (option_map ollama.r_active_jobs (ollama.redis st),
   ollama.redis_raises st,
   ollama.ACTIVE_JOB_STATS (ollama.memory st)).

(** A candidate whose score is computed and is a finite number. *)
Definition finite_score (W_jobs W_latency : pyfloat.float)
    (m : ollama.ServerMetrics) : bool :=
  match ollama.score_of W_jobs W_latency m with
  | Ok s => pyfloat.is_finite s
  | Raise _ => false
  end.

(** * Properties *)

(** ** Rows and tables *)

Lemma query_job_by_id_app (job_id : string) (before after : list Job) (job : Job) :
  (forall r, In r before -> id r <> job_id) ->
  id job = job_id ->
  query_job_by_id job_id (before ++ job :: after) = Some job.
Proof.
  intros Hb Hid. unfold query_job_by_id.
  induction before as [|r before IH]; simpl.
  - rewrite Hid, String.eqb_refl. reflexivity.
  - destruct (String.eqb_spec (id r) job_id) as [E|E].
    + exfalso. apply (Hb r); [left; reflexivity | exact E].
    + apply IH. intros r' Hr'. apply Hb. right. exact Hr'.
Qed.

Lemma update_row_app (job' job : Job) (before after : list Job) :
  (forall r, In r before -> id r <> id job) ->
  id job' = id job ->
  update_row job' (before ++ job :: after) = before ++ job' :: after.
Proof.
  intros Hb Hid.
  induction before as [|r before IH]; simpl.
  - rewrite Hid, String.eqb_refl. reflexivity.
  - rewrite Hid. destruct (String.eqb_spec (id r) (id job)) as [E|E].
    + exfalso. apply (Hb r); [left; reflexivity | exact E].
    + f_equal. apply IH. intros r' Hr'. apply Hb. right. exact Hr'.
Qed.

Lemma query_job_by_id_split (job_id : string) (rows : list Job) (job : Job) :
  query_job_by_id job_id rows = Some job ->
  exists before after,
    rows = before ++ job :: after /\ id job = job_id /\
    (forall r, In r before -> id r <> job_id).
Proof.
  unfold query_job_by_id.
  induction rows as [|r rows IH]; simpl; intros H.
  - discriminate.
  - destruct (String.eqb_spec (id r) job_id) as [E|E].
    + injection H as ->. exists [], rows.
      split; [reflexivity | split; [exact E | intros r' []]].
    + destruct (IH H) as (b & a & -> & Hid & Hb).
      exists (r :: b), a.
      split; [reflexivity | split; [exact Hid |]].
      intros r' [<- | Hr']; [exact E | apply Hb; exact Hr'].
Qed.

Lemma query_job_by_id_update (job_id : string) (rows : list Job) (job job' : Job) :
  query_job_by_id job_id rows = Some job ->
  id job' = id job ->
  query_job_by_id job_id (update_row job' rows) = Some job'.
Proof.
  intros H Hid.
  destruct (query_job_by_id_split _ _ _ H) as (b & a & -> & Hj & Hb).
  rewrite update_row_app.
  - apply query_job_by_id_app; [exact Hb | congruence].
  - intros r Hr. rewrite Hj. apply Hb. exact Hr.
  - exact Hid.
Qed.

Lemma nodup_ids_before (before after : list Job) (job : Job) :
  List.NoDup (map id (before ++ job :: after)) ->
  forall r, In r before -> id r <> id job.
Proof.
  intros Hnd r Hr E.
  rewrite map_app in Hnd. simpl in Hnd.
  apply NoDup_remove_2 in Hnd. apply Hnd.
  apply in_or_app. left. rewrite <- E. apply in_map. exact Hr.
Qed.

Lemma filter_split {A} (p : A -> bool) (l l1 l2 : list A) (x : A) :
  List.filter p l = l1 ++ x :: l2 ->
  exists r1 r2,
    l = r1 ++ x :: r2 /\ List.filter p r1 = l1 /\ List.filter p r2 = l2 /\
    p x = true.
Proof.
  revert l1. induction l as [|a l IH]; intros l1 H; simpl in H.
  - destruct l1; discriminate.
  - destruct (p a) eqn:Pa.
    + destruct l1 as [|b l1]; simpl in H; inversion H; subst.
      * exists [], l. simpl. auto.
      * destruct (IH _ H2) as (r1 & r2 & -> & F1 & F2 & Px).
        exists (b :: r1), r2. simpl. rewrite Pa, F1. auto.
    + destruct (IH _ H) as (r1 & r2 & -> & F1 & F2 & Px).
      exists (a :: r1), r2. simpl. rewrite Pa. auto.
Qed.

(** ** Ordering *)

Section OrderBy.

Context {A : Type} (before : A -> A -> bool).
Hypothesis before_asym : forall x y, before x y = true -> before y x = false.
Hypothesis before_negtrans :
  forall x y z, before x y = false -> before y z = false -> before x z = false.

Lemma before_irrefl (x : A) : before x x = false.
Proof.
  destruct (before x x) eqn:E; [|reflexivity].
  rewrite (before_asym _ _ E) in E. discriminate.
Qed.

Lemma hd_insert_by (x : A) (l : list A) :
  hd_error (job_scheduler.insert_by before x l) =
  match hd_error l with
  | None => Some x
  | Some y => if before y x then Some y else Some x
  end.
Proof. destruct l as [|y l]; simpl; [reflexivity|]. destruct (before y x); reflexivity. Qed.

(** The head of the sorted list is the first row of the input that no row
    sorts strictly before. *)
Lemma hd_order_by (l : list A) :
  match hd_error (job_scheduler.order_by before l) with
  | None => l = []
  | Some x =>
      exists l1 l2,
        l = l1 ++ x :: l2 /\
        (forall y, In y l -> before y x = false) /\
        (forall y, In y l1 -> before x y = true)
  end.
Proof.
  induction l as [|a l IH]; simpl; [reflexivity|].
  rewrite hd_insert_by.
  destruct (hd_error (job_scheduler.order_by before l)) as [y|].
  - destruct IH as (m1 & m2 & -> & Hmin & Hfirst).
    destruct (before y a) eqn:Eya.
    + exists (a :: m1), m2. split; [reflexivity|]. split.
      * intros z [<- | Hz]; [apply before_asym; exact Eya | apply Hmin; exact Hz].
      * intros z [<- | Hz]; [exact Eya | apply Hfirst; exact Hz].
    + exists [], (m1 ++ y :: m2). split; [reflexivity|]. split.
      * intros z [<- | Hz]; [apply before_irrefl|].
        apply before_negtrans with y; [apply Hmin; exact Hz | exact Eya].
      * intros z [].
  - subst l. exists [], []. split; [reflexivity|]. split.
    + intros z [<- | []]. apply before_irrefl.
    + intros z [].
Qed.

End OrderBy.

Lemma Qltb_true (x y : Q) : job_scheduler.Qltb x y = true <-> (x < y)%Q.
Proof.
  unfold job_scheduler.Qltb. rewrite negb_true_iff.
  split; intros H.
  - apply Qnot_le_lt. intros Hle. apply Qle_bool_iff in Hle. congruence.
  - destruct (Qle_bool y x) eqn:E; [|reflexivity].
    apply Qle_bool_iff in E. exfalso. revert E. apply Qlt_not_le. exact H.
Qed.

Lemma Qltb_false (x y : Q) : job_scheduler.Qltb x y = false <-> (y <= x)%Q.
Proof.
  unfold job_scheduler.Qltb. rewrite negb_false_iff. apply Qle_bool_iff.
Qed.

(** [claim_before], read as a proposition. *)
Lemma claim_before_true (a b : Job) :
  job_scheduler.claim_before a b = true <->
  (priority_score b < priority_score a)%Q \/
  ((priority_score a == priority_score b)%Q /\ created_at a < created_at b).
Proof.
  unfold job_scheduler.claim_before.
  rewrite orb_true_iff, andb_true_iff, Qltb_true, Qeq_bool_iff, Z.ltb_lt.
  reflexivity.
Qed.

Lemma claim_before_false (a b : Job) :
  job_scheduler.claim_before a b = false <->
  (priority_score a <= priority_score b)%Q /\
  ((priority_score a == priority_score b)%Q -> created_at b <= created_at a).
Proof.
  unfold job_scheduler.claim_before.
  rewrite orb_false_iff, andb_false_iff, Qltb_false, Z.ltb_ge.
  split.
  - intros [Hle [Hne | Hc]]; split; try exact Hle.
    + intros Heq. apply Qeq_bool_iff in Heq. congruence.
    + intros _. exact Hc.
  - intros [Hle Hc]. split; [exact Hle|].
    destruct (Qeq_bool (priority_score a) (priority_score b)) eqn:E.
    + right. apply Hc. apply Qeq_bool_iff. exact E.
    + left. reflexivity.
Qed.

Lemma claim_before_asym (a b : Job) :
  job_scheduler.claim_before a b = true -> job_scheduler.claim_before b a = false.
Proof.
  rewrite claim_before_true, claim_before_false.
  intros [Hlt | [Heq Hc]].
  - split; [lra | intros Heq; lra].
  - split; [lra | intros _; lia].
Qed.

Lemma claim_before_negtrans (a b c : Job) :
  job_scheduler.claim_before a b = false ->
  job_scheduler.claim_before b c = false ->
  job_scheduler.claim_before a c = false.
Proof.
  rewrite !claim_before_false.
  intros [H1 C1] [H2 C2]. split; [lra|].
  intros Heq.
  assert (E1 : (priority_score a == priority_score b)%Q) by lra.
  assert (E2 : (priority_score b == priority_score c)%Q) by lra.
  specialize (C1 E1). specialize (C2 E2). lia.
Qed.

(** [first_queued] picks a queued row that no queued row sorts strictly
    before, and the first such row of the table. *)
Lemma first_queued_spec (rows : list Job) :
  match job_scheduler.first_queued rows with
  | None => forall j, In j rows -> status j <> JOB_STATUS_QUEUED
  | Some job =>
      exists before after,
        rows = before ++ job :: after /\
        status job = JOB_STATUS_QUEUED /\
        (forall j, In j rows -> status j = JOB_STATUS_QUEUED ->
           job_scheduler.claim_before j job = false) /\
        (forall j, In j before -> status j = JOB_STATUS_QUEUED ->
           job_scheduler.claim_before job j = true)
  end.
Proof.
  unfold job_scheduler.first_queued.
  set (p := fun j : Job => String.eqb (status j) JOB_STATUS_QUEUED).
  pose proof (hd_order_by job_scheduler.claim_before claim_before_asym
                claim_before_negtrans (List.filter p rows)) as H.
  destruct (hd_error (job_scheduler.order_by job_scheduler.claim_before
                        (List.filter p rows))) as [job|].
  - destruct H as (l1 & l2 & Hsplit & Hmin & Hfirst).
    destruct (filter_split p rows l1 l2 job Hsplit) as (r1 & r2 & -> & F1 & F2 & Pj).
    exists r1, r2. split; [reflexivity|]. split.
    { apply String.eqb_eq. exact Pj. }
    split.
    + intros j Hj Hq. apply Hmin. apply filter_In. split; [exact Hj|].
      unfold p. apply String.eqb_eq. exact Hq.
    + intros j Hj Hq. apply Hfirst. rewrite <- F1. apply filter_In.
      split; [exact Hj|]. unfold p. apply String.eqb_eq. exact Hq.
  - intros j Hj Hq.
    assert (Hin : In j (List.filter p rows)).
    { apply filter_In. split; [exact Hj|]. unfold p. apply String.eqb_eq. exact Hq. }
    rewrite H in Hin. destruct Hin.
Qed.

(** ** The scheduler's claim *)

(** A claim attempt in which no database step raises. *)
Lemma claim_attempt_no_fault (now : Z) (db : DB) :
  job_scheduler.claim_attempt now NoFault db =
  match job_scheduler.first_queued (job_table db) with
  | None => Ok (db, None)
  | Some job => Ok (flush_job (job_scheduler.claimed now job) db, Some (id job))
  end.
Proof.
  unfold job_scheduler.claim_attempt. simpl.
  destruct (job_scheduler.first_queued (job_table db)); reflexivity.
Qed.

(** X9.  An attempt that raises leaves the decision to the next one, so the
    claim is the fault-free claim as soon as one of the two attempts can
    run: the same job is claimed and the same database results. *)
Lemma claim_next_fallback (now : Z) (f1 f2 : db_fault) (db : DB) :
  f1 = NoFault \/ f2 = NoFault ->
  job_scheduler._claim_next_queued_job now f1 f2 db =
  job_scheduler._claim_next_queued_job now NoFault NoFault db.
Proof.
  unfold job_scheduler._claim_next_queued_job.
  intros [-> | ->]; rewrite !claim_attempt_no_fault.
  - destruct (job_scheduler.first_queued (job_table db)); reflexivity.
  - unfold job_scheduler.claim_attempt.
    destruct f1; simpl;
      destruct (job_scheduler.first_queued (job_table db)); reflexivity.
Qed.

(** When both attempts raise, nothing is claimed and nothing changes. *)
Lemma claim_next_both_raise (now : Z) (f1 f2 : db_fault) (db : DB) :
  (exists e, job_scheduler.claim_attempt now f1 db = Raise e) ->
  (exists e, job_scheduler.claim_attempt now f2 db = Raise e) ->
  job_scheduler._claim_next_queued_job now f1 f2 db = (db, None).
Proof.
  intros [e1 H1] [e2 H2]. unfold job_scheduler._claim_next_queued_job.
  rewrite H1, H2. reflexivity.
Qed.


Lemma queue_db_primary_key : List.NoDup (map id (job_table Sample.queue_db)).
Proof.
  simpl. repeat constructor; simpl; intuition discriminate.
Qed.

Example claim_next_on_queue_db :
  job_scheduler._claim_next_queued_job 1000 NoFault NoFault Sample.queue_db =
  (mkDB [ Sample.job "job-1" "u1" JOB_STATUS_QUEUED 5 5 0 100 100;
          Sample.job "job-2" "u2" JOB_STATUS_RUNNING 9 9 1 200 1000;
          Sample.job "job-3" "u1" JOB_STATUS_RUNNING 10 10 1 50 60 ] [],
   Some "job-2").
Proof. reflexivity. Qed.


(** ** Status transitions of the data-access layer *)

Lemma get_after_flush (job_id : string) (db : DB) (job job' : Job) :
  JobsTable.get_job_by_id job_id db = Some job ->
  id job' = id job ->
  JobsTable.get_job_by_id job_id (flush_job job' db) = Some job'.
Proof.
  unfold JobsTable.get_job_by_id, flush_job, with_jobs. simpl.
  apply query_job_by_id_update.
Qed.

(** C4.  For a job that exists, [update_job_failed] stores the error text and
    sets the status to [queued] exactly when [requeue] is true and
    [attempt_count < max_attempts], and to [failed] otherwise; the counters are
    not touched.  With [requeue=True] the result is [failed] at
    [attempt_count = max_attempts] and [queued] below it. *)
Theorem update_job_failed_requeue_rule (now : Z) (job_id err : string)
    (requeue : bool) (db : DB) (job : Job) :
  JobsTable.get_job_by_id job_id db = Some job ->
  exists job',
    JobsTable.update_job_failed now job_id err requeue db
      = (flush_job job' db, Some job') /\
    JobsTable.get_job_by_id job_id (flush_job job' db) = Some job' /\
    error job' = Some err /\
    (status job' = JOB_STATUS_QUEUED <->
     requeue = true /\ attempt_count job < max_attempts job) /\
    (status job' = JOB_STATUS_FAILED <->
     ~ (requeue = true /\ attempt_count job < max_attempts job)) /\
    (requeue = true -> attempt_count job = max_attempts job ->
     status job' = JOB_STATUS_FAILED) /\
    (requeue = true -> attempt_count job < max_attempts job ->
     status job' = JOB_STATUS_QUEUED) /\
    attempt_count job' = attempt_count job /\
    max_attempts job' = max_attempts job /\
    updated_at job' = now.
Proof.
  intros Hget.
  unfold JobsTable.update_job_failed.
  unfold JobsTable.get_job_by_id in Hget. rewrite Hget.
  eexists. split; [reflexivity|].
  split.
  { apply get_after_flush with job; [exact Hget|].
    destruct (requeue && (attempt_count (set_error (Some err) job)
                          <? max_attempts (set_error (Some err) job)));
      reflexivity. }
  simpl attempt_count. simpl max_attempts.
  destruct requeue; simpl andb.
  - destruct (Z.ltb_spec (attempt_count job) (max_attempts job)) as [Hlt|Hge];
      simpl; unfold JOB_STATUS_QUEUED, JOB_STATUS_FAILED;
      intuition (try discriminate; try lia).
  - simpl; unfold JOB_STATUS_QUEUED, JOB_STATUS_FAILED;
      intuition (try discriminate; try lia).
Qed.

Lemma update_job_failed_requeue_rule_witness :
  JobsTable.get_job_by_id "job-r" Sample.running_db
    = Some (Sample.job "job-r" "u1" JOB_STATUS_RUNNING 5 5 1 100 120) /\
  exists job',
    JobsTable.update_job_failed 200 "job-r" "timeout" true Sample.running_db
      = (flush_job job' Sample.running_db, Some job') /\
    error job' = Some "timeout" /\
    status job' = JOB_STATUS_QUEUED.
Proof.
  split; [reflexivity|].
  destruct (update_job_failed_requeue_rule 200 "job-r" "timeout" true
              Sample.running_db
              (Sample.job "job-r" "u1" JOB_STATUS_RUNNING 5 5 1 100 120)
              eq_refl)
    as (job' & Hrun & _ & Herr & _ & _ & _ & Hq & _).
  exists job'. split; [exact Hrun|]. split; [exact Herr|].
  apply Hq; [reflexivity | simpl; lia].
Defined.

(** What the other writers do to the status, whatever it was. *)
Lemma update_job_completed_status (now : Z) (job_id : string) (res : pydict)
    (db : DB) (job : Job) :
  JobsTable.get_job_by_id job_id db = Some job ->
  exists job',
    JobsTable.update_job_completed now job_id res db
      = (flush_job job' db, Some job') /\
    JobsTable.get_job_by_id job_id (flush_job job' db) = Some job' /\
    status job' = JOB_STATUS_COMPLETED /\ result job' = Some res /\
    error job' = None.
Proof.
  intros Hget. unfold JobsTable.update_job_completed.
  unfold JobsTable.get_job_by_id in Hget. rewrite Hget.
  eexists. split; [reflexivity|]. split; [|repeat split].
  apply get_after_flush with job; [exact Hget | reflexivity].
Qed.

Lemma update_job_cancelled_terminal (now : Z) (job_id : string) (db : DB)
    (job : Job) :
  JobsTable.get_job_by_id job_id db = Some job ->
  in_terminal (status job) = true ->
  JobsTable.update_job_cancelled now job_id db = (db, Some job).
Proof.
  intros Hget Hterm. unfold JobsTable.update_job_cancelled.
  unfold JobsTable.get_job_by_id in Hget. rewrite Hget, Hterm. reflexivity.
Qed.

Lemma in_terminal_iff (s : string) :
  in_terminal s = true <->
  s = JOB_STATUS_COMPLETED \/ s = JOB_STATUS_FAILED \/ s = JOB_STATUS_CANCELLED.
Proof.
  unfold in_terminal, TERMINAL_STATUSES. rewrite bool_decide_eq_true.
  rewrite !elem_of_union, !elem_of_singleton. tauto.
Qed.

(** C2 (the code departs from the claim).  A cancelled job that has used one
    of its three attempts is a terminal row; [update_job_failed] with
    [requeue=True] writes it back as [queued], and [update_job_running] writes
    it as [running]. *)
Theorem update_job_failed_requeues_terminal_job :
  JobsTable.get_job_by_id "job-c" Sample.cancelled_db
    = Some (Sample.job "job-c" "u1" JOB_STATUS_CANCELLED 5 5 1 100 150) /\
  in_terminal JOB_STATUS_CANCELLED = true /\
  JobsTable.update_job_failed 200 "job-c" "backend timeout" true
      Sample.cancelled_db
    = (mkDB [ set_error (Some "backend timeout")
                (Sample.job "job-c" "u1" JOB_STATUS_QUEUED 5 5 1 100 200) ] [],
       Some (set_error (Some "backend timeout")
               (Sample.job "job-c" "u1" JOB_STATUS_QUEUED 5 5 1 100 200))) /\
  in_terminal JOB_STATUS_QUEUED = false /\
  option_map status
    (snd (JobsTable.update_job_running 200 "job-c" None Sample.cancelled_db))
    = Some JOB_STATUS_RUNNING.
Proof. repeat split. Qed.

(** C3 (the code departs from the claim).  A job is running; its owner
    cancels it while the scheduler's worker awaits the backend; the worker
    then writes its result.  The row is [cancelled] after the cancel and
    [completed] after the worker's write (or [queued] again when the backend
    call raised).  The submit handler's worker behaves the same when its task
    is not stopped before the awaited call ends.  Whether Redis raises at a
    cache invalidation makes no difference. *)
Theorem worker_write_overwrites_cancelled
    (raises_at_cancel raises_at_finish : bool) :
  match jobs_router.cancel_job 130 raises_at_cancel Sample.app_without_redis
          Sample.running_db "job-r" Sample.owner with
  | (app, db_cancelled, _, _) =>
      option_map status (JobsTable.get_job_by_id "job-r" db_cancelled)
        = Some JOB_STATUS_CANCELLED /\
      option_map status
        (JobsTable.get_job_by_id "job-r"
           (scheduler_worker._execute_job_finish 140 "job-r"
              (jobs_router.Returned Sample.hello) db_cancelled))
        = Some JOB_STATUS_COMPLETED /\
      option_map status
        (JobsTable.get_job_by_id "job-r"
           (scheduler_worker._execute_job_finish 140 "job-r"
              (jobs_router.Raised "HTTP 500") db_cancelled))
        = Some JOB_STATUS_QUEUED /\
      option_map status
        (JobsTable.get_job_by_id "job-r"
           (jobs_router.db
              (jobs_router._run_job_finish 140 raises_at_finish "job-r"
                 Sample.owner (jobs_router.Returned Sample.hello)
                 (jobs_router.mkWorld app db_cancelled [] []))))
        = Some JOB_STATUS_COMPLETED
  end.
Proof. vm_compute. repeat split. Qed.

(** ** Polling a job *)

(** X14.  Without a cached copy the handler answers from the table: 404 for
    an unknown id, 403 for another user's job, 200 with the job view for the
    owner, the result left out on request. *)
Lemma get_job_from_table (app : jobs_router.AppState) (db : DB)
    (job_id : string) (include_result : bool) (user : jobs_router.UserModel) :
  jobs_router._get_cached_job app job_id = None ->
  match JobsTable.get_job_by_id job_id db with
  | None =>
      snd (jobs_router.get_job app db job_id include_result user)
        = jobs_router.HTTPException 404
  | Some job =>
      if String.eqb (user_id job) (jobs_router.uid user)
      then snd (jobs_router.get_job app db job_id include_result user)
           = jobs_router.Response 200
               (if include_result then jobs_router._to_response job
                else dict_set "result" JNull (jobs_router._to_response job))
      else snd (jobs_router.get_job app db job_id include_result user)
           = jobs_router.HTTPException 403
  end.
Proof.
  intros Hc. unfold jobs_router.get_job. rewrite Hc.
  destruct (JobsTable.get_job_by_id job_id db) as [job|]; [|reflexivity].
  destruct (String.eqb (user_id job) (jobs_router.uid user)); simpl;
    [|reflexivity].
  destruct include_result; reflexivity.
Qed.

(** C6 (the code departs from the claim).  With Redis configured, the owner
    polls a completed job twice with [include_result=true].  The first answer
    is 200 and stores the job view in the cache; the view has no [user_id]
    key, so the second answer is 403. *)
Theorem get_job_cached_copy_refuses_owner :
  match jobs_router.get_job Sample.app_with_redis Sample.completed_db "job-d"
          true Sample.owner with
  | (app', first) =>
      JobsTable.get_job_by_id "job-d" Sample.completed_db
        = Some (set_result (Some Sample.hello)
                  (Sample.job "job-d" "u1" JOB_STATUS_COMPLETED 5 5 1 100 130)) /\
      jobs_router.uid Sample.owner = "u1" /\
      first = jobs_router.Response 200
                (jobs_router._to_response
                   (set_result (Some Sample.hello)
                      (Sample.job "job-d" "u1" JOB_STATUS_COMPLETED 5 5 1 100 130))) /\
      jobs_router._get_cached_job app' "job-d"
        = Some (jobs_router._to_response
                  (set_result (Some Sample.hello)
                     (Sample.job "job-d" "u1" JOB_STATUS_COMPLETED 5 5 1 100 130))) /\
      dict_get "user_id"
        (jobs_router._to_response
           (set_result (Some Sample.hello)
              (Sample.job "job-d" "u1" JOB_STATUS_COMPLETED 5 5 1 100 130)))
        = None /\
      snd (jobs_router.get_job app' Sample.completed_db "job-d" true Sample.owner)
        = jobs_router.HTTPException 403
  end.
Proof. vm_compute. repeat split. Qed.

(** ** The archive sweep *)

Lemma fold_archive_one (now : Z) (old_jobs : list Job) (session : DB) :
  fold_left (JobArchiveTable.archive_one now) old_jobs session =
  mkDB (fold_left (fun rows j => delete_row (id j) rows) old_jobs
          (job_table session))
       (job_archive_table session
        ++ map (JobArchiveTable.to_archive now) old_jobs).
Proof.
  revert session. induction old_jobs as [|j l IH]; intros session; simpl.
  - rewrite app_nil_r. destruct session; reflexivity.
  - rewrite IH. simpl. rewrite <- app_assoc. reflexivity.
Qed.

Lemma fold_delete_keeps_head (a : Job) (l rows : list Job) :
  (forall x, In x l -> id x <> id a) ->
  fold_left (fun rows j => delete_row (id j) rows) l (a :: rows) =
  a :: fold_left (fun rows j => delete_row (id j) rows) l rows.
Proof.
  revert rows. induction l as [|x l IH]; intros rows Hne; simpl; [reflexivity|].
  destruct (String.eqb_spec (id a) (id x)) as [E|E].
  - exfalso. apply (Hne x); [left; reflexivity | symmetry; exact E].
  - apply IH. intros y Hy. apply Hne. right. exact Hy.
Qed.

(** Deleting the selected rows one by one leaves the rows not selected. *)
Lemma fold_delete_filter (p : Job -> bool) (rows : list Job) :
  List.NoDup (map id rows) ->
  fold_left (fun rows j => delete_row (id j) rows) (List.filter p rows) rows =
  List.filter (fun j => negb (p j)) rows.
Proof.
  induction rows as [|a rows IH]; intros Hnd; simpl; [reflexivity|].
  inversion Hnd as [|? ? Hnotin Hnd']; subst.
  destruct (p a); simpl.
  - rewrite String.eqb_refl. apply IH. exact Hnd'.
  - rewrite fold_delete_keeps_head.
    + f_equal. apply IH. exact Hnd'.
    + intros x Hx E. apply Hnotin. rewrite <- E. apply in_map.
      apply filter_In in Hx. apply Hx.
Qed.

(** The sweep when no step raises: the old terminal rows leave the active
    table, enter the archive stamped with [now], and are counted. *)
Lemma archive_old_jobs_success (now older_than_days : Z) (db : DB) :
  List.NoDup (map id (job_table db)) ->
  let cutoff := now - older_than_days * 86400 in
  let is_old := fun j => in_terminal (status j) && (updated_at j <? cutoff) in
  JobArchiveTable.archive_old_jobs now older_than_days NoFault db =
  (mkDB (List.filter (fun j => negb (is_old j)) (job_table db))
        (job_archive_table db
         ++ map (JobArchiveTable.to_archive now)
              (List.filter is_old (job_table db))),
   Z.of_nat (length (List.filter is_old (job_table db)))).
Proof.
  intros Hnd cutoff is_old.
  unfold JobArchiveTable.archive_old_jobs. simpl.
  rewrite fold_archive_one. unfold JobArchiveTable.old_jobs_of.
  fold cutoff. fold is_old.
  rewrite (fold_delete_filter is_old _ Hnd). reflexivity.
Qed.

(** A failure before the rows are read: nothing changes, 0 is returned. *)
Lemma archive_old_jobs_early_fault (now older_than_days : Z) (f : db_fault)
    (db : DB) :
  f = ConnectFault \/ f = QueryFault ->
  JobArchiveTable.archive_old_jobs now older_than_days f db = (db, 0).
Proof. intros [-> | ->]; reflexivity. Qed.

(** A failure of the final commit: nothing changes, and the value returned is
    the number of rows that had been selected. *)
Lemma archive_old_jobs_commit_fault (now older_than_days : Z) (db : DB) :
  JobArchiveTable.archive_old_jobs now older_than_days CommitFault db =
  (db,
   Z.of_nat
     (length (JobArchiveTable.old_jobs_of (now - older_than_days * 86400) db))).
Proof. reflexivity. Qed.

(** C7 (the code departs from the claim).  One completed job was last updated
    forty days ago and the retention is thirty days.  When the final commit
    raises, the active table still holds the job and the archive is empty,
    yet the sweep returns 1; when nothing raises the job is moved and 1 is
    returned; when the session cannot be opened 0 is returned. *)
Theorem archive_old_jobs_counts_uncommitted_rows :
  JobArchiveTable.archive_old_jobs Sample.archive_now 30 CommitFault
      Sample.aged_db
    = (Sample.aged_db, 1) /\
  JobArchiveTable.archive_old_jobs Sample.archive_now 30 NoFault Sample.aged_db
    = (mkDB []
         [ mkJobArchive
             (Sample.job "job-o" "u1" JOB_STATUS_COMPLETED 5 5 1
                (Sample.archive_now - 41 * 86400)
                (Sample.archive_now - 40 * 86400))
             Sample.archive_now ],
       1) /\
  JobArchiveTable.archive_old_jobs Sample.archive_now 30 ConnectFault
      Sample.aged_db
    = (Sample.aged_db, 0).
Proof. repeat split. Qed.

(** ** Comparing floats *)

Ltac float_cases :=
  repeat match goal with
  | s : bool |- _ => destruct s
  end;
  cbn [SFcompare CompOpp pyfloat.is_nan pyfloat.is_finite] in *;
  repeat match goal with
  | H : context [Z.compare ?x ?y] |- _ => destruct (Z.compare_spec x y)
  | |- context [Z.compare ?x ?y] => destruct (Z.compare_spec x y)
  | H : context [Pos.compare_cont Eq ?x ?y] |- _ =>
      change (Pos.compare_cont Eq x y) with (Pos.compare x y) in *;
      destruct (Pos.compare_spec x y)
  | |- context [Pos.compare_cont Eq ?x ?y] =>
      change (Pos.compare_cont Eq x y) with (Pos.compare x y) in *;
      destruct (Pos.compare_spec x y)
  end;
  cbn [CompOpp] in *;
  try congruence; try lia.

Lemma float_finite_not_nan (a : pyfloat.float) :
  pyfloat.is_finite a = true -> pyfloat.is_nan a = false.
Proof. destruct a; simpl; congruence. Qed.

Lemma float_finite_below_inf (a : pyfloat.float) :
  pyfloat.is_finite a = true -> pyfloat.ltb a pyfloat.inf = true.
Proof. destruct a as [|[]| |[]]; simpl; intros H; solve [reflexivity | discriminate]. Qed.

Lemma float_leb_refl (a : pyfloat.float) :
  pyfloat.is_nan a = false -> pyfloat.leb a a = true.
Proof.
  unfold pyfloat.leb, SFleb. destruct a as [sa|sa| |sa ma ea]; float_cases.
Qed.

(** Where [a < b] is not so and neither is a NaN, [b <= a]. *)
Lemma float_ltb_false_leb (a b : pyfloat.float) :
  pyfloat.is_nan a = false -> pyfloat.is_nan b = false ->
  pyfloat.ltb a b = false -> pyfloat.leb b a = true.
Proof.
  unfold pyfloat.ltb, pyfloat.leb, SFltb, SFleb.
  destruct a as [sa|sa| |sa ma ea], b as [sb|sb| |sb mb eb]; float_cases.
Qed.

Lemma float_ltb_leb_trans (a b c : pyfloat.float) :
  pyfloat.ltb a b = true -> pyfloat.leb b c = true -> pyfloat.ltb a c = true.
Proof.
  unfold pyfloat.ltb, pyfloat.leb, SFltb, SFleb.
  destruct a as [sa|sa| |sa ma ea], b as [sb|sb| |sb mb eb],
    c as [sc|sc| |sc mc ec]; float_cases.
Qed.

Lemma float_ltb_leb (a b : pyfloat.float) :
  pyfloat.ltb a b = true -> pyfloat.leb a b = true.
Proof.
  unfold pyfloat.ltb, pyfloat.leb, SFltb, SFleb.
  destruct (SFcompare a b) as [[]|]; congruence.
Qed.

(** The literal 0.7 is the value of [1 - alpha] for [alpha = 0.3]. *)
Lemma one_minus_three_tenths :
  pyfloat.sub pyfloat.one pyfloat.three_tenths = pyfloat.seven_tenths.
Proof. vm_compute. reflexivity. Qed.

(** ** Backend selection *)

Section Selector.

Variable base_url_of : string -> string.
Variables W_jobs W_latency : pyfloat.float.

Let score := ollama.score_of W_jobs W_latency.
Let step := ollama.score_step W_jobs W_latency.
Let loop := ollama.scoring_loop W_jobs W_latency.
Let finite := finite_score W_jobs W_latency.

Lemma finite_score_spec (m : ollama.ServerMetrics) :
  finite m = true ->
  exists s, score m = Ok s /\ pyfloat.is_finite s = true.
Proof.
  unfold finite, finite_score. fold score.
  destruct (score m) as [s|e]; [|discriminate]. intros H. exists s. auto.
Qed.

Lemma scoring_loop_app (l : list ollama.ServerMetrics)
    (x : ollama.ServerMetrics) (acc : pyfloat.float * option nat) :
  loop (l ++ [x]) acc = (acc' ← loop l acc; step acc' x).
Proof.
  unfold loop, step. revert acc. induction l as [|y l IH]; intros acc; simpl.
  - destruct (ollama.score_step W_jobs W_latency acc x); reflexivity.
  - destruct (ollama.score_step W_jobs W_latency acc y) as [acc'|e]; simpl;
      [apply IH | reflexivity].
Qed.

(** When every score is a finite number, the scoring loop keeps the first
    server whose score no other server's score is below. *)
Lemma scoring_loop_spec (servers : list ollama.ServerMetrics) :
  servers <> [] ->
  forallb finite servers = true ->
  exists l1 m l2 s,
    servers = l1 ++ m :: l2 /\
    score m = Ok s /\
    loop servers (pyfloat.inf, None) = Ok (s, Some (ollama.idx m)) /\
    (forall x, In x servers ->
       exists sx, score x = Ok sx /\ pyfloat.leb s sx = true) /\
    (forall x, In x l1 ->
       exists sx, score x = Ok sx /\ pyfloat.ltb s sx = true).
Proof.
  induction servers as [|x l IH] using rev_ind; [congruence|]. intros _ Hfin.
  rewrite forallb_app in Hfin. apply andb_true_iff in Hfin.
  destruct Hfin as [Hl Hx]. simpl in Hx. rewrite andb_true_r in Hx.
  destruct (finite_score_spec x Hx) as (sx & Hsx & Hxfin).
  rewrite scoring_loop_app.
  destruct l as [|y l'].
  - exists [], x, [], sx. split; [reflexivity|]. split; [exact Hsx|]. split.
    + simpl. unfold step, ollama.score_step. fold score. rewrite Hsx. simpl.
      rewrite (float_finite_below_inf sx Hxfin). reflexivity.
    + split.
      * intros z [<- | []]. exists sx. split; [exact Hsx|].
        apply float_leb_refl, float_finite_not_nan, Hxfin.
      * intros z [].
  - destruct IH as (l1 & m & l2 & s & Hsplit & Hs & Hloop & Hmin & Hfirst);
      [discriminate | exact Hl |].
    rewrite Hloop. cbv beta iota delta [mbind outcome_bind].
    unfold step, ollama.score_step. fold score.
    rewrite Hsx. cbv beta iota delta [mbind outcome_bind fst].
    assert (Hm : In m (y :: l')) by (rewrite Hsplit; apply in_elt).
    assert (Hsfin : pyfloat.is_finite s = true).
    { rewrite forallb_forall in Hl. destruct (finite_score_spec m (Hl m Hm))
        as (s' & Hs' & Hfin'). rewrite Hs in Hs'. injection Hs' as <-.
      exact Hfin'. }
    destruct (pyfloat.ltb sx s) eqn:E.
    + exists (y :: l'), x, [], sx. split; [reflexivity|].
      split; [exact Hsx|]. split; [reflexivity|]. split.
      * intros z Hz. apply in_app_or in Hz. destruct Hz as [Hz | [<- | []]].
        -- destruct (Hmin z Hz) as (sz & Hsz & Hle). exists sz.
           split; [exact Hsz|].
           apply float_ltb_leb, (float_ltb_leb_trans sx s sz E Hle).
        -- exists sx. split; [exact Hsx|].
           apply float_leb_refl, float_finite_not_nan, Hxfin.
      * intros z Hz. destruct (Hmin z Hz) as (sz & Hsz & Hle). exists sz.
        split; [exact Hsz|]. exact (float_ltb_leb_trans sx s sz E Hle).
    + exists l1, m, (l2 ++ [x]), s. split.
      { rewrite Hsplit. rewrite <- app_assoc. reflexivity. }
      split; [exact Hs|]. split; [reflexivity|]. split.
      * intros z Hz. apply in_app_or in Hz. destruct Hz as [Hz | [<- | []]].
        -- apply Hmin. exact Hz.
        -- exists sx. split; [exact Hsx|].
           apply float_ltb_false_leb;
             [apply float_finite_not_nan, Hxfin
             | apply float_finite_not_nan, Hsfin | exact E].
      * exact Hfirst.
Qed.

(** Unhealthy servers are dropped, unless that leaves none. *)
Lemma healthy_of_spec (servers : list ollama.ServerMetrics) :
  let healthy := List.filter (fun m => negb (ollama.is_unhealthy m)) servers in
  (healthy <> [] -> ollama.healthy_of servers = healthy) /\
  (healthy = [] -> ollama.healthy_of servers = servers).
Proof.
  unfold ollama.healthy_of.
  destruct (List.filter (fun m => negb (ollama.is_unhealthy m)) servers);
    simpl; split; intros H; congruence.
Qed.

Lemma healthy_of_nonempty (servers : list ollama.ServerMetrics) :
  servers <> [] -> ollama.healthy_of servers <> [].
Proof.
  intros Hne. unfold ollama.healthy_of.
  destruct (List.filter (fun m => negb (ollama.is_unhealthy m)) servers);
    [exact Hne | discriminate].
Qed.

Lemma healthy_of_finite (servers : list ollama.ServerMetrics) :
  forallb finite servers = true ->
  forallb finite (ollama.healthy_of servers) = true.
Proof.
  intros H. unfold ollama.healthy_of.
  destruct (List.filter (fun m => negb (ollama.is_unhealthy m)) servers)
    as [|a l] eqn:E; [exact H|].
  rewrite <- E. rewrite forallb_forall in *. intros x Hx.
  apply filter_In in Hx. apply H, Hx.
Qed.

Lemma collect_metrics_nonempty (urls : list string) (st : ollama.Stats)
    (i : nat) (rest : list nat) (servers : list ollama.ServerMetrics) :
  ollama.collect_metrics base_url_of urls st (i :: rest) = Ok servers ->
  servers <> [].
Proof.
  simpl. destruct (nth_error urls i); [|discriminate].
  destruct (ollama.collect_metrics base_url_of urls st rest); simpl;
    [|discriminate].
  intros H. injection H as <-. discriminate.
Qed.

(** When the candidates' scores are finite numbers, the [random.choice]
    fallback is never reached: the selection does not depend on the
    generator's draw. *)
Lemma get_ollama_url_ignores_draw (models : gmap string (list nat))
    (urls : list string) (st : ollama.Stats) (model : string) (rnd rnd' : nat) :
  (forall cands servers,
     models !! model = Some cands ->
     ollama.collect_metrics base_url_of urls st cands = Ok servers ->
     forallb finite servers = true) ->
  ollama.get_ollama_url base_url_of W_jobs W_latency models urls st rnd model =
  ollama.get_ollama_url base_url_of W_jobs W_latency models urls st rnd' model.
Proof.
  intros Hfin. unfold ollama.get_ollama_url.
  destruct (models !! model) as [[|i rest]|] eqn:Hm; try reflexivity.
  destruct (ollama.collect_metrics base_url_of urls st (i :: rest))
    as [servers|e] eqn:Hc; [|reflexivity].
  simpl mbind. unfold outcome_bind.
  destruct (scoring_loop_spec (ollama.healthy_of servers))
    as (l1 & m & l2 & s & _ & _ & Hloop & _).
  { apply healthy_of_nonempty. eapply collect_metrics_nonempty. exact Hc. }
  { apply healthy_of_finite. exact (Hfin _ _ eq_refl Hc). }
  unfold loop in Hloop. rewrite Hloop. reflexivity.
Qed.

End Selector.

(** The backend with no active jobs is preferred to the one with five. *)
Example get_ollama_url_prefers_idle_backend :
  ollama.get_ollama_url Sample.origin pyfloat.one pyfloat.one Sample.models
    Sample.base_urls Sample.busy_first 0 "llama3:latest"
  = Ok ("http://gpu-b:11434", 1%nat).
Proof. vm_compute. reflexivity. Qed.

(** C5 (the code departs from the claim).  Two candidates, no metrics for
    either: both score 0, the scoring loop keeps the first, and the result is
    the first candidate for every draw of the random generator; the second
    candidate is never selected. *)
Theorem get_ollama_url_without_metrics_takes_first (rnd : nat) :
  ollama.get_ollama_url Sample.origin pyfloat.one pyfloat.one Sample.models
    Sample.base_urls Sample.no_stats rnd "llama3:latest"
  = Ok ("http://gpu-a:11434", 0%nat).
Proof. vm_compute. reflexivity. Qed.

(** ** Daily buckets *)

Example day_label_sqlite_epoch : analytics.day_label_sqlite 0 = "1970-01-01".
Proof. reflexivity. Qed.

Example day_label_sqlite_leap_day :
  analytics.day_label_sqlite 1709210096 = "2024-02-29".
Proof. reflexivity. Qed.

Example day_label_other_utc :
  analytics.day_label_other 0 1709210096 = "2024-02-29".
Proof. reflexivity. Qed.

(** X24.  On a server whose local time is UTC or east of it (by less than a
    day) the two labels agree for every timestamp since the epoch. *)
Lemma day_label_other_east_of_utc (utc_offset created_at : Z) :
  0 <= created_at ->
  0 <= utc_offset < analytics.day_secs ->
  analytics.day_label_other utc_offset created_at
  = analytics.day_label_sqlite created_at.
Proof.
  intros Ht Hoff.
  unfold analytics.day_label_other, analytics.day_label_sqlite,
    analytics.date_fromtimestamp, analytics.day_secs in *.
  do 2 f_equal.
  rewrite Z.quot_div_nonneg by lia.
  rewrite Z.div_add_l by lia.
  rewrite (Z.div_small utc_offset) by lia. lia.
Qed.

(** C8 (the code departs from the claim).  For a job created at
    2023-11-14 22:13:20 UTC on a server five hours west of UTC, the SQLite
    path labels the bucket 2023-11-14 and the other path labels it
    2023-11-13. *)
Theorem day_labels_differ_west_of_utc :
  analytics.day_label "sqlite" (-18000) 1700000000 = "2023-11-14" /\
  analytics.day_label "postgresql" (-18000) 1700000000 = "2023-11-13" /\
  analytics.day_label_sqlite 1700000000
    <> analytics.day_label_other (-18000) 1700000000.
Proof.
  split; [reflexivity|]. split; [reflexivity|].
  vm_compute. discriminate.
Qed.

(** ** Tokens per second *)

(** The in-memory average after a sample has been stored. *)
Lemma read_after_memory_store (b : string) (s alpha : pyfloat.float)
    (m : ollama.Memory) :
  let read := fun m =>
    match ollama.PERFORMANCE_STATS m !! b with
    | Some entry => default pyfloat.zero (ollama.avg_tokens_per_second entry)
    | None => pyfloat.zero
    end in
  read (ollama._update_token_stats_memory b s alpha m) =
  if pyfloat.eqb (read m) pyfloat.zero then s
  else ollama.moving_average alpha s (read m).
Proof.
  cbv zeta. unfold ollama._update_token_stats_memory.
  destruct (ollama.PERFORMANCE_STATS m !! b) as [entry|] eqn:E;
    cbn [ollama.PERFORMANCE_STATS]; rewrite lookup_insert_eq;
    cbn [ollama.avg_tokens_per_second default from_option];
    unfold Datatypes.id; [|reflexivity].
  destruct (ollama.avg_tokens_per_second entry); reflexivity.
Qed.

(** C9.  The sample is [eval_count / (eval_duration_nanos / 1e9)], computed
    in binary64 from the two integers.  A call with
    [eval_duration_nanos <= 0], or whose sample is below 0.1 or above 1000
    tokens per second, returns with the whole registry as it was.  An
    accepted sample becomes the stored average when none is stored yet (the
    average reads 0), and otherwise the stored average becomes
    0.3 * sample + 0.7 * previous, each product and the sum rounded as Python
    rounds them.  The stored average is the one [get_server_stats] reads.
    An integer too large for a float raises [OverflowError] and stores
    nothing. *)
Theorem update_token_stats_ema (base_url_of : string -> string) (url : string)
    (eval_count eval_duration_nanos : Z) (st : ollama.Stats) :
  let b := base_url_of url in
  let previous := ollama.read_avg_tokens_per_second b st in
  let result :=
    ollama.update_token_stats base_url_of url eval_count eval_duration_nanos
      st in
  (eval_duration_nanos <= 0 -> result = (st, None)) /\
  (forall count duration : pyfloat.float,
     0 < eval_duration_nanos ->
     pyfloat.of_int eval_count = Ok count ->
     pyfloat.of_int eval_duration_nanos = Ok duration ->
     let sample := pyfloat.div count (pyfloat.div duration pyfloat.billion) in
     (pyfloat.ltb sample pyfloat.tenth = true
      \/ pyfloat.ltb pyfloat.thousand sample = true ->
      result = (st, None)) /\
     (pyfloat.ltb sample pyfloat.tenth = false ->
      pyfloat.ltb pyfloat.thousand sample = false ->
      snd result = None /\
      ollama.read_avg_tokens_per_second b (fst result)
      = if pyfloat.eqb previous pyfloat.zero then sample
        else pyfloat.add (pyfloat.mul pyfloat.three_tenths sample)
               (pyfloat.mul pyfloat.seven_tenths previous))) /\
  (forall e,
     0 < eval_duration_nanos ->
     ollama.tokens_per_second_of eval_count eval_duration_nanos = Raise e ->
     result = (st, Some e)).
Proof.
  intros b previous result. split; [|split].
  - intros Hle. unfold result, ollama.update_token_stats.
    destruct (Z.leb_spec eval_duration_nanos 0); [reflexivity | lia].
  - intros count duration Hpos Hc Hd sample.
    assert (Htps :
      ollama.tokens_per_second_of eval_count eval_duration_nanos = Ok sample).
    { unfold ollama.tokens_per_second_of. rewrite Hd.
      cbv beta iota delta [mbind outcome_bind]. rewrite Hc. reflexivity. }
    unfold result, ollama.update_token_stats.
    destruct (Z.leb_spec eval_duration_nanos 0) as [Hle|_]; [lia|].
    rewrite Htps. split.
    + intros [H|H]; rewrite H; [|rewrite orb_true_r]; reflexivity.
    + intros Hlo Hhi. rewrite Hlo, Hhi. cbn [orb]. fold b.
      rewrite <- one_minus_three_tenths.
      change (pyfloat.add (pyfloat.mul pyfloat.three_tenths sample)
                (pyfloat.mul (pyfloat.sub pyfloat.one pyfloat.three_tenths)
                   previous))
        with (ollama.moving_average pyfloat.three_tenths sample previous).
      unfold previous, ollama.read_avg_tokens_per_second.
      destruct st as [[r|] raises m];
        cbn [ollama.redis ollama.redis_raises ollama.memory].
      * destruct raises; cbn [fst snd ollama.with_memory ollama.with_redis
          ollama.redis ollama.redis_raises ollama.memory
          ollama.r_avg_tokens_per_second]; (split; [reflexivity|]).
        -- apply (read_after_memory_store b sample pyfloat.three_tenths m).
        -- rewrite lookup_insert_eq.
           destruct (ollama.r_avg_tokens_per_second r !! b); reflexivity.
      * cbn [fst snd ollama.with_memory ollama.redis ollama.memory].
        split; [reflexivity|].
        apply (read_after_memory_store b sample pyfloat.three_tenths m).
  - intros e Hpos Htps. unfold result, ollama.update_token_stats.
    destruct (Z.leb_spec eval_duration_nanos 0) as [Hle|_]; [lia|].
    rewrite Htps. reflexivity.
Qed.

Lemma update_token_stats_ema_witness :
  0 < 1000000000 /\
  pyfloat.of_int 10 = Ok (pyfloat.round_int 10) /\
  pyfloat.of_int 1000000000 = Ok pyfloat.billion /\
  ollama.read_avg_tokens_per_second (Sample.origin "http://gpu-a:11434")
    (fst (ollama.update_token_stats Sample.origin "http://gpu-a:11434" 10
            1000000000 Sample.no_stats))
  = pyfloat.round_int 10.
Proof.
  split; [lia|]. split; [vm_compute; reflexivity|].
  split; [vm_compute; reflexivity|].
  pose proof (update_token_stats_ema Sample.origin "http://gpu-a:11434" 10
                1000000000 Sample.no_stats) as H.
  cbv zeta in H. destruct H as (_ & H & _).
  destruct (H (pyfloat.round_int 10) pyfloat.billion) as [_ Haccept];
    [lia | vm_compute; reflexivity | vm_compute; reflexivity |].
  destruct Haccept as [_ Hread]; [vm_compute; reflexivity ..|].
  rewrite Hread. vm_compute. reflexivity.
Defined.

(** Ten tokens per second, then twenty: the average goes from 10 to 13. *)
Example token_average_after_two_samples :
  ollama.read_avg_tokens_per_second "http://gpu-a:11434"
    (fst (ollama.update_token_stats Sample.origin "http://gpu-a:11434" 20
            1000000000
            (fst (ollama.update_token_stats Sample.origin "http://gpu-a:11434"
                    10 1000000000 Sample.no_stats))))
  = pyfloat.round_int 13.
Proof. vm_compute. reflexivity. Qed.

(** A sample of 2000 tokens per second is dropped. *)
Example token_outlier_is_dropped :
  ollama.update_token_stats Sample.origin "http://gpu-a:11434" 2000
    1000000000 Sample.no_stats
  = (Sample.no_stats, None).
Proof. vm_compute. reflexivity. Qed.

(** Nine tokens in nine milliseconds: the quotient is rounded to the float
    next above 1000, and the sample is dropped. *)
Example token_sample_rounded_above_bound :
  ollama.tokens_per_second_of 9 9000000
  = Ok (S754_finite false 8796093022208001 (-43)) /\
  pyfloat.thousand = S754_finite false 8796093022208000 (-43) /\
  ollama.update_token_stats Sample.origin "http://gpu-a:11434" 9 9000000
    Sample.no_stats
  = (Sample.no_stats, None).
Proof. vm_compute. repeat split. Qed.

(** One token in ten seconds, twice: each sample is the float 0.1 and is
    accepted, and the average of the two is rounded to the float next below
    0.1. *)
Example token_average_rounded_below_bound :
  let st1 :=
    fst (ollama.update_token_stats Sample.origin "http://gpu-a:11434" 1
           10000000000 Sample.no_stats) in
  let st2 :=
    fst (ollama.update_token_stats Sample.origin "http://gpu-a:11434" 1
           10000000000 st1) in
  ollama.read_avg_tokens_per_second "http://gpu-a:11434" st1 = pyfloat.tenth /\
  pyfloat.tenth = S754_finite false 7205759403792794 (-56) /\
  ollama.read_avg_tokens_per_second "http://gpu-a:11434" st2
  = S754_finite false 7205759403792793 (-56).
Proof. vm_compute. repeat split. Qed.

(** A count too large for a float raises and stores nothing. *)
Example token_count_overflow :
  ollama.update_token_stats Sample.origin "http://gpu-a:11434" (2 ^ 1024)
    1000000000 Sample.no_stats
  = (Sample.no_stats, Some "int too large to convert to float").
Proof. vm_compute. reflexivity. Qed.

(** ** Submitting a job *)

Lemma query_last (job_id : string) (rows : list Job) (j : Job) :
  (forall r, In r rows -> id r <> job_id) ->
  id j = job_id ->
  query_job_by_id job_id (rows ++ [j]) = Some j.
Proof. intros Hf Hid. apply query_job_by_id_app; assumption. Qed.

Lemma flush_last (rows : list Job) (arch : list JobArchive) (j j' : Job) :
  (forall r, In r rows -> id r <> id j) ->
  id j' = id j ->
  flush_job j' (mkDB (rows ++ [j]) arch) = mkDB (rows ++ [j']) arch.
Proof.
  intros Hf Hid. unfold flush_job, with_jobs. simpl.
  rewrite (update_row_app j' j rows []); [reflexivity | exact Hf | exact Hid].
Qed.

(** C10.  For a known model and a fresh job id, the submit handler inserts
    the job as [queued] with no attempts and no backend, answers 202 with
    status [queued], and hands [_run_job] for that job to [create_task].  The
    worker's first step is [update_job_running] without a backend url: the
    row becomes [running] with [attempt_count = 1] and [backend_url] still
    null.  When the backend call returns, the worker marks the job
    [completed] with the result; when it raises, the worker calls
    [update_job_failed] with [requeue=True], which puts the job back to
    [queued] as one of three attempts is used.  The worker's data-access
    calls are these two; the scheduler's claim is not among them.  Whether
    Redis raises at the worker's two cache invalidations makes no
    difference. *)
Theorem submit_job_spawns_running_worker (now later : Z) (job_id : string)
    (form : jobs_router.JobSubmitForm) (user : jobs_router.UserModel)
    (w : jobs_router.World) (raises_first raises_last : bool) :
  jobs_router.model form ∈ jobs_router.MODELS (jobs_router.app_state w) ->
  (forall r, In r (job_table (jobs_router.db w)) -> id r <> job_id) ->
  let payload :=
    dict_set "stream" (JBool false) (jobs_router.model_dump_exclude_none form) in
  let prio := default 5 (jobs_router.job_priority user) in
  let row := fun st attempts res err updated =>
    mkJob job_id (jobs_router.uid user) st prio (inject_Z prio)
      (Some (jobs_router.model form)) None (Some payload) res err attempts 3
      now updated in
  let t := jobs_router.Task_run_job job_id payload user in
  exists w1,
    jobs_router.submit_job now job_id form user w =
      (w1,
       jobs_router.Response 202
         [ ("job_id", JStr job_id); ("status", JStr "queued");
           ("model_id", JStr (jobs_router.model form));
           ("created_at", JInt now) ],
       Some t) /\
    JobsTable.get_job_by_id job_id (jobs_router.db w1)
      = Some (row JOB_STATUS_QUEUED 0 None None now) /\
    JobsTable.get_job_by_id job_id
      (jobs_router.db (jobs_router._run_job_start later raises_first job_id w1))
      = Some (row JOB_STATUS_RUNNING 1 None None later) /\
    (forall res,
       let w2 := jobs_router.run_task later raises_first raises_last t (jobs_router.Returned res) w1 in
       JobsTable.get_job_by_id job_id (jobs_router.db w2)
         = Some (row JOB_STATUS_COMPLETED 1 (Some res) None later) /\
       jobs_router.dal_calls w2 =
         jobs_router.dal_calls w1
         ++ [ jobs_router.Call_update_job_running job_id None;
              jobs_router.Call_update_job_completed job_id ]) /\
    (forall exc,
       let w2 := jobs_router.run_task later raises_first raises_last t (jobs_router.Raised exc) w1 in
       JobsTable.get_job_by_id job_id (jobs_router.db w2)
         = Some (row JOB_STATUS_QUEUED 1 None (Some exc) later) /\
       jobs_router.dal_calls w2 =
         jobs_router.dal_calls w1
         ++ [ jobs_router.Call_update_job_running job_id None;
              jobs_router.Call_update_job_failed job_id true ]).
Proof.
  intros Hmodel Hfresh payload prio row t.
  unfold jobs_router.submit_job.
  rewrite (bool_decide_eq_true_2 _ Hmodel). simpl negb. cbv iota.
  fold payload.
  replace (match jobs_router.job_priority user with
           | Some p => p
           | None => 5
           end) with prio by reflexivity.
  unfold JobsTable.insert_new_job, with_jobs.
  set (rows := job_table (jobs_router.db w)).
  set (arch := job_archive_table (jobs_router.db w)).
  fold (row JOB_STATUS_QUEUED 0 None None now).
  eexists. split; [reflexivity|].
  assert (Hq : forall j, id j = job_id ->
            query_job_by_id job_id (rows ++ [j]) = Some j).
  { intros j Hj. apply query_last; [exact Hfresh | exact Hj]. }
  assert (Hf : forall j j', id j = job_id -> id j' = job_id ->
            flush_job j' (mkDB (rows ++ [j]) arch) = mkDB (rows ++ [j']) arch).
  { intros j j' Hj Hj'. apply flush_last; [|congruence].
    intros r Hr. rewrite Hj. apply Hfresh. exact Hr. }
  assert (Hstart :
    jobs_router.db
      (jobs_router._run_job_start later raises_first job_id
         (jobs_router.mkWorld (jobs_router.app_state w)
            (mkDB (rows ++ [row JOB_STATUS_QUEUED 0 None None now]) arch)
            (jobs_router.sse_published w)
            (jobs_router.dal_calls w ++ [jobs_router.Call_insert_new_job job_id])))
    = mkDB (rows ++ [row JOB_STATUS_RUNNING 1 None None later]) arch).
  { unfold jobs_router._run_job_start, JobsTable.update_job_running.
    cbn [jobs_router.db job_table]. rewrite Hq by reflexivity.
    cbn [jobs_router.db]. apply Hf; reflexivity. }
  split; [apply Hq; reflexivity|].
  split.
  { rewrite Hstart. unfold JobsTable.get_job_by_id. cbn [job_table].
    apply Hq. reflexivity. }
  split.
  - intros res. unfold t, jobs_router.run_task, jobs_router._run_job.
    unfold jobs_router._run_job_finish.
    set (ws := jobs_router._run_job_start later raises_first job_id _) in *.
    rewrite Hstart.
    unfold JobsTable.update_job_completed. cbn [job_table].
    rewrite Hq by reflexivity.
    cbn [jobs_router.db jobs_router.dal_calls].
    rewrite (Hf _ (row JOB_STATUS_COMPLETED 1 (Some res) None later))
      by reflexivity.
    split.
    + unfold JobsTable.get_job_by_id. cbn [job_table]. apply Hq. reflexivity.
    + unfold ws, jobs_router._run_job_start.
      destruct (JobsTable.update_job_running later job_id None _).
      cbn [jobs_router.dal_calls]. rewrite <- app_assoc. reflexivity.
  - intros exc. unfold t, jobs_router.run_task, jobs_router._run_job.
    unfold jobs_router._run_job_finish.
    set (ws := jobs_router._run_job_start later raises_first job_id _) in *.
    rewrite Hstart.
    unfold JobsTable.update_job_failed. cbn [job_table].
    rewrite Hq by reflexivity.
    cbn [jobs_router.db jobs_router.dal_calls].
    rewrite (Hf _ (row JOB_STATUS_QUEUED 1 None (Some exc) later))
      by reflexivity.
    split.
    + unfold JobsTable.get_job_by_id. cbn [job_table]. apply Hq. reflexivity.
    + unfold ws, jobs_router._run_job_start.
      destruct (JobsTable.update_job_running later job_id None _).
      cbn [jobs_router.dal_calls]. rewrite <- app_assoc. reflexivity.
Qed.

Lemma sample_model_known :
  jobs_router.model Sample.form
  ∈ jobs_router.MODELS (jobs_router.app_state Sample.world).
Proof. apply (bool_decide_eq_true_1 _). vm_compute. reflexivity. Qed.

Lemma sample_job_id_fresh (r : Job) :
  In r (job_table (jobs_router.db Sample.world)) -> id r <> "job-new".
Proof. intros [<- | [<- | [<- | []]]]; discriminate. Qed.

Lemma submit_job_spawns_running_worker_witness :
  jobs_router.model Sample.form
    ∈ jobs_router.MODELS (jobs_router.app_state Sample.world) /\
  (forall r, In r (job_table (jobs_router.db Sample.world)) ->
     id r <> "job-new") /\
  exists w1 payload,
    jobs_router.submit_job 100 "job-new" Sample.form Sample.owner Sample.world
      = (w1,
         jobs_router.Response 202
           [ ("job_id", JStr "job-new"); ("status", JStr "queued");
             ("model_id", JStr "llama3"); ("created_at", JInt 100) ],
         Some (jobs_router.Task_run_job "job-new" payload Sample.owner)) /\
    option_map (fun j => (status j, attempt_count j, backend_url j))
      (JobsTable.get_job_by_id "job-new"
         (jobs_router.db (jobs_router._run_job_start 101 false "job-new" w1)))
      = Some (JOB_STATUS_RUNNING, 1, None).
Proof.
  split; [exact sample_model_known|].
  split; [exact sample_job_id_fresh|].
  destruct (submit_job_spawns_running_worker 100 101 "job-new" Sample.form
              Sample.owner Sample.world false false sample_model_known
              sample_job_id_fresh)
    as (w1 & Hsubmit & _ & Hrun & _).
  exists w1. eexists. split; [exact Hsubmit|].
  rewrite Hrun. reflexivity.
Defined.

Example submitted_job_completes :
  option_map (fun j => (status j, attempt_count j, backend_url j, result j))
    (JobsTable.get_job_by_id "job-new"
       (jobs_router.db
          (jobs_router._run_job 101 false false "job-new" Sample.owner
             (jobs_router.Returned Sample.hello)
             (fst (fst (jobs_router.submit_job 100 "job-new" Sample.form
                          Sample.owner Sample.world))))))
  = Some (JOB_STATUS_COMPLETED, 1, None, Some Sample.hello).
Proof. vm_compute. reflexivity. Qed.

(** * Further properties *)

(** ** Sorted queries *)

Section OrderBySorted.

Context {A : Type} (before : A -> A -> bool).
Hypothesis before_asym : forall x y, before x y = true -> before y x = false.
Hypothesis before_negtrans :
  forall x y z, before x y = false -> before y z = false -> before x z = false.

Lemma insert_by_perm (x : A) (l : list A) :
  Permutation (job_scheduler.insert_by before x l) (x :: l).
Proof.
  induction l as [|y l IH]; simpl; [reflexivity|].
  destruct (before y x); [|reflexivity].
  rewrite IH. apply perm_swap.
Qed.

Lemma order_by_perm (l : list A) :
  Permutation (job_scheduler.order_by before l) l.
Proof.
  induction l as [|x l IH]; simpl; [reflexivity|].
  rewrite insert_by_perm. apply perm_skip. exact IH.
Qed.

Lemma insert_by_sorted (x : A) (l : list A) :
  StronglySorted (fun a b => before b a = false) l ->
  StronglySorted (fun a b => before b a = false)
    (job_scheduler.insert_by before x l).
Proof.
  induction l as [|y l IH]; intros Hs; simpl.
  - constructor; constructor.
  - inversion Hs as [|? ? Hs' Hall]; subst.
    destruct (before y x) eqn:E.
    + constructor; [apply IH; exact Hs'|].
      apply List.Forall_forall. intros z Hz.
      apply (Permutation_in _ (insert_by_perm x l)) in Hz.
      destruct Hz as [<- | Hz].
      * apply before_asym. exact E.
      * rewrite List.Forall_forall in Hall. apply Hall. exact Hz.
    + constructor; [exact Hs|].
      constructor; [exact E|].
      apply List.Forall_forall. intros z Hz.
      rewrite List.Forall_forall in Hall.
      apply before_negtrans with y; [apply Hall; exact Hz | exact E].
Qed.

Lemma order_by_sorted (l : list A) :
  StronglySorted (fun a b => before b a = false)
    (job_scheduler.order_by before l).
Proof.
  induction l as [|x l IH]; simpl; [constructor|].
  apply insert_by_sorted. exact IH.
Qed.

End OrderBySorted.

Lemma StronglySorted_skipn {A} (R : A -> A -> Prop) (n : nat) (l : list A) :
  StronglySorted R l -> StronglySorted R (skipn n l).
Proof.
  revert l. induction n as [|n IH]; intros l Hs; [exact Hs|].
  destruct l as [|a l]; [constructor|].
  simpl. apply IH. inversion Hs; assumption.
Qed.

Lemma In_firstn_In {A} (n : nat) (l : list A) (x : A) :
  In x (firstn n l) -> In x l.
Proof.
  revert l. induction n as [|n IH]; intros l H; [destruct H|].
  destruct l as [|a l]; [exact H|].
  destruct H as [<- | H]; [left; reflexivity | right; apply IH; exact H].
Qed.

Lemma StronglySorted_firstn {A} (R : A -> A -> Prop) (n : nat) (l : list A) :
  StronglySorted R l -> StronglySorted R (firstn n l).
Proof.
  revert l. induction n as [|n IH]; intros l Hs; [constructor|].
  destruct l as [|a l]; [constructor|].
  simpl. inversion Hs as [|? ? Hs' Hall]; subst.
  constructor; [apply IH; exact Hs'|].
  apply List.Forall_forall. intros z Hz. rewrite List.Forall_forall in Hall.
  apply Hall. apply (In_firstn_In n). exact Hz.
Qed.

Lemma In_skipn_In {A} (n : nat) (l : list A) (x : A) :
  In x (skipn n l) -> In x l.
Proof.
  revert l. induction n as [|n IH]; intros l H; [exact H|].
  destruct l as [|a l]; [exact H|]. right. apply IH. exact H.
Qed.

Lemma newest_first_asym (a b : Job) :
  JobsQueries.newest_first a b = true -> JobsQueries.newest_first b a = false.
Proof. unfold JobsQueries.newest_first. rewrite Z.ltb_lt, Z.ltb_ge. lia. Qed.

Lemma newest_first_negtrans (a b c : Job) :
  JobsQueries.newest_first a b = false ->
  JobsQueries.newest_first b c = false ->
  JobsQueries.newest_first a c = false.
Proof. unfold JobsQueries.newest_first. rewrite !Z.ltb_ge. lia. Qed.

Lemma filter_and_length {A} (p q : A -> bool) (l : list A) :
  (length (List.filter (fun x => p x && q x) l)
   <= length (List.filter p l))%nat.
Proof.
  induction l as [|a l IH]; simpl; [lia|].
  destruct (p a), (q a); simpl; lia.
Qed.

(** ** Inserting, cancelling, deleting and listing jobs *)

Lemma query_app_other (other : string) (rows : list Job) (j : Job) :
  id j <> other ->
  query_job_by_id other (rows ++ [j]) = query_job_by_id other rows.
Proof.
  intros Hne. unfold query_job_by_id.
  induction rows as [|r rows IH]; simpl.
  - destruct (String.eqb_spec (id j) other); [contradiction | reflexivity].
  - destruct (String.eqb (id r) other); [reflexivity | exact IH].
Qed.

(** X1.  Inserting a job under an id that no row has yet returns the new row,
    appended to the table: queued, no attempts made, [priority_score] equal to
    the priority, no backend, result or error, both timestamps [now].  The data
    access layer then finds that row under the new id and finds every other id
    as before; the archive is not touched. *)
Theorem insert_new_job_then_get (now : Z) (job_id user model : string)
    (payload : pydict) (prio max_att : Z) (db : DB) :
  (forall r, In r (job_table db) -> id r <> job_id) ->
  let row :=
    mkJob job_id user JOB_STATUS_QUEUED prio (inject_Z prio) (Some model) None
      (Some payload) None None 0 max_att now now in
  let db' :=
    fst (JobsTable.insert_new_job now job_id user model payload prio max_att db) in
  JobsTable.insert_new_job now job_id user model payload prio max_att db
    = (mkDB (job_table db ++ [row]) (job_archive_table db), Some row) /\
  JobsTable.get_job_by_id job_id db' = Some row /\
  (forall other, other <> job_id ->
     JobsTable.get_job_by_id other db' = JobsTable.get_job_by_id other db).
Proof.
  intros Hfresh row db'. split; [reflexivity|]. split.
  - unfold db', JobsTable.get_job_by_id. simpl.
    apply query_job_by_id_app; [exact Hfresh | reflexivity].
  - intros other Hne. unfold db', JobsTable.get_job_by_id. simpl.
    apply query_app_other. simpl. congruence.
Qed.

Lemma insert_new_job_then_get_witness :
  (forall r, In r (job_table Sample.queue_db) -> id r <> "job-new") /\
  JobsTable.get_job_by_id "job-new"
    (fst (JobsTable.insert_new_job 100 "job-new" "u1" "llama3" Sample.hello 7 3
            Sample.queue_db))
  = Some (mkJob "job-new" "u1" JOB_STATUS_QUEUED 7 (inject_Z 7) (Some "llama3")
            None (Some Sample.hello) None None 0 3 100 100).
Proof.
  split; [exact sample_job_id_fresh|].
  apply (insert_new_job_then_get 100 "job-new" "u1" "llama3" Sample.hello 7 3
           Sample.queue_db sample_job_id_fresh).
Defined.

(** X2.  Cancelling is idempotent and ends in a terminal status: whatever the
    database and the job id, a second [update_job_cancelled] returns what the
    first returned and leaves the database as the first left it, and the row
    returned, if any, has a terminal status.  A job that was already terminal
    is returned as it is and nothing is written. *)
Theorem update_job_cancelled_idempotent (now later : Z) (job_id : string)
    (db : DB) :
  let first := JobsTable.update_job_cancelled now job_id db in
  JobsTable.update_job_cancelled later job_id (fst first) = first /\
  (forall j, snd first = Some j -> in_terminal (status j) = true) /\
  (forall j, JobsTable.get_job_by_id job_id db = Some j ->
     in_terminal (status j) = true -> first = (db, Some j)).
Proof.
  cbv zeta. unfold JobsTable.update_job_cancelled, JobsTable.get_job_by_id.
  destruct (query_job_by_id job_id (job_table db)) as [job|] eqn:Hq.
  - destruct (in_terminal (status job)) eqn:Ht.
    + simpl. rewrite Hq, Ht. split; [reflexivity|]. split.
      * intros j Hj. injection Hj as <-. exact Ht.
      * intros j Hj _. injection Hj as <-. reflexivity.
    + cbn [fst snd].
      pose proof (get_after_flush job_id db job
                    (set_updated_at now (set_status JOB_STATUS_CANCELLED job))
                    Hq eq_refl) as Hg.
      unfold JobsTable.get_job_by_id in Hg. rewrite Hg.
      split; [reflexivity|]. split.
      * intros j Hj. injection Hj as <-. reflexivity.
      * intros j Hj Hj'. injection Hj as <-. congruence.
  - simpl. rewrite Hq. split; [reflexivity|]. split; intros j Hj; discriminate.
Qed.

Lemma query_filter_other_ids (job_id other : string) (rows : list Job) :
  query_job_by_id other
    (List.filter (fun j => negb (String.eqb (id j) job_id)) rows)
  = if String.eqb other job_id then None else query_job_by_id other rows.
Proof.
  unfold query_job_by_id.
  induction rows as [|r rows IH]; simpl.
  - destruct (String.eqb other job_id); reflexivity.
  - destruct (String.eqb_spec (id r) job_id) as [E|E]; simpl.
    + rewrite IH. destruct (String.eqb_spec other job_id) as [E'|E'];
        [reflexivity|].
      destruct (String.eqb_spec (id r) other) as [E''|E'']; [congruence|].
      reflexivity.
    + destruct (String.eqb_spec (id r) other) as [E'|E'].
      * destruct (String.eqb_spec other job_id); [congruence | reflexivity].
      * exact IH.
Qed.

(** X3.  [delete_job_by_id] returns [True] exactly when no database step
    raised.  Then the id is gone, every other id is found as before and the
    archive is untouched; when a step raised, [False] is returned and the
    database is unchanged. *)
Theorem delete_job_by_id_result (f : db_fault) (job_id : string) (db : DB) :
  let (db', ok) := JobsQueries.delete_job_by_id f job_id db in
  (ok = true <-> f = NoFault) /\
  (ok = false -> db' = db) /\
  (ok = true ->
     JobsTable.get_job_by_id job_id db' = None /\
     (forall other, other <> job_id ->
        JobsTable.get_job_by_id other db' = JobsTable.get_job_by_id other db) /\
     job_archive_table db' = job_archive_table db).
Proof.
  destruct f; simpl.
  - split; [tauto|]. split; [discriminate|]. intros _.
    unfold JobsTable.get_job_by_id. simpl. split.
    + rewrite query_filter_other_ids, String.eqb_refl. reflexivity.
    + split; [|reflexivity]. intros other Hne.
      rewrite query_filter_other_ids.
      destruct (String.eqb_spec other job_id); [contradiction | reflexivity].
  - split; [split; discriminate|]. split; [reflexivity | discriminate].
  - split; [split; discriminate|]. split; [reflexivity | discriminate].
  - split; [split; discriminate|]. split; [reflexivity | discriminate].
Qed.

Lemma StronglySorted_impl {A} (R R' : A -> A -> Prop) (l : list A) :
  (forall a b, R a b -> R' a b) ->
  StronglySorted R l -> StronglySorted R' l.
Proof.
  intros Himp. induction 1 as [|a l Hs IH Hall]; constructor; [exact IH|].
  apply List.Forall_forall. intros b Hb.
  rewrite List.Forall_forall in Hall. apply Himp, Hall, Hb.
Qed.

Lemma get_jobs_by_user_id_sound (user : string) (skip limit : nat)
    (status_filter model_filter : option string) (db : DB) (j : Job) :
  In j (JobsQueries.get_jobs_by_user_id user skip limit status_filter
          model_filter db) ->
  In j (job_table db) /\ user_id j = user /\
  JobsQueries.status_matches status_filter j = true /\
  JobsQueries.model_matches model_filter j = true.
Proof.
  unfold JobsQueries.get_jobs_by_user_id. intros Hj.
  assert (Hs : In j (job_scheduler.order_by JobsQueries.newest_first
                       (List.filter
                          (fun j => String.eqb (user_id j) user
                                    && JobsQueries.status_matches status_filter j
                                    && JobsQueries.model_matches model_filter j)
                          (job_table db)))).
  { destruct (limit =? 0)%nat.
    - apply (In_skipn_In skip). exact Hj.
    - apply (In_skipn_In skip). apply (In_firstn_In limit). exact Hj. }
  apply (Permutation_in _ (order_by_perm JobsQueries.newest_first _)) in Hs.
  apply filter_In in Hs. destruct Hs as [Hin Hp].
  apply andb_true_iff in Hp. destruct Hp as [Hp Hm].
  apply andb_true_iff in Hp. destruct Hp as [Hu Hst].
  apply String.eqb_eq in Hu. auto.
Qed.

(** X4.  Every job [get_jobs_by_user_id] returns is a row of the table that
    belongs to the user and passes the status and model filters that were
    given; the jobs come newest first; and with a limit other than 0 there are
    at most [limit] of them. *)
Theorem get_jobs_by_user_id_page (user : string) (skip limit : nat)
    (status_filter model_filter : option string) (db : DB) :
  let found :=
    JobsQueries.get_jobs_by_user_id user skip limit status_filter
      model_filter db in
  (forall j, In j found ->
     In j (job_table db) /\ user_id j = user /\
     JobsQueries.status_matches status_filter j = true /\
     JobsQueries.model_matches model_filter j = true) /\
  StronglySorted (fun a b => created_at b <= created_at a) found /\
  (limit <> 0%nat -> (length found <= limit)%nat).
Proof.
  cbv zeta. split; [apply get_jobs_by_user_id_sound|].
  unfold JobsQueries.get_jobs_by_user_id.
  set (sorted := job_scheduler.order_by JobsQueries.newest_first _).
  assert (Hs : StronglySorted (fun a b => created_at b <= created_at a) sorted).
  { apply StronglySorted_impl
      with (R := fun a b => JobsQueries.newest_first b a = false).
    - intros a b Hb. unfold JobsQueries.newest_first in Hb.
      apply Z.ltb_ge in Hb. exact Hb.
    - apply (order_by_sorted JobsQueries.newest_first newest_first_asym
               newest_first_negtrans). }
  destruct (Nat.eqb_spec limit 0) as [E|E].
  - split; [apply StronglySorted_skipn; exact Hs | intros H; contradiction].
  - split.
    + apply StronglySorted_firstn. apply StronglySorted_skipn. exact Hs.
    + intros _. apply firstn_le_length.
Qed.

(** X5.  The page [GET /] returns holds only views of the caller's own jobs,
    and [total] is the number of all the caller's jobs, whatever filters were
    given: the page is never longer than [total]. *)
Theorem list_jobs_total (db : DB) (skip limit : nat)
    (status_filter model_filter : option string)
    (user : jobs_router.UserModel) :
  let page := jobs_lists.list_jobs db skip limit status_filter model_filter user in
  jobs_lists.total page
    = length (List.filter
                (fun j => String.eqb (user_id j) (jobs_router.uid user))
                (job_table db)) /\
  (length (jobs_lists.jobs page) <= jobs_lists.total page)%nat /\
  (forall view, In view (jobs_lists.jobs page) ->
     exists j, In j (job_table db) /\ user_id j = jobs_router.uid user /\
               view = jobs_router._to_response j).
Proof.
  cbv zeta. unfold jobs_lists.list_jobs. cbn [jobs_lists.total jobs_lists.jobs].
  split; [reflexivity|]. split.
  - rewrite length_map. unfold JobsQueries.get_jobs_by_user_id,
      JobsQueries.count_jobs_by_user_id.
    set (u := jobs_router.uid user).
    set (full := List.filter _ (job_table db)).
    assert (Hlen : (length (skipn skip
                      (job_scheduler.order_by JobsQueries.newest_first full))
                    <= length (List.filter
                                 (fun j => String.eqb (user_id j) u)
                                 (job_table db)))%nat).
    { rewrite length_skipn.
      rewrite (Permutation_length (order_by_perm JobsQueries.newest_first full)).
      unfold full.
      etransitivity; [apply Nat.le_sub_l|].
      etransitivity; [apply filter_and_length|].
      apply (filter_and_length (fun j => String.eqb (user_id j) u)). }
    destruct (limit =? 0)%nat; [exact Hlen|].
    rewrite length_firstn. lia.
  - intros view Hv. apply in_map_iff in Hv. destruct Hv as (j & <- & Hj).
    destruct (get_jobs_by_user_id_sound _ _ _ _ _ _ _ Hj) as (Hin & Hu & _).
    exists j. auto.
Qed.

(** ** The archive sweep and the purge *)

Lemma nodup_ids_same_row (rows : list Job) (a b : Job) :
  List.NoDup (map id rows) -> In a rows -> In b rows -> id a = id b -> a = b.
Proof.
  induction rows as [|r rows IH]; intros Hnd Ha Hb E; [destruct Ha|].
  inversion Hnd as [|? ? Hnotin Hnd']; subst.
  destruct Ha as [<- | Ha], Hb as [<- | Hb].
  - reflexivity.
  - exfalso. apply Hnotin. rewrite E. apply in_map. exact Hb.
  - exfalso. apply Hnotin. rewrite <- E. apply in_map. exact Ha.
  - apply IH; assumption.
Qed.

Lemma query_job_by_id_In (job_id : string) (rows : list Job) (job : Job) :
  query_job_by_id job_id rows = Some job -> In job rows /\ id job = job_id.
Proof.
  unfold query_job_by_id. intros H. apply find_some in H.
  destruct H as [Hin He]. apply String.eqb_eq in He. auto.
Qed.

Lemma filter_filter_negb {A} (p : A -> bool) (l : list A) :
  List.filter p (List.filter (fun x => negb (p x)) l) = [].
Proof.
  induction l as [|a l IH]; simpl; [reflexivity|].
  destruct (p a) eqn:E; simpl; [exact IH|]. rewrite E. exact IH.
Qed.

Lemma filter_partition_length {A} (p : A -> bool) (l : list A) :
  (length (List.filter p l) + length (List.filter (fun x => negb (p x)) l)
   = length l)%nat.
Proof.
  induction l as [|a l IH]; simpl; [reflexivity|].
  destruct (p a); simpl; lia.
Qed.

(** X6.  When no database step raises and job ids are unique, the sweep
    removes from the active table exactly the rows that are terminal and were
    last updated before [now - older_than_days * 86400], keeps every other
    row in order, appends the removed rows to the archive with
    [archived_at = now] and all their columns, and returns how many they
    were.  No id that was moved is found in the active table afterwards. *)
Theorem archive_old_jobs_moves_old_terminal_rows (now older_than_days : Z)
    (db : DB) :
  List.NoDup (map id (job_table db)) ->
  let cutoff := now - older_than_days * 86400 in
  let is_old := fun j => in_terminal (status j) && (updated_at j <? cutoff) in
  let moved := List.filter is_old (job_table db) in
  let (db', n) :=
    JobArchiveTable.archive_old_jobs now older_than_days NoFault db in
  n = Z.of_nat (length moved) /\
  job_table db' = List.filter (fun j => negb (is_old j)) (job_table db) /\
  job_archive_table db'
    = job_archive_table db ++ map (fun j => mkJobArchive j now) moved /\
  (forall j, In j moved -> JobsTable.get_job_by_id (id j) db' = None).
Proof.
  intros Hnd cutoff is_old moved.
  rewrite (archive_old_jobs_success now older_than_days db Hnd).
  fold cutoff. fold is_old. fold moved.
  split; [reflexivity|]. split; [reflexivity|]. split.
  - cbn [job_archive_table]. f_equal. apply List.map_ext.
    intros j. destruct j; reflexivity.
  - intros j Hj. unfold JobsTable.get_job_by_id. cbn [job_table].
    destruct (query_job_by_id (id j)
                (List.filter (fun j0 => negb (is_old j0)) (job_table db)))
      as [r|] eqn:Hq; [|exact Hq].
    exfalso. apply query_job_by_id_In in Hq. destruct Hq as [Hr Hid].
    apply filter_In in Hr. destruct Hr as [Hr Hnot].
    apply filter_In in Hj. destruct Hj as [Hj Hold].
    assert (r = j) by (apply (nodup_ids_same_row (job_table db)); assumption).
    subst r. rewrite Hold in Hnot. discriminate.
Qed.

(** The table of [Sample.aged_db] and a second, running job. *)
Lemma aged_db_primary_key : List.NoDup (map id (job_table Sample.aged_db)).
Proof. simpl. repeat constructor; simpl; intuition discriminate. Qed.

Lemma archive_old_jobs_moves_old_terminal_rows_witness :
  List.NoDup (map id (job_table Sample.aged_db)) /\
  JobArchiveTable.archive_old_jobs Sample.archive_now 30 NoFault Sample.aged_db
  = (mkDB []
       [ mkJobArchive
           (Sample.job "job-o" "u1" JOB_STATUS_COMPLETED 5 5 1
              (Sample.archive_now - 41 * 86400)
              (Sample.archive_now - 40 * 86400))
           Sample.archive_now ],
     1).
Proof.
  split; [exact aged_db_primary_key|].
  pose proof (archive_old_jobs_moves_old_terminal_rows Sample.archive_now 30
                Sample.aged_db aged_db_primary_key) as H.
  cbv zeta in H.
  destruct (JobArchiveTable.archive_old_jobs Sample.archive_now 30 NoFault
              Sample.aged_db) as [db' n].
  destruct H as (Hn & Hrows & Harch & _).
  destruct db' as [rows arch]. simpl in Hrows, Harch.
  rewrite Hn, Hrows, Harch. reflexivity.
Defined.

Lemma archive_nothing_old (now older_than_days : Z) (f : db_fault) (db : DB) :
  JobArchiveTable.old_jobs_of (now - older_than_days * 86400) db = [] ->
  JobArchiveTable.archive_old_jobs now older_than_days f db = (db, 0).
Proof.
  intros Hnone. unfold JobArchiveTable.archive_old_jobs.
  destruct f; simpl; try reflexivity; rewrite Hnone; reflexivity.
Qed.

(** X7.  The sweep can be repeated: after a sweep in which nothing raised, a
    second sweep with the same clock reading and retention finds no row to
    move, whatever fails in it; it returns 0 and leaves both tables as the
    first sweep left them. *)
Theorem archive_old_jobs_twice (now older_than_days : Z) (f : db_fault)
    (db : DB) :
  List.NoDup (map id (job_table db)) ->
  let db1 :=
    fst (JobArchiveTable.archive_old_jobs now older_than_days NoFault db) in
  JobArchiveTable.archive_old_jobs now older_than_days f db1 = (db1, 0).
Proof.
  intros Hnd db1. apply archive_nothing_old.
  unfold db1. rewrite (archive_old_jobs_success now older_than_days db Hnd).
  unfold JobArchiveTable.old_jobs_of. cbn [fst job_table].
  apply (filter_filter_negb
           (fun j => in_terminal (status j)
                     && (updated_at j <? now - older_than_days * 86400))).
Qed.

Lemma archive_old_jobs_twice_witness :
  List.NoDup (map id (job_table Sample.aged_db)) /\
  JobArchiveTable.archive_old_jobs Sample.archive_now 30 CommitFault
    (fst (JobArchiveTable.archive_old_jobs Sample.archive_now 30 NoFault
            Sample.aged_db))
  = (fst (JobArchiveTable.archive_old_jobs Sample.archive_now 30 NoFault
            Sample.aged_db), 0).
Proof.
  split; [exact aged_db_primary_key|].
  exact (archive_old_jobs_twice Sample.archive_now 30 CommitFault
           Sample.aged_db aged_db_primary_key).
Defined.

(** X8.  [purge_old_archives] does nothing and returns 0 when
    [older_than_days <= 0], whatever the state of the database connection.
    Otherwise, when nothing raises, it deletes exactly the archive rows with
    [archived_at < now - older_than_days * 86400], returns their number and
    leaves the active table alone; when the session cannot be opened or the
    delete raises it returns 0 and changes nothing. *)
Theorem purge_old_archives_result (now older_than_days : Z) (f : db_fault)
    (db : DB) :
  let cutoff := now - older_than_days * 86400 in
  let (db', n) :=
    JobArchiveTable.purge_old_archives now older_than_days f db in
  (older_than_days <= 0 -> db' = db /\ n = 0) /\
  (0 < older_than_days -> f = NoFault ->
     job_table db' = job_table db /\
     job_archive_table db'
       = List.filter (fun r => negb (archived_at r <? cutoff))
           (job_archive_table db) /\
     n = Z.of_nat
           (length (List.filter (fun r => archived_at r <? cutoff)
                      (job_archive_table db)))) /\
  (0 < older_than_days -> f = ConnectFault \/ f = QueryFault ->
     db' = db /\ n = 0).
Proof.
  cbv zeta. unfold JobArchiveTable.purge_old_archives.
  destruct (Z.leb_spec older_than_days 0) as [Hle|Hgt].
  - split; [auto|]. split; intros; lia.
  - destruct f; simpl.
    + split; [lia|]. split.
      * intros _ _. split; [reflexivity|]. split; [reflexivity|].
        pose proof (filter_partition_length
                      (fun r => archived_at r <? now - older_than_days * 86400)
                      (job_archive_table db)).
        lia.
      * intros _ [H|H]; discriminate.
    + split; [lia|]. split; [intros _ H; discriminate | auto].
    + split; [lia|]. split; [intros _ H; discriminate | auto].
    + split; [lia|]. split; [intros _ H; discriminate|].
      intros _ [H|H]; discriminate.
Qed.

Example purge_old_archives_disabled :
  JobArchiveTable.purge_old_archives Sample.archive_now 0 CommitFault
    (mkDB [] [mkJobArchive (Sample.job "a" "u" JOB_STATUS_FAILED 5 5 1 0 0) 0])
  = (mkDB [] [mkJobArchive (Sample.job "a" "u" JOB_STATUS_FAILED 5 5 1 0 0) 0],
     0).
Proof. reflexivity. Qed.

Lemma purge_old_archives_result_witness :
  0 < 365 /\
  JobArchiveTable.purge_old_archives Sample.archive_now 365 NoFault
    (mkDB []
       [ mkJobArchive (Sample.job "a" "u" JOB_STATUS_FAILED 5 5 1 0 0) 0;
         mkJobArchive (Sample.job "b" "u" JOB_STATUS_FAILED 5 5 1 0 0)
           Sample.archive_now ])
  = (mkDB []
       [ mkJobArchive (Sample.job "b" "u" JOB_STATUS_FAILED 5 5 1 0 0)
           Sample.archive_now ],
     1).
Proof.
  split; [lia|].
  pose proof (purge_old_archives_result Sample.archive_now 365 NoFault
                (mkDB []
                   [ mkJobArchive (Sample.job "a" "u" JOB_STATUS_FAILED 5 5 1 0 0) 0;
                     mkJobArchive (Sample.job "b" "u" JOB_STATUS_FAILED 5 5 1 0 0)
                       Sample.archive_now ])) as H.
  cbv zeta in H.
  destruct (JobArchiveTable.purge_old_archives Sample.archive_now 365 NoFault _)
    as [db' n].
  destruct H as (_ & H & _).
  destruct (H ltac:(lia) eq_refl) as (Hrows & Harch & Hn).
  destruct db' as [rows arch]. simpl in Hrows, Harch.
  rewrite Hrows, Harch, Hn. reflexivity.
Defined.

(** ** Claiming *)

Lemma claim_next_fallback_witness :
  (CommitFault = NoFault \/ NoFault = NoFault) /\
  job_scheduler._claim_next_queued_job 1000 CommitFault NoFault Sample.queue_db
  = job_scheduler._claim_next_queued_job 1000 NoFault NoFault Sample.queue_db.
Proof.
  split; [right; reflexivity|].
  exact (claim_next_fallback 1000 CommitFault NoFault Sample.queue_db
           (or_intror eq_refl)).
Defined.

(** A claim that returns an id is the claim made when nothing raises. *)
Lemma claim_next_some (now : Z) (f1 f2 : db_fault) (db db1 : DB) (a : string) :
  job_scheduler._claim_next_queued_job now f1 f2 db = (db1, Some a) ->
  exists job,
    job_scheduler.first_queued (job_table db) = Some job /\
    a = id job /\ db1 = flush_job (job_scheduler.claimed now job) db.
Proof.
  unfold job_scheduler._claim_next_queued_job, job_scheduler.claim_attempt.
  intros H.
  destruct (job_scheduler.first_queued (job_table db)) as [job|] eqn:Hsel.
  - exists job. split; [reflexivity|].
    destruct f1, f2; simpl in H; rewrite ?Hsel in H; try discriminate;
      injection H as <- <-; split; reflexivity.
  - destruct f1, f2; simpl in H; rewrite ?Hsel in H; discriminate.
Qed.

Lemma nodup_ids_after (before after : list Job) (job : Job) :
  List.NoDup (map id (before ++ job :: after)) ->
  forall r, In r after -> id r <> id job.
Proof.
  intros Hnd r Hr E.
  rewrite map_app in Hnd. simpl in Hnd.
  apply NoDup_remove_2 in Hnd. apply Hnd.
  apply in_or_app. right. rewrite <- E. apply in_map. exact Hr.
Qed.

(** X10.  Two claims made one after the other never return the same job:
    with unique job ids, if a claim returns an id and the next claim on the
    resulting database returns an id, the two ids differ, whichever attempts
    raised on the way. *)
Theorem consecutive_claims_differ (now later : Z) (f1 f2 f3 f4 : db_fault)
    (db db1 db2 : DB) (a b : string) :
  List.NoDup (map id (job_table db)) ->
  job_scheduler._claim_next_queued_job now f1 f2 db = (db1, Some a) ->
  job_scheduler._claim_next_queued_job later f3 f4 db1 = (db2, Some b) ->
  a <> b.
Proof.
  intros Hnd H1 H2 Hab.
  destruct (claim_next_some _ _ _ _ _ _ H1) as (job & Hsel & -> & ->).
  destruct (claim_next_some _ _ _ _ _ _ H2) as (job2 & Hsel2 & Hb & _).
  pose proof (first_queued_spec (job_table db)) as S1. rewrite Hsel in S1.
  destruct S1 as (before & after & Hrows & _).
  pose proof (first_queued_spec
                (job_table (flush_job (job_scheduler.claimed now job) db))) as S2.
  rewrite Hsel2 in S2. destruct S2 as (b2 & a2 & Hrows2 & Hq2 & _).
  assert (Hbefore : forall r, In r before -> id r <> id job).
  { apply nodup_ids_before with after. rewrite <- Hrows. exact Hnd. }
  assert (Hafter : forall r, In r after -> id r <> id job).
  { apply nodup_ids_after with before. rewrite <- Hrows. exact Hnd. }
  unfold flush_job, with_jobs in Hrows2. cbn [job_table] in Hrows2.
  rewrite Hrows in Hrows2.
  rewrite (update_row_app _ job) in Hrows2; [| exact Hbefore | reflexivity].
  assert (Hin : In job2 (before ++ job_scheduler.claimed now job :: after)).
  { rewrite Hrows2. apply in_or_app. right. left. reflexivity. }
  apply in_app_or in Hin. destruct Hin as [Hin | [Hin | Hin]].
  - apply (Hbefore job2 Hin). congruence.
  - subst job2. discriminate Hq2.
  - apply (Hafter job2 Hin). congruence.
Qed.

Lemma consecutive_claims_differ_witness :
  List.NoDup (map id (job_table Sample.queue_db)) /\
  snd (job_scheduler._claim_next_queued_job 1000 NoFault NoFault
         Sample.queue_db) = Some "job-2" /\
  snd (job_scheduler._claim_next_queued_job 1001 NoFault NoFault
         (fst (job_scheduler._claim_next_queued_job 1000 NoFault NoFault
                 Sample.queue_db))) = Some "job-1" /\
  "job-2" <> "job-1".
Proof.
  split; [exact queue_db_primary_key|].
  split; [reflexivity|]. split; [reflexivity|].
  apply (consecutive_claims_differ 1000 1001 NoFault NoFault NoFault NoFault
           Sample.queue_db
           (fst (job_scheduler._claim_next_queued_job 1000 NoFault NoFault
                   Sample.queue_db))
           (fst (job_scheduler._claim_next_queued_job 1001 NoFault NoFault
                   (fst (job_scheduler._claim_next_queued_job 1000 NoFault
                           NoFault Sample.queue_db))))
           "job-2" "job-1" queue_db_primary_key);
    reflexivity.
Defined.

(** ** The starvation bump *)

Lemma bool_eq_iff (b1 b2 : bool) : (b1 = true <-> b2 = true) -> b1 = b2.
Proof. destruct b1, b2; intuition congruence. Qed.

Lemma claim_before_bumped (a b : Job) :
  job_scheduler.claim_before (bumped a) (bumped b)
  = job_scheduler.claim_before a b.
Proof.
  apply bool_eq_iff. rewrite !claim_before_true.
  unfold bumped, job_scheduler.STARVATION_INCREMENT. simpl.
  split; (intros [H | [H1 H2]]; [left; lra | right; split; [lra | exact H2]]).
Qed.

Section OrderByMap.

Context {A : Type} (before : A -> A -> bool) (f : A -> A).
Hypothesis before_f : forall a b, before (f a) (f b) = before a b.

Lemma insert_by_map (x : A) (l : list A) :
  job_scheduler.insert_by before (f x) (map f l)
  = map f (job_scheduler.insert_by before x l).
Proof.
  induction l as [|y l IH]; simpl; [reflexivity|].
  rewrite before_f. destruct (before y x); simpl; [rewrite IH|]; reflexivity.
Qed.

Lemma order_by_map (l : list A) :
  job_scheduler.order_by before (map f l)
  = map f (job_scheduler.order_by before l).
Proof.
  induction l as [|x l IH]; simpl; [reflexivity|].
  rewrite IH. apply insert_by_map.
Qed.

End OrderByMap.

Lemma bump_rows_queued (rows : list Job) :
  List.filter (fun j => String.eqb (status j) JOB_STATUS_QUEUED)
    (map (fun j => if String.eqb (status j) JOB_STATUS_QUEUED
                   then bumped j else j) rows)
  = map bumped
      (List.filter (fun j => String.eqb (status j) JOB_STATUS_QUEUED) rows).
Proof.
  induction rows as [|r rows IH]; simpl; [reflexivity|].
  destruct (String.eqb (status r) JOB_STATUS_QUEUED) eqn:E; simpl.
  - rewrite E. simpl. rewrite IH. reflexivity.
  - rewrite E. exact IH.
Qed.

Lemma bump_stale_jobs_rows (f : db_fault) (db : DB) :
  job_scheduler._bump_stale_jobs f db
  = match f with
    | NoFault =>
        with_jobs
          (map (fun j => if String.eqb (status j) JOB_STATUS_QUEUED
                         then bumped j else j) (job_table db)) db
    | _ => db
    end.
Proof. destruct f; reflexivity. Qed.

(** X11.  When no database step raises, the starvation bump raises the
    [priority_score] of every queued row by exactly 0.5 and changes nothing
    else: the other columns, the rows that are not queued, the number and
    order of rows and the archive are as before.  When a step raises, the
    database is unchanged.  In both cases the job the scheduler would claim
    next is the same before and after the bump. *)
Theorem bump_stale_jobs_keeps_claim_order (f : db_fault) (db : DB) :
  let db' := job_scheduler._bump_stale_jobs f db in
  (f = NoFault ->
   Forall2
     (fun j j' =>
        if String.eqb (status j) JOB_STATUS_QUEUED
        then j' = set_priority_score (priority_score j + (1 # 2))%Q j
        else j' = j)
     (job_table db) (job_table db')) /\
  (f <> NoFault -> db' = db) /\
  job_archive_table db' = job_archive_table db /\
  option_map id (job_scheduler.first_queued (job_table db'))
  = option_map id (job_scheduler.first_queued (job_table db)).
Proof.
  cbv zeta. rewrite bump_stale_jobs_rows.
  destruct f; try (split; [discriminate|]; split; [reflexivity|];
                   split; reflexivity).
  unfold with_jobs. cbn [job_table job_archive_table].
  split; [|split; [congruence|]; split; [reflexivity|]].
  - intros _. induction (job_table db) as [|r rows IH]; simpl;
      constructor; [|exact IH].
    destruct (String.eqb (status r) JOB_STATUS_QUEUED); reflexivity.
  - unfold job_scheduler.first_queued. rewrite bump_rows_queued.
    rewrite (order_by_map job_scheduler.claim_before bumped
               claim_before_bumped).
    destruct (job_scheduler.order_by job_scheduler.claim_before
                (List.filter
                   (fun j => String.eqb (status j) JOB_STATUS_QUEUED)
                   (job_table db))); reflexivity.
Qed.

(** Two queued rows and a running one: the scores of the queued rows go
    from 5 and 9 to 11/2 and 19/2, the running row keeps its 10. *)
Example bump_stale_jobs_on_queue_db :
  map (fun j => (id j, Qred (priority_score j)))
    (job_table (job_scheduler._bump_stale_jobs NoFault Sample.queue_db))
  = [ ("job-1", 11 # 2); ("job-2", 19 # 2); ("job-3", 10 # 1) ]%Q.
Proof. vm_compute. reflexivity. Qed.

(** ** The dispatch loop *)

(** X12.  One turn of the dispatch loop after a claim that returned a
    non-empty id of a job found in the table: when the job's owner exists, a
    worker is spawned for the job and the database is as the claim left it;
    when the owner does not exist, no worker is spawned and the job is written
    as [failed] with the error [User not found], without a retry even when
    attempts are left. *)
Theorem scheduler_tick_after_claim
    (get_user : string -> option jobs_router.UserModel) (now : Z)
    (f1 f2 : db_fault) (db db1 : DB) (job_id : string) (job : Job) :
  job_scheduler._claim_next_queued_job now f1 f2 db = (db1, Some job_id) ->
  job_id <> "" ->
  JobsTable.get_job_by_id job_id db1 = Some job ->
  match get_user (user_id job) with
  | Some u =>
      scheduler_loop._scheduler_tick get_user now f1 f2 db
      = (db1, Some (scheduler_loop.Spawn_execute_job job_id u))
  | None =>
      let failed :=
        mkJob (id job) (user_id job) JOB_STATUS_FAILED (priority job)
          (priority_score job) (model_id job) (backend_url job) (request job)
          (result job) (Some "User not found") (attempt_count job)
          (max_attempts job) (created_at job) now in
      scheduler_loop._scheduler_tick get_user now f1 f2 db
      = (flush_job failed db1, None) /\
      JobsTable.get_job_by_id job_id (flush_job failed db1) = Some failed
  end.
Proof.
  intros Hclaim Hne Hget. unfold scheduler_loop._scheduler_tick.
  rewrite Hclaim.
  destruct (String.eqb_spec job_id "") as [E|_]; [contradiction|].
  rewrite Hget.
  destruct (get_user (user_id job)) as [u|]; [reflexivity|].
  cbv zeta. unfold JobsTable.update_job_failed.
  unfold JobsTable.get_job_by_id in Hget. rewrite Hget. simpl fst.
  split; [reflexivity|].
  apply get_after_flush with job; [exact Hget | reflexivity].
Qed.

Lemma scheduler_tick_after_claim_witness :
  job_scheduler._claim_next_queued_job 1000 NoFault NoFault Sample.queue_db
  = (fst (job_scheduler._claim_next_queued_job 1000 NoFault NoFault
            Sample.queue_db), Some "job-2") /\
  "job-2" <> "" /\
  option_map (fun j => (status j, error j, attempt_count j))
    (JobsTable.get_job_by_id "job-2"
       (fst (scheduler_loop._scheduler_tick (fun _ => None) 1000 NoFault
               NoFault Sample.queue_db)))
  = Some (JOB_STATUS_FAILED, Some "User not found", 1).
Proof.
  split; [reflexivity|]. split; [discriminate|].
  pose proof (scheduler_tick_after_claim (fun _ => None) 1000 NoFault NoFault
                Sample.queue_db
                (fst (job_scheduler._claim_next_queued_job 1000 NoFault NoFault
                        Sample.queue_db))
                "job-2"
                (Sample.job "job-2" "u2" JOB_STATUS_RUNNING 9 9 1 200 1000)
                eq_refl ltac:(discriminate) eq_refl) as H.
  cbv beta iota zeta in H. destruct H as [Htick Hget].
  rewrite Htick. cbn [fst]. rewrite Hget. reflexivity.
Defined.

(** ** Retry counters under the scheduler *)

Lemma In_update_row (j' r : Job) (rows : list Job) :
  In r (update_row j' rows) -> r = j' \/ In r rows.
Proof.
  induction rows as [|a rows IH]; simpl; [tauto|].
  destruct (String.eqb (id a) (id j')); intros [<- | H]; auto.
  destruct (IH H); auto.
Qed.

Lemma In_delete_row (job_id : string) (r : Job) (rows : list Job) :
  In r (delete_row job_id rows) -> In r rows.
Proof.
  induction rows as [|a rows IH]; simpl; [tauto|].
  destruct (String.eqb (id a) job_id); [auto|].
  intros [<- | H]; auto.
Qed.

Lemma In_fold_delete (l : list Job) (r : Job) (rows : list Job) :
  In r (fold_left (fun rows j => delete_row (id j) rows) l rows) -> In r rows.
Proof.
  revert rows. induction l as [|x l IH]; intros rows H; [exact H|].
  simpl in H. apply IH in H. apply In_delete_row in H. exact H.
Qed.

Lemma db_ok_flush (db : DB) (job' : Job) :
  lifecycle.db_ok db -> lifecycle.row_ok job' ->
  lifecycle.db_ok (flush_job job' db).
Proof.
  intros Hok Hrow r Hr. unfold flush_job, with_jobs in Hr. simpl in Hr.
  apply In_update_row in Hr. destruct Hr as [-> | Hr]; [exact Hrow|].
  apply Hok. exact Hr.
Qed.

Lemma db_ok_found (db : DB) (job_id : string) (job : Job) :
  lifecycle.db_ok db -> query_job_by_id job_id (job_table db) = Some job ->
  lifecycle.row_ok job.
Proof.
  intros Hok Hq. apply Hok. apply query_job_by_id_In in Hq. apply Hq.
Qed.

Lemma db_ok_update_job_failed (now : Z) (job_id err : string) (requeue : bool)
    (db : DB) :
  lifecycle.db_ok db ->
  lifecycle.db_ok (fst (JobsTable.update_job_failed now job_id err requeue db)).
Proof.
  intros Hok. unfold JobsTable.update_job_failed.
  destruct (query_job_by_id job_id (job_table db)) as [job|] eqn:Hq;
    [|exact Hok].
  destruct (db_ok_found _ _ _ Hok Hq) as (Hm & Hb & Hqd).
  cbn [fst]. apply db_ok_flush; [exact Hok|].
  simpl attempt_count. simpl max_attempts.
  destruct requeue; simpl andb.
  - destruct (Z.ltb_spec (attempt_count job) (max_attempts job)) as [Hlt|Hge];
      unfold lifecycle.row_ok; simpl; repeat split; try lia; discriminate.
  - unfold lifecycle.row_ok; simpl; repeat split; try lia; discriminate.
Qed.

Lemma db_ok_update_job_completed (now : Z) (job_id : string) (res : pydict)
    (db : DB) :
  lifecycle.db_ok db ->
  lifecycle.db_ok (fst (JobsTable.update_job_completed now job_id res db)).
Proof.
  intros Hok. unfold JobsTable.update_job_completed.
  destruct (query_job_by_id job_id (job_table db)) as [job|] eqn:Hq;
    [|exact Hok].
  destruct (db_ok_found _ _ _ Hok Hq) as (Hm & Hb & Hqd).
  cbn [fst]. apply db_ok_flush; [exact Hok|].
  unfold lifecycle.row_ok; simpl; repeat split; try lia; discriminate.
Qed.

Lemma db_ok_claim (now : Z) (f1 f2 : db_fault) (db : DB) :
  lifecycle.db_ok db ->
  lifecycle.db_ok (fst (job_scheduler._claim_next_queued_job now f1 f2 db)).
Proof.
  intros Hok.
  destruct (job_scheduler._claim_next_queued_job now f1 f2 db)
    as [db1 [a|]] eqn:Hc.
  - destruct (claim_next_some _ _ _ _ _ _ Hc) as (job & Hsel & _ & ->).
    pose proof (first_queued_spec (job_table db)) as S. rewrite Hsel in S.
    destruct S as (before & after & Hrows & Hq & _).
    assert (Hin : In job (job_table db)).
    { rewrite Hrows. apply in_or_app. right. left. reflexivity. }
    destruct (Hok job Hin) as (Hm & Hb & Hqd). specialize (Hqd Hq).
    cbn [fst]. apply db_ok_flush; [exact Hok|].
    unfold lifecycle.row_ok; simpl; repeat split; try lia; discriminate.
  - assert (db1 = db); [|subst; exact Hok].
    revert Hc. unfold job_scheduler._claim_next_queued_job,
      job_scheduler.claim_attempt.
    destruct f1, f2; simpl;
      destruct (job_scheduler.first_queued (job_table db));
      intros H; inversion H; reflexivity.
Qed.

Lemma db_ok_step :
  forall db db', lifecycle.step db db' -> lifecycle.db_ok db -> lifecycle.db_ok db'.
Proof.
  intros d d' Hstep. destruct Hstep; intros IH.
  - (* insert *)
    intros r Hr. simpl in Hr. apply in_app_or in Hr.
    destruct Hr as [Hr | [<- | []]]; [apply IH; exact Hr|].
    unfold lifecycle.row_ok; simpl; repeat split; lia.
  - apply db_ok_claim. exact IH.
  - (* dispatch-loop turn *)
    unfold scheduler_loop._scheduler_tick.
    pose proof (db_ok_claim now f1 f2 db IH) as Hc.
    destruct (job_scheduler._claim_next_queued_job now f1 f2 db)
      as [db1 [a|]]; simpl in Hc; [|exact Hc].
    destruct (String.eqb a ""); [exact Hc|].
    destruct (match JobsTable.get_job_by_id a db1 with
              | Some j => get_user (user_id j)
              | None => None
              end); [exact Hc|].
    apply db_ok_update_job_failed. exact Hc.
  - (* worker *)
    unfold scheduler_loop._execute_job.
    destruct (scheduler_worker._execute_job_start job_id db); [|exact IH].
    destruct c; simpl;
      [apply db_ok_update_job_completed | apply db_ok_update_job_failed |];
      exact IH.
  - apply db_ok_update_job_completed. exact IH.
  - apply db_ok_update_job_failed. exact IH.
  - (* cancel *)
    unfold JobsTable.update_job_cancelled.
    destruct (query_job_by_id job_id (job_table db)) as [job|] eqn:Hq;
      [|exact IH].
    destruct (in_terminal (status job)); [exact IH|].
    destruct (db_ok_found _ _ _ IH Hq) as (Hm & Hb & Hqd).
    cbn [fst]. apply db_ok_flush; [exact IH|].
    unfold lifecycle.row_ok; simpl; repeat split; try lia; discriminate.
  - (* retry *)
    unfold JobsTable.retry_job.
    destruct (query_job_by_id job_id (job_table db)) as [job|] eqn:Hq;
      [|exact IH].
    destruct (db_ok_found _ _ _ IH Hq) as (Hm & Hb & Hqd).
    cbn [fst]. apply db_ok_flush; [exact IH|].
    unfold lifecycle.row_ok; simpl; repeat split; lia.
  - (* delete *)
    destruct f; simpl; try exact IH.
    intros r Hr. simpl in Hr. apply filter_In in Hr. apply IH, Hr.
  - (* bump *)
    rewrite bump_stale_jobs_rows. destruct f; try exact IH.
    intros r Hr. simpl in Hr. apply in_map_iff in Hr.
    destruct Hr as (j & <- & Hj). specialize (IH j Hj).
    destruct (String.eqb (status j) JOB_STATUS_QUEUED); exact IH.
  - (* archive *)
    unfold JobArchiveTable.archive_old_jobs.
    destruct f; simpl; try exact IH.
    rewrite fold_archive_one. intros r Hr. simpl in Hr.
    apply In_fold_delete in Hr. unfold JobArchiveTable.old_jobs_of in Hr.
    apply IH. exact Hr.
  - (* purge *)
    unfold JobArchiveTable.purge_old_archives.
    destruct (days <=? 0); [exact IH|].
    destruct f; simpl; exact IH.
Qed.

(** X13.  The retry counters stay within bounds under the scheduler: if every
    row has [max_attempts > 0], [0 <= attempt_count <= max_attempts] and, when
    queued, [attempt_count < max_attempts], then the same holds after any
    sequence of inserts with a positive [max_attempts], claims, dispatch-loop
    turns, worker runs, completed, failed, cancelled, retry and delete writes,
    starvation bumps, archive sweeps and purges, whatever raises on the way. *)
Theorem retry_counters_stay_bounded (db db' : DB) :
  lifecycle.db_ok db -> lifecycle.steps db db' -> lifecycle.db_ok db'.
Proof.
  intros Hok Hsteps. induction Hsteps as [d | d d1 d2 _ IH Hstep];
    [exact Hok|].
  apply (db_ok_step d1 d2 Hstep). apply IH. exact Hok.
Qed.

Lemma retry_counters_stay_bounded_witness :
  lifecycle.db_ok (mkDB [] []) /\
  lifecycle.db_ok
    (fst (job_scheduler._claim_next_queued_job 101 NoFault NoFault
            (fst (JobsTable.insert_new_job 100 "job-new" "u1" "llama3"
                    Sample.hello 5 3 (mkDB [] []))))).
Proof.
  assert (Hempty : lifecycle.db_ok (mkDB [] [])) by (intros j []).
  split; [exact Hempty|].
  apply (retry_counters_stay_bounded (mkDB [] [])); [exact Hempty|].
  eapply lifecycle.steps_more.
  - eapply lifecycle.steps_more.
    + apply lifecycle.steps_none.
    + apply (lifecycle.step_insert 100 "job-new" "u1" "llama3" Sample.hello 5 3
               (mkDB [] []) eq_refl).
  - apply lifecycle.step_claim.
Defined.

(** ** Handlers and the job cache *)

Lemma get_job_from_table_witness :
  jobs_router._get_cached_job Sample.app_with_redis "job-d" = None /\
  snd (jobs_router.get_job Sample.app_with_redis Sample.completed_db "job-d"
         false Sample.owner)
  = jobs_router.Response 200
      (dict_set "result" JNull
         (jobs_router._to_response
            (set_result (Some Sample.hello)
               (Sample.job "job-d" "u1" JOB_STATUS_COMPLETED 5 5 1 100 130)))).
Proof.
  split; [reflexivity|].
  exact (get_job_from_table Sample.app_with_redis Sample.completed_db "job-d"
           false Sample.owner eq_refl).
Defined.

Lemma get_cached_after_invalidate (app : jobs_router.AppState)
    (job_id : string) :
  jobs_router._get_cached_job
    (jobs_router._invalidate_job_cache false app job_id) job_id = None.
Proof.
  unfold jobs_router._get_cached_job, jobs_router._invalidate_job_cache.
  destruct (jobs_router.redis app) as [store|] eqn:E; simpl.
  - apply lookup_delete_eq.
  - rewrite E. reflexivity.
Qed.

Lemma invalidate_raising (app : jobs_router.AppState) (job_id : string) :
  jobs_router._invalidate_job_cache true app job_id = app.
Proof.
  unfold jobs_router._invalidate_job_cache.
  destruct (jobs_router.redis app); reflexivity.
Qed.

Lemma get_job_owner_from_table (app : jobs_router.AppState) (db : DB)
    (job_id : string) (include_result : bool) (user : jobs_router.UserModel)
    (job : Job) :
  jobs_router._get_cached_job app job_id = None ->
  JobsTable.get_job_by_id job_id db = Some job ->
  user_id job = jobs_router.uid user ->
  snd (jobs_router.get_job app db job_id include_result user)
  = jobs_router.Response 200
      (if include_result then jobs_router._to_response job
       else dict_set "result" JNull (jobs_router._to_response job)).
Proof.
  intros Hc Hg Hu. unfold jobs_router.get_job. rewrite Hc, Hg, Hu.
  rewrite String.eqb_refl. simpl negb. cbv iota.
  destruct include_result; reflexivity.
Qed.

(** X15.  When the owner cancels an existing job, the answer is 200 with the
    view of the row as it now is, and that row is terminal: a job that was
    already terminal is returned unchanged and the database is not written,
    any other job becomes [cancelled].  When Redis does not raise at the
    invalidation, no cached copy of the job is left, so the owner's next poll
    is answered from the table with 200 and the same row.  When the delete
    raises, the error is swallowed and the application state, with any cached
    copy, is left as it was. *)
Theorem cancel_job_by_owner (now : Z) (delete_raises : bool)
    (app : jobs_router.AppState) (db : DB) (job_id : string)
    (user : jobs_router.UserModel) (job : Job) (include_result : bool) :
  JobsTable.get_job_by_id job_id db = Some job ->
  user_id job = jobs_router.uid user ->
  exists app1 db1 job1,
    jobs_router.cancel_job now delete_raises app db job_id user
    = (app1, db1, true,
       jobs_router.Response 200 (jobs_router._to_response job1)) /\
    JobsTable.get_job_by_id job_id db1 = Some job1 /\
    in_terminal (status job1) = true /\
    (in_terminal (status job) = true -> job1 = job /\ db1 = db) /\
    (in_terminal (status job) = false ->
     job1 = set_updated_at now (set_status JOB_STATUS_CANCELLED job)) /\
    (delete_raises = false ->
     jobs_router._get_cached_job app1 job_id = None /\
     snd (jobs_router.get_job app1 db1 job_id include_result user)
     = jobs_router.Response 200
         (if include_result then jobs_router._to_response job1
          else dict_set "result" JNull (jobs_router._to_response job1))) /\
    (delete_raises = true -> app1 = app).
Proof.
  intros Hg Hu. unfold jobs_router.cancel_job. rewrite Hg, Hu.
  rewrite String.eqb_refl. simpl negb. cbv iota.
  unfold JobsTable.update_job_cancelled.
  pose proof Hg as Hq. unfold JobsTable.get_job_by_id in Hq. rewrite Hq.
  destruct (in_terminal (status job)) eqn:Ht.
  - exists (jobs_router._invalidate_job_cache delete_raises app job_id), db, job.
    split; [reflexivity|]. split; [exact Hg|]. split; [exact Ht|].
    split; [auto|]. split; [discriminate|]. split.
    + intros ->. split; [apply get_cached_after_invalidate|].
      apply get_job_owner_from_table;
        [apply get_cached_after_invalidate | exact Hg | exact Hu].
    + intros ->. apply invalidate_raising.
  - set (job1 := set_updated_at now (set_status JOB_STATUS_CANCELLED job)).
    assert (Hg1 : JobsTable.get_job_by_id job_id (flush_job job1 db) = Some job1)
      by (apply get_after_flush with job; [exact Hg | reflexivity]).
    exists (jobs_router._invalidate_job_cache delete_raises app job_id),
      (flush_job job1 db), job1.
    split; [reflexivity|]. split; [exact Hg1|]. split; [reflexivity|].
    split; [discriminate|]. split; [reflexivity|]. split.
    + intros ->. split; [apply get_cached_after_invalidate|].
      apply get_job_owner_from_table;
        [apply get_cached_after_invalidate | exact Hg1 | exact Hu].
    + intros ->. apply invalidate_raising.
Qed.

Lemma cancel_job_by_owner_witness :
  JobsTable.get_job_by_id "job-r" Sample.running_db
    = Some (Sample.job "job-r" "u1" JOB_STATUS_RUNNING 5 5 1 100 120) /\
  user_id (Sample.job "job-r" "u1" JOB_STATUS_RUNNING 5 5 1 100 120)
    = jobs_router.uid Sample.owner /\
  exists app1 db1 job1,
    jobs_router.cancel_job 130 false Sample.app_with_redis Sample.running_db
      "job-r" Sample.owner
    = (app1, db1, true,
       jobs_router.Response 200 (jobs_router._to_response job1)) /\
    status job1 = JOB_STATUS_CANCELLED /\
    jobs_router._get_cached_job app1 "job-r" = None.
Proof.
  split; [reflexivity|]. split; [reflexivity|].
  destruct (cancel_job_by_owner 130 false Sample.app_with_redis
              Sample.running_db "job-r" Sample.owner
              (Sample.job "job-r" "u1" JOB_STATUS_RUNNING 5 5 1 100 120)
              true eq_refl eq_refl)
    as (app1 & db1 & job1 & Hc & _ & _ & _ & Hj & Hcache & _).
  exists app1, db1, job1. split; [exact Hc|]. split.
  - rewrite (Hj eq_refl). reflexivity.
  - apply (Hcache eq_refl).
Defined.

(** X16.  The admin retry answers 404 for an unknown id and 409 for a job that
    is not terminal, and changes nothing in either case.  For a terminal job
    it answers 200 with the row reset to [queued], [attempt_count = 0], no
    error and [priority_score] back at the priority; the stored result, the
    backend url and the creation time are kept.  When Redis does not raise at
    the invalidation no cached copy of the job is left; when the delete
    raises, the application state, with any cached copy, is left as it
    was. *)
Theorem retry_job_by_admin (now : Z) (delete_raises : bool)
    (app : jobs_router.AppState) (db : DB) (job_id : string) :
  match JobsTable.get_job_by_id job_id db with
  | None =>
      jobs_router.retry_job now delete_raises app db job_id
      = (app, db, jobs_router.HTTPException 404)
  | Some job =>
      if in_terminal (status job) then
        let job1 :=
          mkJob (id job) (user_id job) JOB_STATUS_QUEUED (priority job)
            (inject_Z (priority job)) (model_id job) (backend_url job)
            (request job) (result job) None 0 (max_attempts job)
            (created_at job) now in
        exists app1,
          jobs_router.retry_job now delete_raises app db job_id
          = (app1, flush_job job1 db,
             jobs_router.Response 200 (jobs_router._to_response job1)) /\
          JobsTable.get_job_by_id job_id (flush_job job1 db) = Some job1 /\
          (delete_raises = false ->
           jobs_router._get_cached_job app1 job_id = None) /\
          (delete_raises = true -> app1 = app)
      else
        jobs_router.retry_job now delete_raises app db job_id
        = (app, db, jobs_router.HTTPException 409)
  end.
Proof.
  unfold jobs_router.retry_job.
  destruct (JobsTable.get_job_by_id job_id db) as [job|] eqn:Hg;
    [|reflexivity].
  destruct (in_terminal (status job)) eqn:Ht; [|reflexivity].
  simpl negb. cbv iota zeta. unfold JobsTable.retry_job.
  pose proof Hg as Hq. unfold JobsTable.get_job_by_id in Hq. rewrite Hq.
  exists (jobs_router._invalidate_job_cache delete_raises app job_id).
  split; [reflexivity|]. split.
  - apply get_after_flush with job; [exact Hg | reflexivity].
  - split; intros ->;
      [apply get_cached_after_invalidate | apply invalidate_raising].
Qed.

(** The owner polls a completed job, which caches its view; an admin
    retries the job while Redis raises at the delete.  The cached copy
    stays. *)
Example retry_job_leaves_copy_when_delete_raises :
  let polled :=
    fst (jobs_router.get_job Sample.app_with_redis Sample.completed_db "job-d"
           true Sample.owner) in
  jobs_router._get_cached_job polled "job-d" <> None /\
  fst (fst (jobs_router.retry_job 140 true polled Sample.completed_db "job-d"))
  = polled.
Proof. vm_compute. split; [discriminate | reflexivity]. Qed.

(** ** Server-sent events *)

Lemma offer_spec (event : pydict) (q : sse.Queue) :
  sse.maxsize (sse.offer event q) = sse.maxsize q /\
  (sse.items (sse.offer event q) = sse.items q ++ [event] \/
   (sse.offer event q = q /\ 0 < sse.maxsize q
    /\ sse.maxsize q <= Z.of_nat (length (sse.items q)))) /\
  (0 < sse.maxsize q ->
   Z.of_nat (length (sse.items q)) < sse.maxsize q ->
   sse.items (sse.offer event q) = sse.items q ++ [event]) /\
  (0 < sse.maxsize q ->
   Z.of_nat (length (sse.items q)) <= sse.maxsize q ->
   Z.of_nat (length (sse.items (sse.offer event q))) <= sse.maxsize q).
Proof.
  unfold sse.offer, sse.put_nowait.
  destruct (Z.ltb_spec 0 (sse.maxsize q)) as [Hpos|Hnp];
    destruct (Z.leb_spec (sse.maxsize q) (Z.of_nat (length (sse.items q))))
      as [Hfull|Hroom]; simpl.
  - split; [reflexivity|]. split; [right; auto|]. split; [lia | auto].
  - split; [reflexivity|]. split; [left; reflexivity|].
    split; [reflexivity|]. intros _ _. rewrite length_app. simpl. lia.
  - split; [reflexivity|]. split; [left; reflexivity|]. split; lia.
  - split; [reflexivity|]. split; [left; reflexivity|]. split; lia.
Qed.

(** X17.  Publishing an event for a user leaves every other user's queues
    untouched and does nothing when the user has no subscriber.  Each of the
    user's queues either gets the event appended at its end or, when it is
    bounded and full, is left exactly as it was; a queue with room always gets
    the event, and a bounded queue that held at most [maxsize] events still
    does. *)
Theorem sse_publish_delivers_or_drops (user : string) (event : pydict)
    (queues : gmap string (list sse.Queue)) :
  let queues' := sse._sse_publish user event queues in
  (forall other, other <> user -> queues' !! other = queues !! other) /\
  (queues !! user = None -> queues' = queues) /\
  (forall qs, queues !! user = Some qs ->
     exists qs',
       queues' !! user = Some qs' /\
       Forall2
         (fun q q' =>
            sse.maxsize q' = sse.maxsize q /\
            (sse.items q' = sse.items q ++ [event] \/
             (q' = q /\ 0 < sse.maxsize q
              /\ sse.maxsize q <= Z.of_nat (length (sse.items q)))) /\
            (0 < sse.maxsize q ->
             Z.of_nat (length (sse.items q)) < sse.maxsize q ->
             sse.items q' = sse.items q ++ [event]) /\
            (0 < sse.maxsize q ->
             Z.of_nat (length (sse.items q)) <= sse.maxsize q ->
             Z.of_nat (length (sse.items q')) <= sse.maxsize q))
         qs qs').
Proof.
  cbv zeta. unfold sse._sse_publish.
  destruct (queues !! user) as [qs|] eqn:E.
  - split; [|split].
    + intros other Hne. apply lookup_insert_ne. congruence.
    + discriminate.
    + intros qs0 H. injection H as <-.
      exists (map (sse.offer event) qs). split; [apply lookup_insert_eq|].
      clear E. induction qs as [|q qs IH]; simpl;
        [constructor | constructor; [apply offer_spec | exact IH]].
  - split; [reflexivity|]. split; [reflexivity | discriminate].
Qed.

(** A new subscriber's queue receives the next event published for the
    user. *)
Example subscribe_then_publish :
  sse._sse_publish "u1" [("job_id", JStr "job-1")] (sse.subscribe "u1" ∅)
    !! "u1"
  = Some [sse.mkQueue 64 [[("job_id", JStr "job-1")]]].
Proof. vm_compute. reflexivity. Qed.

(** ** The metrics registry *)



(** ** Sending a request to a backend *)

(** The count read for a backend is a function of the counters. *)
Lemma read_active_jobs_counters (b : string) (st st' : ollama.Stats) :
  counters st' = counters st ->
  ollama.read_active_jobs b st' = ollama.read_active_jobs b st.
Proof.
  unfold counters, ollama.read_active_jobs.
  destruct st as [[r|] raises mem], st' as [[r'|] raises' mem'];
    cbn [ollama.redis ollama.redis_raises ollama.memory option_map];
    intros H; inversion H; subst; reflexivity.
Qed.

Lemma counters_with_redis_raises (raises : bool) (st : ollama.Stats) :
  counters (ollama_registry.with_redis_raises raises st)
  = (fst (fst (counters st)), raises, snd (counters st)).
Proof. reflexivity. Qed.

(** An update that leaves the counters alone, whatever Redis does, leaves
    them alone when it is made during an outage or outside one. *)
Lemma counters_during_raising (raises : bool)
    (update : ollama.Stats -> ollama.Stats * option string)
    (st : ollama.Stats) :
  (forall st0, counters (fst (update st0)) = counters st0) ->
  counters (fst (ollama_registry.during_raising raises update st))
  = counters st.
Proof.
  intros Hkeep. unfold ollama_registry.during_raising.
  pose proof (Hkeep (ollama_registry.with_redis_raises raises st)) as H.
  destruct (update (ollama_registry.with_redis_raises raises st)) as [st' exc].
  cbn [fst] in *. rewrite counters_with_redis_raises, H.
  destruct st as [r rr mem]. reflexivity.
Qed.

Lemma counters_after_response_time (base_url_of : string -> string)
    (url : string) (ms : pyfloat.float) (st : ollama.Stats) :
  counters (fst (ollama_registry.update_response_time base_url_of url ms st))
  = counters st.
Proof.
  unfold ollama_registry.update_response_time,
    ollama_registry._update_response_time_memory, counters.
  destruct st as [[r|] raises mem];
    cbn [ollama.redis ollama.redis_raises ollama.memory];
    [destruct raises; [|reflexivity]|];
    destruct (ollama.PERFORMANCE_STATS mem !! base_url_of url) as [entry|];
    try reflexivity;
    destruct (ollama.avg_response_time entry); try reflexivity;
    destruct (ollama.sample_count entry); reflexivity.
Qed.

Lemma counters_after_token_stats (base_url_of : string -> string)
    (url : string) (c d : Z) (st : ollama.Stats) :
  counters (fst (ollama.update_token_stats base_url_of url c d st))
  = counters st.
Proof.
  unfold ollama.update_token_stats.
  destruct (d <=? 0); [reflexivity|].
  destruct (ollama.tokens_per_second_of c d) as [tps|e]; [|reflexivity].
  destruct (pyfloat.ltb tps pyfloat.tenth
            || pyfloat.ltb pyfloat.thousand tps); [reflexivity|].
  unfold counters, ollama._update_token_stats_memory.
  destruct st as [[r|] raises mem];
    cbn [ollama.redis ollama.redis_raises ollama.memory];
    [destruct raises; [|reflexivity]|];
    destruct (ollama.PERFORMANCE_STATS mem !! base_url_of url); reflexivity.
Qed.

Lemma counters_after_token_stats_of_reply (base_url_of : string -> string)
    (url : string) (c d : json) (st : ollama.Stats) :
  counters
    (fst (ollama_registry.update_token_stats_of_reply base_url_of url c d st))
  = counters st.
Proof.
  unfold ollama_registry.update_token_stats_of_reply.
  destruct (ollama_registry.as_int d) as [d'|]; [|reflexivity].
  destruct (d' <=? 0); [reflexivity|].
  destruct (ollama_registry.as_int c) as [c'|]; [|reflexivity].
  apply counters_after_token_stats.
Qed.

(** The count read after one counter update, made while Redis raises or
    does not. *)
Lemma read_active_during_update (base_url_of : string -> string)
    (url : string) (delta : Z) (raises : bool) (st : ollama.Stats)
    (b : string) :
  let st' :=
    ollama_registry.during raises
      (ollama_registry.update_active_job_count base_url_of url delta) st in
  ollama.redis_raises st' = ollama.redis_raises st /\
  (ollama.redis st' = None <-> ollama.redis st = None) /\
  ollama.read_active_jobs b st'
  = if String.eqb b (base_url_of url) then
      match ollama.redis st with
      | Some _ =>
          if ollama.redis_raises st || raises
          then ollama.read_active_jobs b st
          else if 0 <? delta then ollama.read_active_jobs b st + delta
               else Z.max 0 (ollama.read_active_jobs b st + delta)
      | None => Z.max 0 (ollama.read_active_jobs b st + delta)
      end
    else ollama.read_active_jobs b st.
Proof.
  cbv zeta.
  unfold ollama_registry.during, ollama_registry.with_redis_raises,
    ollama_registry.update_active_job_count, ollama.read_active_jobs.
  destruct st as [[r|] rr mem];
    cbn [ollama.redis ollama.redis_raises ollama.memory].
  - destruct raises;
      cbn [ollama.with_redis ollama.redis ollama.redis_raises ollama.memory
           ollama.r_active_jobs].
    + split; [reflexivity|]. split; [tauto|].
      rewrite orb_true_r. destruct (String.eqb b (base_url_of url));
        reflexivity.
    + split; [reflexivity|]. split; [split; discriminate|].
      rewrite orb_false_r. destruct rr.
      { destruct (String.eqb b (base_url_of url)); reflexivity. }
      destruct (String.eqb_spec b (base_url_of url)) as [->|Hne].
      * set (old := default 0 (ollama.r_active_jobs r !! base_url_of url)).
        clearbody old. rewrite lookup_insert_eq. cbn [default from_option].
        unfold Datatypes.id.
        destruct (Z.ltb_spec 0 delta); [reflexivity|].
        replace (old - - delta) with (old + delta) by lia.
        destruct (Z.ltb_spec (old + delta) 0); lia.
      * rewrite lookup_insert_ne by congruence. reflexivity.
  - cbn [ollama.with_memory ollama.redis ollama.redis_raises ollama.memory
         ollama_registry.with_active_jobs ollama.ACTIVE_JOB_STATS].
    split; [reflexivity|]. split; [tauto|].
    destruct (String.eqb_spec b (base_url_of url)) as [->|Hne].
    + set (old := default 0 (ollama.ACTIVE_JOB_STATS mem !! base_url_of url)).
      clearbody old. rewrite lookup_insert_eq. cbn [default from_option].
      unfold Datatypes.id.
      destruct (Z.ltb_spec (old + delta) 0); lia.
    + rewrite lookup_insert_ne by congruence. reflexivity.
Qed.

(** The first [decrement_counter] of a call decrements, and whatever it
    raises, the counters are those after the decrement. *)
Lemma decrement_counter_first (base_url_of : string -> string) (url : string)
    (ms : pyfloat.float) (o : ollama_registry.redis_outages)
    (st : ollama.Stats) :
  exists st' exc,
    ollama_registry.decrement_counter base_url_of url ms o (false, st)
    = ((true, st'), exc) /\
    counters st'
    = counters
        (ollama_registry.during (ollama_registry.at_decrement o)
           (ollama_registry.update_active_job_count base_url_of url (-1)) st).
Proof.
  unfold ollama_registry.decrement_counter.
  set (st1 := ollama_registry.during _ _ st).
  pose proof (counters_during_raising (ollama_registry.at_response_time o)
                (ollama_registry.update_response_time base_url_of url ms) st1
                (counters_after_response_time base_url_of url ms)) as H.
  destruct (ollama_registry.during_raising _ _ st1) as [st' exc].
  exists st', exc. split; [reflexivity | exact H].
Qed.

(** Over a whole call the counters are those after the increment and the
    decrement, whatever the backend replies. *)
Lemma send_post_request_counters (base_url_of : string -> string)
    (url : string) (reply : ollama_registry.backend_reply)
    (ms : pyfloat.float) (o : ollama_registry.redis_outages)
    (st : ollama.Stats) :
  counters
    (fst (ollama_registry.send_post_request base_url_of url reply ms o st))
  = counters
      (ollama_registry.during (ollama_registry.at_decrement o)
         (ollama_registry.update_active_job_count base_url_of url (-1))
         (ollama_registry.during (ollama_registry.at_increment o)
            (ollama_registry.update_active_job_count base_url_of url 1) st)).
Proof.
  set (st1 := ollama_registry.during (ollama_registry.at_increment o)
                (ollama_registry.update_active_job_count base_url_of url 1) st).
  destruct (decrement_counter_first base_url_of url ms o st1)
    as (st3 & exc & Hdec & Hcount).
  assert (Hleave : forall code detail,
    counters
      (fst (ollama_registry.leave_raising base_url_of url ms o (false, st1)
              code detail))
    = counters st3).
  { intros code detail. unfold ollama_registry.leave_raising.
    rewrite Hdec. destruct exc; reflexivity. }
  rewrite <- Hcount.
  unfold ollama_registry.send_post_request. fold st1.
  destruct reply as [e | status [res|e'] e | status [res|e]];
    try apply Hleave.
  - destruct (dict_get "error" res); apply Hleave.
  - rewrite Hdec. destruct exc as [exc|].
    + unfold ollama_registry.leave_raising. reflexivity.
    + destruct (dict_get "eval_count" res) as [c|]; [|reflexivity].
      destruct (dict_get "eval_duration" res) as [d|]; [|reflexivity].
      pose proof (counters_during_raising (ollama_registry.at_token_stats o)
                    (ollama_registry.update_token_stats_of_reply base_url_of
                       url c d) st3
                    (counters_after_token_stats_of_reply base_url_of url c d))
        as H.
      destruct (ollama_registry.during_raising _ _ st3) as [st4 [exc|]];
        [unfold ollama_registry.leave_raising|]; exact H.
Qed.

(** X21.  The counter of active jobs over a non-streaming request, whatever
    the backend replies.  The counts of other backends are not changed.
    Without Redis the count read for the backend after [send_post_request]
    is the count read before it, provided that was not negative.  With Redis
    the increment and the decrement each have their own [try] block: when
    Redis raises at both or at neither, the count is again what it was (not
    negative); when it raises at the increment only, one is taken off
    (down to 0 at most); when it raises at the decrement only, one too many
    stays. *)
Theorem send_post_request_counter_balance (base_url_of : string -> string)
    (url : string) (reply : ollama_registry.backend_reply)
    (ms : pyfloat.float) (o : ollama_registry.redis_outages)
    (st : ollama.Stats) (backend : string) :
  let old := ollama.read_active_jobs backend st in
  let after :=
    ollama.read_active_jobs backend
      (fst (ollama_registry.send_post_request base_url_of url reply ms o st)) in
  (backend <> base_url_of url -> after = old) /\
  (ollama.redis st = None -> 0 <= old -> after = old) /\
  (0 <= old ->
   ollama_registry.at_increment o = ollama_registry.at_decrement o ->
   after = old) /\
  (backend = base_url_of url -> ollama.redis st <> None ->
   ollama.redis_raises st = false ->
   after
   = let counted :=
       if ollama_registry.at_increment o then old else old + 1 in
     if ollama_registry.at_decrement o then counted
     else Z.max 0 (counted - 1)).
Proof.
  intros old after.
  set (st1 := ollama_registry.during (ollama_registry.at_increment o)
                (ollama_registry.update_active_job_count base_url_of url 1) st).
  assert (Hafter :
    after
    = ollama.read_active_jobs backend
        (ollama_registry.during (ollama_registry.at_decrement o)
           (ollama_registry.update_active_job_count base_url_of url (-1))
           st1)).
  { apply read_active_jobs_counters, send_post_request_counters. }
  destruct (read_active_during_update base_url_of url 1
              (ollama_registry.at_increment o) st backend)
    as (Hrr1 & Hnone1 & Hread1).
  destruct (read_active_during_update base_url_of url (-1)
              (ollama_registry.at_decrement o) st1 backend)
    as (_ & _ & Hread2).
  fold st1 in Hrr1, Hnone1, Hread1.
  rewrite Hafter, Hread2, Hrr1, Hread1. fold old. clear Hafter Hread2 Hread1.
  destruct (String.eqb_spec backend (base_url_of url)) as [E|E].
  - assert (Hmode :
      (ollama.redis st1 = None /\ ollama.redis st = None)
      \/ (exists r1 r, ollama.redis st1 = Some r1 /\ ollama.redis st = Some r)).
    { destruct (ollama.redis st1) as [r1|] eqn:E1,
        (ollama.redis st) as [r|] eqn:E0.
      - right. eauto.
      - exfalso. destruct Hnone1 as [_ H]. discriminate (H eq_refl).
      - exfalso. destruct Hnone1 as [H _]. discriminate (H eq_refl).
      - left. auto. }
    destruct Hmode as [[-> ->] | (r1 & r & -> & ->)].
    + split; [contradiction|]. split; [intros _ Hold; lia|].
      split; [intros Hold _; lia|]. intros _ H. contradiction.
    + split; [contradiction|]. split; [discriminate|].
      destruct (ollama.redis_raises st),
        (ollama_registry.at_increment o), (ollama_registry.at_decrement o);
        cbn [orb]; (split; [intros Hold Hsame; try discriminate;
                            try reflexivity; simpl; lia|]);
        intros _ _ Hrr; try discriminate; simpl; lia.
  - split; [reflexivity|]. split; [reflexivity|]. split; [reflexivity|].
    intros H. contradiction.
Qed.

Lemma send_post_request_counter_balance_witness :
  let st :=
    ollama.mkStats
      (Some (ollama.mkRedis {[ "http://gpu-a:11434" := 5 ]} ∅ ∅ ∅ ∅)) false
      (ollama.mkMemory ∅ ∅ ∅) in
  let reply := ollama_registry.Reply_ok 200 (Ok Sample.hello) in
  let ms := pyfloat.round_int 250 in
  let after := fun o =>
    ollama.read_active_jobs "http://gpu-a:11434"
      (fst (ollama_registry.send_post_request Sample.origin
              "http://gpu-a:11434" reply ms o st)) in
  ollama.read_active_jobs "http://gpu-a:11434" st = 5 /\
  after (ollama_registry.mkOutages false false false false) = 5 /\
  after (ollama_registry.mkOutages true false false false) = 4 /\
  after (ollama_registry.mkOutages false true false false) = 6.
Proof.
  cbv zeta. split; [reflexivity|].
  pose proof (fun o =>
    send_post_request_counter_balance Sample.origin "http://gpu-a:11434"
      (ollama_registry.Reply_ok 200 (Ok Sample.hello))
      (pyfloat.round_int 250) o
      (ollama.mkStats
         (Some (ollama.mkRedis {[ "http://gpu-a:11434" := 5 ]} ∅ ∅ ∅ ∅)) false
         (ollama.mkMemory ∅ ∅ ∅))
      "http://gpu-a:11434") as H.
  cbv zeta in H.
  split; [|split].
  - destruct (H (ollama_registry.mkOutages false false false false))
      as (_ & _ & _ & Hv).
    rewrite Hv; [reflexivity | reflexivity | discriminate | reflexivity].
  - destruct (H (ollama_registry.mkOutages true false false false))
      as (_ & _ & _ & Hv).
    rewrite Hv; [reflexivity | reflexivity | discriminate | reflexivity].
  - destruct (H (ollama_registry.mkOutages false true false false))
      as (_ & _ & _ & Hv).
    rewrite Hv; [reflexivity | reflexivity | discriminate | reflexivity].
Defined.

(** X22.  Without Redis, when the backend's entry in [PERFORMANCE_STATS] has
    no [avg_response_time] (the entry [_update_token_stats_memory] creates
    when it runs before any response time was recorded), a request the backend
    answers successfully does not return the answer: recording the response
    time raises [KeyError], and [send_post_request] raises an HTTPException
    with the backend's status code and the detail
    [Ollama: 'avg_response_time']. *)
Theorem send_post_request_fails_on_tokens_only_entry
    (base_url_of : string -> string) (url : string) (status : Z)
    (res : pydict) (ms : pyfloat.float) (o : ollama_registry.redis_outages)
    (st : ollama.Stats) (entry : ollama.PerfStats) :
  ollama.redis st = None ->
  ollama.PERFORMANCE_STATS (ollama.memory st) !! base_url_of url = Some entry ->
  ollama.avg_response_time entry = None ->
  snd (ollama_registry.send_post_request base_url_of url
         (ollama_registry.Reply_ok status (Ok res)) ms o st)
  = ollama_registry.Raised_HTTPException status
      (JStr "Ollama: 'avg_response_time'").
Proof.
  intros Hr Hentry Havg.
  destruct st as [r raises mem]. simpl in Hr, Hentry. subst r.
  unfold ollama_registry.send_post_request, ollama_registry.decrement_counter,
    ollama_registry.during, ollama_registry.during_raising,
    ollama_registry.with_redis_raises,
    ollama_registry.update_response_time,
    ollama_registry.update_active_job_count,
    ollama_registry._update_response_time_memory.
  cbn [ollama.redis ollama.redis_raises ollama.memory ollama.with_memory
       ollama_registry.with_active_jobs ollama.PERFORMANCE_STATS
       ollama.ACTIVE_JOB_STATS].
  rewrite Hentry, Havg. reflexivity.
Qed.

Lemma send_post_request_fails_on_tokens_only_entry_witness :
  let st :=
    fst (ollama.update_token_stats Sample.origin "http://gpu-a:11434" 10
           1000000000 Sample.no_stats) in
  ollama.redis st = None /\
  ollama.PERFORMANCE_STATS (ollama.memory st) !! "http://gpu-a:11434"
    = Some (ollama.mkPerf None None (Some (pyfloat.round_int 10))) /\
  snd (ollama_registry.send_post_request Sample.origin "http://gpu-a:11434"
         (ollama_registry.Reply_ok 200 (Ok Sample.hello))
         (pyfloat.round_int 250)
         (ollama_registry.mkOutages false false false false) st)
  = ollama_registry.Raised_HTTPException 200
      (JStr "Ollama: 'avg_response_time'").
Proof.
  cbv zeta. split; [reflexivity|]. split; [vm_compute; reflexivity|].
  apply (send_post_request_fails_on_tokens_only_entry Sample.origin
           "http://gpu-a:11434" 200 Sample.hello (pyfloat.round_int 250)
           (ollama_registry.mkOutages false false false false)
           (fst (ollama.update_token_stats Sample.origin "http://gpu-a:11434"
                   10 1000000000 Sample.no_stats))
           (ollama.mkPerf None None (Some (pyfloat.round_int 10))));
    [reflexivity | vm_compute; reflexivity | reflexivity].
Defined.

(** ** Choosing a backend *)

Lemma collect_metrics_spec (base_url_of : string -> string)
    (urls : list string) (st : ollama.Stats) (cands : list nat)
    (servers : list ollama.ServerMetrics) :
  ollama.collect_metrics base_url_of urls st cands = Ok servers ->
  map ollama.idx servers = cands /\
  forall m, In m servers ->
    exists url,
      nth_error urls (ollama.idx m) = Some url /\
      ollama.base_url m = base_url_of url /\
      ollama.active_jobs m = ollama.read_active_jobs (base_url_of url) st /\
      ollama.m_avg_response_time m
        = ollama.read_avg_response_time (base_url_of url) st /\
      ollama.health_status m = ollama.get_health_status (base_url_of url) st.
Proof.
  revert servers. induction cands as [|i rest IH]; intros servers H; simpl in H.
  - injection H as <-. split; [reflexivity | intros m []].
  - destruct (nth_error urls i) as [url|] eqn:Hu; [|discriminate].
    destruct (ollama.collect_metrics base_url_of urls st rest) as [rest'|];
      simpl in H; [|discriminate].
    injection H as <-. destruct (IH rest' eq_refl) as [Hmap Hall].
    split; [simpl; rewrite Hmap; reflexivity|].
    intros m [<- | Hm]; [|apply Hall; exact Hm].
    exists url. simpl. auto.
Qed.

Lemma healthy_of_sub (servers : list ollama.ServerMetrics)
    (m : ollama.ServerMetrics) :
  In m (ollama.healthy_of servers) -> In m servers.
Proof.
  unfold ollama.healthy_of.
  destruct (List.filter (fun m => negb (ollama.is_unhealthy m)) servers)
    as [|a l] eqn:E; [auto|].
  intros H. rewrite <- E in H. apply filter_In in H. apply H.
Qed.

(** X23.  For a model with a non-empty candidate list whose entries all index
    [OLLAMA_BASE_URLS] and whose scores
    [W_jobs * active_jobs + W_latency * (latency / 1000.0)], computed in
    binary64, are all finite numbers, [get_ollama_url] returns the url and
    index of a candidate whose score is the least among the candidates not
    marked unhealthy (among all of them when every one is unhealthy), the
    first such candidate in candidate order; it returns a candidate not
    marked unhealthy whenever there is one.  Scores are compared as the
    floats they are rounded to. *)
Theorem get_ollama_url_least_score (base_url_of : string -> string)
    (W_jobs W_latency : pyfloat.float) (models : gmap string (list nat))
    (urls : list string) (st : ollama.Stats) (rnd : nat) (model : string)
    (cands : list nat) (servers : list ollama.ServerMetrics) :
  models !! model = Some cands ->
  cands <> [] ->
  ollama.collect_metrics base_url_of urls st cands = Ok servers ->
  forallb (finite_score W_jobs W_latency) servers = true ->
  exists earlier m later url s,
    ollama.healthy_of servers = earlier ++ m :: later /\
    In (ollama.idx m) cands /\
    nth_error urls (ollama.idx m) = Some url /\
    ollama.score_of W_jobs W_latency m = Ok s /\
    ollama.get_ollama_url base_url_of W_jobs W_latency models urls st rnd model
    = Ok (url, ollama.idx m) /\
    (forall x, In x (ollama.healthy_of servers) ->
       exists sx,
         ollama.score_of W_jobs W_latency x = Ok sx /\
         pyfloat.leb s sx = true) /\
    (forall x, In x earlier ->
       exists sx,
         ollama.score_of W_jobs W_latency x = Ok sx /\
         pyfloat.ltb s sx = true) /\
    ((exists x, In x servers /\ ollama.is_unhealthy x = false) ->
     ollama.is_unhealthy m = false).
Proof.
  intros Hmodel Hne Hcollect Hfinite.
  destruct (collect_metrics_spec _ _ _ _ _ Hcollect) as [Hmap Hall].
  assert (Hservers : servers <> []).
  { intros ->. simpl in Hmap. congruence. }
  destruct (scoring_loop_spec W_jobs W_latency (ollama.healthy_of servers)
              (healthy_of_nonempty servers Hservers)
              (healthy_of_finite W_jobs W_latency servers Hfinite))
    as (earlier & m & later & s & Hsplit & Hs & Hloop & Hmin & Hfirst).
  assert (Hm : In m (ollama.healthy_of servers)).
  { rewrite Hsplit. apply in_or_app. right. left. reflexivity. }
  pose proof (healthy_of_sub _ _ Hm) as Hms.
  destruct (Hall m Hms) as (url & Hurl & _).
  exists earlier, m, later, url, s.
  split; [exact Hsplit|]. split.
  { rewrite <- Hmap. apply in_map. exact Hms. }
  split; [exact Hurl|]. split; [exact Hs|]. split.
  { unfold ollama.get_ollama_url. rewrite Hmodel.
    destruct cands as [|i rest]; [contradiction|].
    rewrite Hcollect. cbv beta iota delta [mbind outcome_bind].
    rewrite Hloop. cbv beta iota delta [mbind outcome_bind snd].
    rewrite Hurl. reflexivity. }
  split; [exact Hmin|]. split; [exact Hfirst|].
  intros (x & Hx & Hhx).
  unfold ollama.healthy_of in Hm.
  destruct (List.filter (fun m => negb (ollama.is_unhealthy m)) servers)
    as [|a l] eqn:E.
  - exfalso.
    assert (Hin : In x (List.filter (fun m => negb (ollama.is_unhealthy m))
                          servers)).
    { apply filter_In. split; [exact Hx|]. rewrite Hhx. reflexivity. }
    rewrite E in Hin. destruct Hin.
  - rewrite <- E in Hm. apply filter_In in Hm. destruct Hm as [_ Hm].
    apply negb_true_iff in Hm. exact Hm.
Qed.

Lemma get_ollama_url_least_score_witness :
  let servers :=
    [ ollama.mkMetrics 0 "http://gpu-a:11434" 5 pyfloat.zero (Some "unknown");
      ollama.mkMetrics 1 "http://gpu-b:11434" 0 pyfloat.zero (Some "unknown") ] in
  Sample.models !! "llama3:latest" = Some [0%nat; 1%nat] /\
  [0%nat; 1%nat] <> [] /\
  ollama.collect_metrics Sample.origin Sample.base_urls Sample.busy_first
    [0%nat; 1%nat] = Ok servers /\
  forallb (finite_score pyfloat.one pyfloat.one) servers = true /\
  exists m,
    ollama.get_ollama_url Sample.origin pyfloat.one pyfloat.one Sample.models
      Sample.base_urls Sample.busy_first 0 "llama3:latest"
    = Ok ("http://gpu-b:11434", ollama.idx m) /\
    ollama.idx m = 1%nat.
Proof.
  cbv zeta. split; [reflexivity|]. split; [discriminate|].
  split; [vm_compute; reflexivity|]. split; [vm_compute; reflexivity|].
  assert (E : ollama.get_ollama_url Sample.origin pyfloat.one pyfloat.one
                Sample.models Sample.base_urls Sample.busy_first 0
                "llama3:latest"
              = Ok ("http://gpu-b:11434", 1%nat)) by (vm_compute; reflexivity).
  destruct (get_ollama_url_least_score Sample.origin pyfloat.one pyfloat.one
              Sample.models Sample.base_urls Sample.busy_first 0
              "llama3:latest" [0%nat; 1%nat]
              [ ollama.mkMetrics 0 "http://gpu-a:11434" 5 pyfloat.zero
                  (Some "unknown");
                ollama.mkMetrics 1 "http://gpu-b:11434" 0 pyfloat.zero
                  (Some "unknown") ]
              eq_refl ltac:(discriminate) eq_refl eq_refl)
    as (earlier & m & later & url & s & _ & _ & _ & _ & Hres & _).
  exists m. rewrite Hres in E. injection E as Hurl Hidx.
  split; [rewrite Hres, Hurl; reflexivity | exact Hidx].
Defined.

(** Two backends with three active jobs each; the first has answered in
    250.0000000000001 ms on average, the second in 250.0 ms.  Both scores
    round to 3.25, and the first backend is kept. *)
Example get_ollama_url_equal_rounded_scores :
  let slower := S754_finite false 8796093022208001 (-45) in
  let faster := S754_finite false 8796093022208000 (-45) in
  let st :=
    ollama.mkStats None false
      (ollama.mkMemory
         {[ "http://gpu-a:11434" := 3; "http://gpu-b:11434" := 3 ]}
         {[ "http://gpu-a:11434" := ollama.mkPerf (Some slower) (Some 1) None;
            "http://gpu-b:11434" := ollama.mkPerf (Some faster) (Some 1) None ]}
         ∅) in
  pyfloat.ltb faster slower = true /\
  faster = pyfloat.round_int 250 /\
  ollama.get_ollama_url Sample.origin pyfloat.one pyfloat.one Sample.models
    Sample.base_urls st 0 "llama3:latest"
  = Ok ("http://gpu-a:11434", 0%nat).
Proof. vm_compute. repeat split. Qed.

(** ** Daily buckets, east of UTC *)

Lemma day_label_other_east_of_utc_witness :
  0 <= 1700000000 /\ 0 <= 3600 < analytics.day_secs /\
  analytics.day_label_other 3600 1700000000 = "2023-11-14".
Proof.
  split; [lia|]. split; [unfold analytics.day_secs; lia|].
  rewrite (day_label_other_east_of_utc 3600 1700000000);
    [reflexivity | lia | unfold analytics.day_secs; lia].
Defined.

(** ** The load-balancing strategy *)




(** ** Backend snapshots *)

Lemma StronglySorted_app_cross {A} (R : A -> A -> Prop) (l1 l2 : list A) :
  StronglySorted R (l1 ++ l2) ->
  forall a b, In a l1 -> In b l2 -> R a b.
Proof.
  induction l1 as [|x l1 IH]; intros Hs a b Ha Hb; [destruct Ha|].
  simpl in Hs. inversion Hs as [|? ? Hs' Hall]; subst.
  destruct Ha as [<- | Ha].
  - rewrite List.Forall_forall in Hall. apply Hall.
    apply in_or_app. right. exact Hb.
  - apply IH; assumption.
Qed.

Lemma StronglySorted_snoc {A} (R : A -> A -> Prop) (l : list A) (a : A) :
  StronglySorted R l -> (forall x, In x l -> R x a) ->
  StronglySorted R (l ++ [a]).
Proof.
  induction 1 as [|x l Hs IH Hall]; intros Hlast; simpl.
  - constructor; constructor.
  - constructor.
    + apply IH. intros y Hy. apply Hlast. right. exact Hy.
    + apply List.Forall_forall. intros y Hy. apply in_app_or in Hy.
      destruct Hy as [Hy | [<- | []]].
      * rewrite List.Forall_forall in Hall. apply Hall. exact Hy.
      * apply Hlast. left. reflexivity.
Qed.

Lemma StronglySorted_rev {A} (R : A -> A -> Prop) (l : list A) :
  StronglySorted R l -> StronglySorted (fun a b => R b a) (rev l).
Proof.
  induction 1 as [|x l Hs IH Hall]; simpl; [constructor|].
  apply StronglySorted_snoc; [exact IH|].
  intros y Hy. apply in_rev in Hy.
  rewrite List.Forall_forall in Hall. apply Hall. exact Hy.
Qed.

Lemma latest_first_asym (a b : BackendSnapshotsTable.BackendSnapshot) :
  BackendSnapshotsTable.latest_first a b = true ->
  BackendSnapshotsTable.latest_first b a = false.
Proof.
  unfold BackendSnapshotsTable.latest_first. rewrite Z.ltb_lt, Z.ltb_ge. lia.
Qed.

Lemma latest_first_negtrans (a b c : BackendSnapshotsTable.BackendSnapshot) :
  BackendSnapshotsTable.latest_first a b = false ->
  BackendSnapshotsTable.latest_first b c = false ->
  BackendSnapshotsTable.latest_first a c = false.
Proof. unfold BackendSnapshotsTable.latest_first. rewrite !Z.ltb_ge. lia. Qed.

(** X26.  [get_recent] returns at most [limit] snapshots, all of the backend
    asked for and, when [since] is given and not 0, none captured before it;
    they come oldest first; and they are the most recent ones: together with
    the matching snapshots left out they make up all matching snapshots, and
    no snapshot left out was captured after one that is returned. *)
Theorem get_recent_most_recent (url : string) (limit : nat) (since : option Z)
    (table : list BackendSnapshotsTable.BackendSnapshot) :
  let found := BackendSnapshotsTable.get_recent url limit since table in
  let matching :=
    List.filter
      (fun r =>
         String.eqb (BackendSnapshotsTable.backend_url r) url
         && match since with
            | Some t =>
                if t =? 0 then true
                else t <=? BackendSnapshotsTable.captured_at r
            | None => true
            end)
      table in
  (length found <= limit)%nat /\
  (forall r, In r found -> In r matching) /\
  StronglySorted
    (fun a b => BackendSnapshotsTable.captured_at a
                <= BackendSnapshotsTable.captured_at b)
    found /\
  exists left_out,
    Permutation (found ++ left_out) matching /\
    forall x y, In x left_out -> In y found ->
      BackendSnapshotsTable.captured_at x <= BackendSnapshotsTable.captured_at y.
Proof.
  cbv zeta. unfold BackendSnapshotsTable.get_recent.
  set (q := match since with
            | Some t =>
                if t =? 0
                then List.filter
                       (fun r => String.eqb (BackendSnapshotsTable.backend_url r) url)
                       table
                else List.filter
                       (fun r => t <=? BackendSnapshotsTable.captured_at r)
                       (List.filter
                          (fun r => String.eqb
                                      (BackendSnapshotsTable.backend_url r) url)
                          table)
            | None =>
                List.filter
                  (fun r => String.eqb (BackendSnapshotsTable.backend_url r) url)
                  table
            end).
  set (matching := List.filter _ table).
  assert (Hq : q = matching).
  { unfold q, matching. destruct since as [t|].
    - destruct (t =? 0).
      + apply List.filter_ext. intros r. rewrite andb_true_r. reflexivity.
      + clear. induction table as [|r table IH]; simpl; [reflexivity|].
        destruct (String.eqb (BackendSnapshotsTable.backend_url r) url); simpl;
          [|exact IH].
        destruct (t <=? BackendSnapshotsTable.captured_at r);
          [f_equal|]; exact IH.
    - apply List.filter_ext. intros r. rewrite andb_true_r. reflexivity. }
  rewrite Hq. clear q Hq.
  set (sorted := job_scheduler.order_by BackendSnapshotsTable.latest_first
                   matching).
  assert (Hperm : Permutation sorted matching)
    by apply order_by_perm.
  assert (Hs : StronglySorted
                 (fun a b => BackendSnapshotsTable.captured_at b
                             <= BackendSnapshotsTable.captured_at a)
                 sorted).
  { apply StronglySorted_impl
      with (R := fun a b => BackendSnapshotsTable.latest_first b a = false).
    - intros a b Hb. unfold BackendSnapshotsTable.latest_first in Hb.
      apply Z.ltb_ge in Hb. exact Hb.
    - apply (order_by_sorted BackendSnapshotsTable.latest_first
               latest_first_asym latest_first_negtrans). }
  split; [rewrite length_rev; apply firstn_le_length|].
  split.
  { intros r Hr. apply in_rev in Hr. apply (Permutation_in _ Hperm).
    apply (In_firstn_In limit). exact Hr. }
  split.
  { apply (StronglySorted_rev
             (fun a b => BackendSnapshotsTable.captured_at b
                         <= BackendSnapshotsTable.captured_at a)).
    apply StronglySorted_firstn. exact Hs. }
  exists (skipn limit sorted). split.
  - rewrite <- Hperm. rewrite <- (firstn_skipn limit sorted) at 3.
    apply Permutation_app_tail. symmetry. apply Permutation_rev.
  - intros x y Hx Hy. apply in_rev in Hy.
    rewrite <- (firstn_skipn limit sorted) in Hs.
    apply (StronglySorted_app_cross _ _ _ Hs y x Hy Hx).
Qed.

(** ** The admin list and the manual sweep *)

(** X27.  The admin list counts what it lists: [total] is the number of rows
    that pass the three filters, every entry of the page is the view of such
    a row, and the page holds exactly [min limit (total - skip)] entries. *)
Theorem admin_list_jobs_page (db : DB) (skip limit : nat)
    (status_filter model_filter user_filter : option string) :
  let page :=
    jobs_lists.admin_list_jobs db skip limit status_filter model_filter
      user_filter in
  let passes := fun j =>
    JobsQueries.status_matches status_filter j
    && JobsQueries.model_matches model_filter j
    && JobsQueries.user_matches user_filter j in
  jobs_lists.total page = length (List.filter passes (job_table db)) /\
  length (jobs_lists.jobs page)
    = Nat.min limit (jobs_lists.total page - skip) /\
  (forall view, In view (jobs_lists.jobs page) ->
     exists j, In j (job_table db) /\ passes j = true /\
               view = jobs_router._to_response j).
Proof.
  intros page passes. subst page.
  unfold jobs_lists.admin_list_jobs, JobsQueries.get_jobs_admin,
    JobsQueries.count_jobs_admin.
  cbn [jobs_lists.total jobs_lists.jobs]. fold passes.
  split; [reflexivity|]. split.
  - rewrite length_map, length_firstn, length_skipn.
    rewrite (Permutation_length
               (order_by_perm JobsQueries.newest_first
                  (List.filter passes (job_table db)))).
    reflexivity.
  - intros view Hview. apply in_map_iff in Hview.
    destruct Hview as (j & <- & Hj).
    apply In_firstn_In in Hj. apply In_skipn_In in Hj.
    apply (Permutation_in _ (order_by_perm JobsQueries.newest_first _)) in Hj.
    apply filter_In in Hj. destruct Hj as [Hin Hp].
    exists j. auto.
Qed.

(** X28.  The manual sweep, when nothing raises and job ids are unique:
    [archived] is the number of terminal rows last updated before
    [now - JOB_RETENTION_DAYS * 86400], and these rows leave the job table.
    With a positive [JOB_ARCHIVE_RETENTION_DAYS] the purge that follows
    deletes, and counts in [purged], only rows that were in the archive
    before the sweep and are older than that retention; the rows archived by
    this sweep are all kept.  With a retention of 0 or less nothing is
    purged. *)
Theorem run_archive_sweep_keeps_new_archives
    (now JOB_RETENTION_DAYS JOB_ARCHIVE_RETENTION_DAYS : Z) (db : DB) :
  List.NoDup (map id (job_table db)) ->
  let is_old := fun j =>
    in_terminal (status j)
    && (updated_at j <? now - JOB_RETENTION_DAYS * 86400) in
  let expired := fun r =>
    (0 <? JOB_ARCHIVE_RETENTION_DAYS)
    && (archived_at r <? now - JOB_ARCHIVE_RETENTION_DAYS * 86400) in
  jobs_lists.run_archive_sweep now JOB_RETENTION_DAYS
    JOB_ARCHIVE_RETENTION_DAYS NoFault NoFault db
  = (mkDB (List.filter (fun j => negb (is_old j)) (job_table db))
          (List.filter (fun r => negb (expired r)) (job_archive_table db)
           ++ map (fun j => mkJobArchive j now)
                (List.filter is_old (job_table db))),
     (Z.of_nat (length (List.filter is_old (job_table db))),
      Z.of_nat (length (List.filter expired (job_archive_table db))))).
Proof.
  intros Hnd is_old expired.
  unfold jobs_lists.run_archive_sweep.
  rewrite (archive_old_jobs_success now JOB_RETENTION_DAYS db Hnd).
  fold is_old.
  assert (Hmap : map (JobArchiveTable.to_archive now)
                   (List.filter is_old (job_table db))
                 = map (fun j => mkJobArchive j now)
                     (List.filter is_old (job_table db))).
  { apply List.map_ext. intros j. destruct j; reflexivity. }
  rewrite Hmap. clear Hmap.
  subst expired.
  destruct (Z.ltb_spec 0 JOB_ARCHIVE_RETENTION_DAYS) as [Hpos|Hle];
    cbn [andb negb].
  - unfold JobArchiveTable.purge_old_archives.
    destruct (Z.leb_spec JOB_ARCHIVE_RETENTION_DAYS 0) as [Hbad|_]; [lia|].
    cbn [get_db_context query_guard commit job_table job_archive_table].
    set (cutoff := now - JOB_ARCHIVE_RETENTION_DAYS * 86400).
    set (fresh := map (fun j => mkJobArchive j now)
                    (List.filter is_old (job_table db))).
    assert (Hfresh : List.filter (fun r => negb (archived_at r <? cutoff)) fresh
                     = fresh).
    { subst fresh. induction (List.filter is_old (job_table db)) as [|j l IH];
        [reflexivity|].
      cbn [map List.filter archived_at].
      destruct (Z.ltb_spec now cutoff) as [Hlt|_]; [subst cutoff; lia|].
      cbn [negb]. f_equal. exact IH. }
    rewrite List.filter_app, Hfresh.
    pose proof (filter_partition_length
                  (fun r => archived_at r <? cutoff) (job_archive_table db))
      as Hlen.
    f_equal. f_equal. rewrite !length_app. lia.
  - f_equal.
    + f_equal. f_equal.
      induction (job_archive_table db) as [|r l IH]; [reflexivity|].
      cbn [List.filter]. f_equal. exact IH.
    + f_equal.
      induction (job_archive_table db) as [|r l IH]; [reflexivity|].
      cbn [List.filter]. exact IH.
Qed.

Lemma run_archive_sweep_keeps_new_archives_witness :
  List.NoDup (map id (job_table Sample.aged_db)) /\
  jobs_lists.run_archive_sweep Sample.archive_now 30 1 NoFault NoFault
    Sample.aged_db
  = (mkDB []
       [ mkJobArchive
           (Sample.job "job-o" "u1" JOB_STATUS_COMPLETED 5 5 1
              (Sample.archive_now - 41 * 86400)
              (Sample.archive_now - 40 * 86400))
           Sample.archive_now ],
     (1, 0)).
Proof.
  split; [exact aged_db_primary_key|].
  rewrite (run_archive_sweep_keeps_new_archives Sample.archive_now 30 1
             Sample.aged_db aged_db_primary_key).
  reflexivity.
Defined.
